(** * Antigravity Claude Proxy: router, validator, transcoder and dispatcher

    A shallow embedding of the request path of the proxy:
    - [src/utils/validators.js]      (module [Validators])
    - [src/transcoders/openai.js]    (module [OpenAITranscoder])
    - [src/gateway.js]               (module [Gateway])
    - [src/routes/messages.js]       (module [Messages])
    - the matching of paths by Express (module [Http])
    - the routers of the management API (module [Routers])
    - [src/server.js] and the earlier monolithic server (module [Server])
    - [src/cloudcode/streaming-handler.js] (module [StreamingHandler])
    - [src/session-manager.js] and [src/routes/sessions.js]
      (modules [SessionManager] and [SessionsRouter])
    - [src/launcher.js]              (module [TerminalLauncher])
    - [src/transcoders/gemini.js]    (module [GeminiTranscoder])

    Request bodies are the values produced by [JSON.parse]; they are modelled
    by the inductive type [json].  A property read [o.k] yields [option json],
    [None] standing for [undefined].  JavaScript exceptions are modelled by an
    explicit result type; the conversions to a string that the code applies
    to request data can throw, and are modelled as such.  A string is a
    sequence of code units, taken in the range U+0000 to U+00FF; its length
    is the number of its code units.

    The definitions come first: the modules above, then the notions of the
    specification and the examples.  The lemmas and the theorems of the
    claims C1 to C10 follow, and then further properties of the code, X1
    to X30. *)

From Stdlib Require Import String Ascii List ZArith QArith Bool Lia Arith.
From Stdlib Require Import Numbers.DecimalString.
From Stdlib Require Import Permutation Sorted.
Import ListNotations.
Close Scope Q_scope.
Open Scope string_scope.

(* ================================================================= *)
(** ** JavaScript values and primitives *)

Module JS.

(** A JavaScript number obtained from a JSON document: a finite double (a
    rational) or an infinity (an overflowing literal such as [1e999]).
    [NaN] cannot be written in JSON. *)
Inductive number :=
| Fin (q : Q)
| PosInf
| NegInf.

Definition ofZ (z : Z) : number := Fin (inject_Z z).

Definition num_truthy (n : number) : bool :=
  match n with
  | Fin q => negb (Qeq_bool q 0)
  | _ => true
  end.

(** [a < b] on numbers. *)
Definition num_lt (a b : number) : bool :=
  match a, b with
  | Fin x, Fin y => negb (Qle_bool y x)
  | NegInf, NegInf => false
  | NegInf, _ => true
  | _, PosInf => match a with PosInf => false | _ => true end
  | _, _ => false
  end.

(** [Number.isInteger]. *)
Definition isInteger (n : number) : bool :=
  match n with
  | Fin q => (Qnum q mod Z.pos (Qden q) =? 0)%Z
  | _ => false
  end.

(** [Math.min] (no NaN can occur). *)
Definition num_min (a b : number) : number := if num_lt b a then b else a.

Unset Elimination Schemes.
Inductive json :=
| JNull
| JBool (b : bool)
| JNum (n : number)
| JStr (s : string)
| JArr (items : list json)
| JObj (props : list (string * json)).
Set Elimination Schemes.

Section JsonInduction.
Variable P : json -> Prop.
Hypothesis Hnull : P JNull.
Hypothesis Hbool : forall b, P (JBool b).
Hypothesis Hnum : forall n, P (JNum n).
Hypothesis Hstr : forall s, P (JStr s).
Hypothesis Harr : forall items, Forall P items -> P (JArr items).
Hypothesis Hobj : forall props, Forall (fun kv => P (snd kv)) props -> P (JObj props).

Fixpoint json_ind (v : json) : P v :=
  match v with
  | JNull => Hnull
  | JBool b => Hbool b
  | JNum n => Hnum n
  | JStr s => Hstr s
  | JArr items =>
      Harr items
        ((fix all (l : list json) : Forall P l :=
            match l with
            | [] => Forall_nil P
            | x :: r => Forall_cons x (json_ind x) (all r)
            end) items)
  | JObj props =>
      Hobj props
        ((fix all (l : list (string * json)) : Forall (fun kv => P (snd kv)) l :=
            match l with
            | [] => Forall_nil _
            | kv :: r => Forall_cons kv (json_ind (snd kv)) (all r)
            end) props)
  end.
End JsonInduction.

(** The result of [typeof]. *)
Inductive jstype := TUndefined | TObject | TBoolean | TNumber | TString.

Definition jstype_eqb (a b : jstype) : bool :=
  match a, b with
  | TUndefined, TUndefined | TObject, TObject | TBoolean, TBoolean
  | TNumber, TNumber | TString, TString => true
  | _, _ => false
  end.

(** [typeof v]; note [typeof null === 'object']. *)
Definition typeof (v : option json) : jstype :=
  match v with
  | None => TUndefined
  | Some JNull => TObject
  | Some (JBool _) => TBoolean
  | Some (JNum _) => TNumber
  | Some (JStr _) => TString
  | Some (JArr _) => TObject
  | Some (JObj _) => TObject
  end.

(** Truthiness ([ToBoolean]). *)
Definition truthy (v : option json) : bool :=
  match v with
  | None => false
  | Some JNull => false
  | Some (JBool b) => b
  | Some (JNum n) => num_truthy n
  | Some (JStr s) => negb (s =? EmptyString)
  | Some (JArr _) => true
  | Some (JObj _) => true
  end.

Definition isArray (v : option json) : bool :=
  match v with Some (JArr _) => true | _ => false end.

Fixpoint assoc (k : string) (props : list (string * json)) : option json :=
  match props with
  | [] => None
  | (k', v) :: r => if k =? k' then Some v else assoc k r
  end.

(** The property read [v.k] on a non-null value, for the property names the
    proxy reads ([messages], [model], [type], [text], ...): none of them is
    defined on a built-in prototype, so the read finds an own property of an
    object or is [undefined]. *)
Definition get (k : string) (v : json) : option json :=
  match v with
  | JObj props => assoc k props
  | _ => None
  end.

(** [o.k] where [o] itself may be [undefined] is only used behind guards. *)
Definition get_opt (k : string) (v : option json) : option json :=
  match v with Some o => get k o | None => None end.

(** [Object.keys]. *)
Definition keys (props : list (string * json)) : list string := map fst props.

(** Strict equality with a string literal: [v === 'lit']. *)
Definition is_str (lit : string) (v : option json) : bool :=
  match v with Some (JStr s) => s =? lit | _ => false end.

(** An object literal under construction; a property whose value is
    [undefined] is not serialised by [JSON.stringify], and is left out. *)
Fixpoint mkobj (fields : list (string * option json)) : list (string * json) :=
  match fields with
  | [] => []
  | (k, Some v) :: r => (k, v) :: mkobj r
  | (_, None) :: r => mkobj r
  end.

Definition obj (fields : list (string * option json)) : json := JObj (mkobj fields).

(** *** Strings *)

(** [s.startsWith(p)]. *)
Definition startsWith (p s : string) : bool := String.prefix p s.

(** [s.includes(needle)]. *)
Fixpoint includes (needle s : string) : bool :=
  if String.prefix needle s then true
  else match s with
       | EmptyString => false
       | String _ r => includes needle r
       end.

Definition between (lo hi : nat) (c : ascii) : bool :=
  let n := nat_of_ascii c in ((lo <=? n) && (n <=? hi))%nat.

(** [toLowerCase] on one code unit of the Latin-1 range. *)
Definition lower_char (c : ascii) : ascii :=
  let n := nat_of_ascii c in
  if between 65 90 c then ascii_of_nat (n + 32)
  else if between 192 222 c && negb (n =? 215)%nat then ascii_of_nat (n + 32)
  else c.

Fixpoint toLowerCase (s : string) : string :=
  match s with
  | EmptyString => EmptyString
  | String c r => String (lower_char c) (toLowerCase r)
  end.

(** White space removed by [trim]. *)
Definition is_space (c : ascii) : bool :=
  let n := nat_of_ascii c in
  between 9 13 c || (n =? 32)%nat || (n =? 160)%nat.

Fixpoint trimStart (s : string) : string :=
  match s with
  | EmptyString => EmptyString
  | String c r => if is_space c then trimStart r else s
  end.

Fixpoint all_space (s : string) : bool :=
  match s with
  | EmptyString => true
  | String c r => is_space c && all_space r
  end.

Fixpoint trimEnd (s : string) : string :=
  match s with
  | EmptyString => EmptyString
  | String c r => if all_space s then EmptyString else String c (trimEnd r)
  end.

Definition trim (s : string) : string := trimEnd (trimStart s).

(** [s.substring(n)]. *)
Fixpoint drop (n : nat) (s : string) : string :=
  match n, s with
  | O, _ => s
  | S k, EmptyString => EmptyString
  | S k, String _ r => drop k r
  end.

Definition newline : ascii := ascii_of_nat 10.

(** [s.split('\n')]. *)
Fixpoint split_lines_aux (cur : string) (s : string) : list string :=
  match s with
  | EmptyString => [cur]
  | String c r =>
      if Ascii.eqb c newline then cur :: split_lines_aux EmptyString r
      else split_lines_aux (cur ++ String c EmptyString) r
  end.

Definition split_lines (s : string) : list string := split_lines_aux EmptyString s.

(** Decimal rendering of an array index or of a limit in a template
    literal. *)
Definition nat_to_string (n : nat) : string :=
  NilEmpty.string_of_uint (Nat.to_uint n).

Definition Z_to_string (z : Z) : string :=
  NilEmpty.string_of_int (Z.to_int z).

(** [s.length]. *)
Definition strlen (s : string) : Z := Z.of_nat (String.length s).

(** The character class [[a-zA-Z0-9_-]]. *)
Definition is_name_char (c : ascii) : bool :=
  between 97 122 c || between 65 90 c || between 48 57 c
  || (nat_of_ascii c =? 95)%nat || (nat_of_ascii c =? 45)%nat.

Fixpoint all_chars (p : ascii -> bool) (s : string) : bool :=
  match s with
  | EmptyString => true
  | String c r => p c && all_chars p r
  end.

(** [/^[a-zA-Z0-9_-]+$/.test(s)] for a string [s]. *)
Definition matches_name (s : string) : bool :=
  negb (s =? EmptyString) && all_chars is_name_char s.

(** [/^image\/(jpeg|png|gif|webp)$/.test(s)] for a string [s]. *)
Definition matches_image_media (s : string) : bool :=
  (s =? "image/jpeg") || (s =? "image/png") || (s =? "image/gif") || (s =? "image/webp").

(** Services of the JavaScript platform that the proxy calls and that are
    not part of the repository. *)
Record Platform := {
  (** [new URL(s)] does not throw *)
  valid_url : string -> bool;
  (** [String(n)] for a number *)
  number_toString : number -> string;
  (** [JSON.stringify(v)] for a defined value *)
  JSON_stringify : json -> string;
  (** [JSON.parse(s)]; [None] when it throws *)
  JSON_parse : string -> option json;
  (** [v > 0] for a string, an array or an object [v] (after [ToNumber]) *)
  coerced_gt_zero : json -> bool
}.

(** The outcome of a piece of JavaScript that may throw. *)
Inductive result (A : Type) :=
| Ok (a : A)
| Throw (message : string).
Arguments Ok {A} a.
Arguments Throw {A} message.

Definition bind {A B} (m : result A) (f : A -> result B) : result B :=
  match m with
  | Ok a => f a
  | Throw e => Throw e
  end.

(** The text of the [TypeError] of a failed conversion to a primitive. *)
Definition conversionError : string := "Cannot convert object to primitive value".

Section Coercions.
Context (pf : Platform).

(** [String(v)] ([ToString]), which template literals, [RegExp.prototype.test],
    [Array.prototype.join] and property keys apply.  An array is joined with
    commas, [null] elements giving the empty string.  An object is converted
    by its method [toString]: that of [Object.prototype] gives
    [[object Object]]; but when the decoded object has a key [toString] of
    its own, the value of that key is no function, [valueOf] returns the
    object itself, and the conversion throws a [TypeError]. *)
Fixpoint toString (v : json) : result string :=
  match v with
  | JNull => Ok "null"
  | JBool true => Ok "true"
  | JBool false => Ok "false"
  | JNum n => Ok (number_toString pf n)
  | JStr s => Ok s
  | JArr items =>
      (fix go (l : list json) : result string :=
         match l with
         | [] => Ok EmptyString
         | [x] => match x with JNull => Ok EmptyString | _ => toString x end
         | x :: r =>
             bind (match x with JNull => Ok EmptyString | _ => toString x end)
               (fun s => bind (go r) (fun rest => Ok (s ++ "," ++ rest)))
         end) items
  | JObj props =>
      match assoc "toString" props with
      | Some _ => Throw conversionError
      | None => Ok "[object Object]"
      end
  end.

(** [String(v)] where [v] may be [undefined]. *)
Definition toString_opt (v : option json) : result string :=
  match v with
  | Some x => toString x
  | None => Ok "undefined"
  end.

(** One element of [Array.prototype.join]: [null] and [undefined] give the
    empty string. *)
Definition join_elem (v : option json) : result string :=
  match v with
  | None => Ok EmptyString
  | Some JNull => Ok EmptyString
  | Some x => toString x
  end.

(** [xs.join('')]: the elements are converted from left to right. *)
Fixpoint join_empty (xs : list (option json)) : result string :=
  match xs with
  | [] => Ok EmptyString
  | x :: r =>
      bind (join_elem x) (fun s => bind (join_empty r) (fun rest => Ok (s ++ rest)))
  end.

(** [JSON.stringify(v)] where [v] may be [undefined]. *)
Definition stringify (v : option json) : option json :=
  match v with
  | None => None
  | Some x => Some (JStr (JSON_stringify pf x))
  end.
End Coercions.

(** [a || b]. *)
Definition or_else (a : option json) (b : json) : json :=
  if truthy a then match a with Some v => v | None => b end else b.

(** [v[0]]. *)
Definition first (v : json) : option json :=
  match v with
  | JArr (x :: _) => Some x
  | JStr (String c _) => Some (JStr (String c EmptyString))
  | JObj props => assoc "0" props
  | _ => None
  end.

(** [v.length]. *)
Definition length_prop (v : json) : option json :=
  match v with
  | JArr items => Some (JNum (ofZ (Z.of_nat (List.length items))))
  | JStr s => Some (JNum (ofZ (strlen s)))
  | JObj props => assoc "length" props
  | _ => None
  end.

(** [ToString] does not throw on the value: no object with a key
    [toString] of its own is converted. *)
Fixpoint convertible (v : json) : bool :=
  match v with
  | JArr items =>
      (fix all (l : list json) : bool :=
         match l with
         | [] => true
         | x :: r => convertible x && all r
         end) items
  | JObj props => match assoc "toString" props with Some _ => false | None => true end
  | _ => true
  end.

(** [v > 0].  A string, an array or an object is first converted to a
    primitive, which throws as [ToString] does. *)
Definition gt_zero (pf : Platform) (v : option json) : result bool :=
  match v with
  | None => Ok false
  | Some JNull => Ok false
  | Some (JBool b) => Ok b
  | Some (JNum n) => Ok (num_lt (ofZ 0) n)
  | Some x => if convertible x then Ok (coerced_gt_zero pf x) else Throw conversionError
  end.

(** The property read [v.k] on a value that may be [null] or [undefined]:
    both throw a [TypeError]. *)
Definition prop (k : string) (v : option json) : result (option json) :=
  match v with
  | None => Throw ("Cannot read properties of undefined (reading '" ++ k ++ "')")
  | Some JNull => Throw ("Cannot read properties of null (reading '" ++ k ++ "')")
  | Some o => Ok (get k o)
  end.

(** [xs.filter(p)], [xs.map(f)] and [xs.some(p)] for callbacks that may
    throw; [some] stops at the first element that satisfies [p]. *)
Fixpoint filterM {A} (p : A -> result bool) (xs : list A) : result (list A) :=
  match xs with
  | [] => Ok []
  | x :: r =>
      match p x with
      | Throw e => Throw e
      | Ok keep =>
          match filterM p r with
          | Throw e => Throw e
          | Ok r' => Ok (if keep then x :: r' else r')
          end
      end
  end.

Fixpoint mapM {A B} (f : A -> result B) (xs : list A) : result (list B) :=
  match xs with
  | [] => Ok []
  | x :: r =>
      match f x with
      | Throw e => Throw e
      | Ok y =>
          match mapM f r with
          | Throw e => Throw e
          | Ok r' => Ok (y :: r')
          end
      end
  end.

Fixpoint someM {A} (p : A -> result bool) (xs : list A) : result bool :=
  match xs with
  | [] => Ok false
  | x :: r =>
      match p x with
      | Throw e => Throw e
      | Ok true => Ok true
      | Ok false => someM p r
      end
  end.

End JS.

Notation "x <- m ;; k" := (JS.bind m (fun x => k))
  (at level 61, m at next level, right associativity).

(* ================================================================= *)
(** ** Request validators ([src/utils/validators.js]) *)

Module Validators.
Import JS.

Definition allowedPrefixes : list string :=
  ["claude-"; "gemini-"; "gpt-os-"; "gpt-4-"; "local-"; "lmstudio-"; "deepseek-"; "qwen-"].

(** [isAllowedModel(modelId)]. *)
Definition isAllowedModel (modelId : option json) : bool :=
  match modelId with
  | Some (JStr s) =>
      if negb (truthy modelId) then false
      else
        let lower := toLowerCase s in
        existsb (fun prefix => startsWith prefix lower) allowedPrefixes
  | _ => false
  end.

(** [LIMITS]. *)
Definition MAX_MESSAGE_LENGTH : Z := 2000000.
Definition MAX_MESSAGES : Z := 500.
Definition MAX_BLOCKS_PER_MESSAGE : Z := 1000.
Definition MAX_TOOLS : Z := 100.
Definition MAX_TOOL_NAME_LENGTH : Z := 256.
Definition MAX_SYSTEM_PROMPT_LENGTH : Z := 100000.
Definition MAX_TOKENS_UPPER : Z := 200000.
Definition MAX_TOKENS_DEFAULT : Z := 8192.
Definition MAX_IMAGE_SIZE : Z := 10000000.
Definition MAX_SIGNATURE_LENGTH : Z := 10000.

Definition DANGEROUS_KEYS : list string := ["__proto__"; "constructor"; "prototype"].

Definition is_dangerous (key : string) : bool :=
  existsb (fun k => k =? key) DANGEROUS_KEYS.

(** [hasPrototypePollution(obj, seen, depth)].  A decoded JSON document is a
    tree: no object is reachable twice, so [seen.has(obj)] is never true and
    the [seen] set is not carried. *)
Fixpoint hasPrototypePollution (o : json) (depth : nat) : bool :=
  if (50 <? depth)%nat then true
  else
    match o with
    | JArr items =>
        (fix scan (l : list json) : bool :=
           match l with
           | [] => false
           | item :: r =>
               if hasPrototypePollution item (S depth) then true else scan r
           end) items
    | JObj props =>
        (fix scan (l : list (string * json)) : bool :=
           match l with
           | [] => false
           | (key, v) :: r =>
               if is_dangerous key then true
               else if hasPrototypePollution v (S depth) then true
               else scan r
           end) props
    | _ => false
    end.

(** [isNonEmptyString(value, maxLength)]. *)
Definition isNonEmptyString (value : option json) (maxLength : Z) : bool :=
  match value with
  | Some (JStr s) =>
      if (strlen (trim s) =? 0)%Z then false
      else if negb (maxLength =? 0)%Z && (maxLength <? strlen s)%Z then false
      else true
  | _ => false
  end.

(** [isPositiveInt(value, min, max)]. *)
Definition isPositiveInt (value : option json) (min max : Z) : bool :=
  match value with
  | Some (JNum n) =>
      if negb (isInteger n) then false
      else if num_lt n (ofZ min) || num_lt (ofZ max) n then false
      else true
  | _ => false
  end.

(** [isNumberInRange(value, min, max)]. *)
Definition isNumberInRange (value : option json) (min max : Z) : bool :=
  match value with
  | Some (JNum n) =>
      if num_lt n (ofZ min) || num_lt (ofZ max) n then false else true
  | _ => false
  end.

(** [{ valid: true }] or [{ valid: false, error }]. *)
Inductive check :=
| Pass
| Reject (error : string).

Section WithPlatform.
Context (pf : Platform).

Definition validateTextBlock (block : json) : check :=
  if negb (is_str "text" (get "type" block)) then Reject "Invalid text block type"
  else
    match get "text" block with
    | Some (JStr text) =>
        if (MAX_MESSAGE_LENGTH <? strlen text)%Z
        then Reject ("Text exceeds " ++ Z_to_string MAX_MESSAGE_LENGTH ++ " character limit")
        else Pass
    | _ => Reject "Text must be a string"
    end.

(** The test of [source.media_type]: a truthy value is converted to a
    string by [RegExp.prototype.test], which may throw. *)
Definition checkMediaType (media_type : option json) : result check :=
  if truthy media_type then
    text <- toString_opt pf media_type ;;
    Ok (if matches_image_media text then Pass else Reject "Invalid image media type")
  else Ok Pass.

Definition validateImageBlock (block : json) : result check :=
  if negb (is_str "image" (get "type" block)) then Ok (Reject "Invalid image block type")
  else
    let source := get "source" block in
    if negb (truthy source) || negb (jstype_eqb (typeof source) TObject)
    then Ok (Reject "Image source is required")
    else
      let stype := get_opt "type" source in
      if negb (is_str "base64" stype || is_str "url" stype)
      then Ok (Reject "Image source type must be base64 or url")
      else
        base64_check <-
          (if is_str "base64" stype then
             match get_opt "data" source with
             | Some (JStr data) =>
                 if (MAX_IMAGE_SIZE <? strlen data)%Z
                 then Ok (Reject "Image exceeds 10MB size limit")
                 else checkMediaType (get_opt "media_type" source)
             | _ => Ok (Reject "Image data must be a string")
             end
           else Ok Pass) ;;
        match base64_check with
        | Reject e => Ok (Reject e)
        | Pass =>
            if is_str "url" stype then
              match get_opt "url" source with
              | Some (JStr url) =>
                  Ok (if valid_url pf url then Pass else Reject "Invalid image URL")
              | _ => Ok (Reject "Image URL must be a string")
              end
            else Ok Pass
        end.

Definition validateToolUseBlock (block : json) : check :=
  if negb (is_str "tool_use" (get "type" block)) then Reject "Invalid tool_use block type"
  else if negb (isNonEmptyString (get "id" block) 128)
  then Reject "tool_use.id must be a non-empty string (max 128 chars)"
  else if negb (isNonEmptyString (get "name" block) MAX_TOOL_NAME_LENGTH)
  then Reject "tool_use.name must be a non-empty string"
  else
    match get "name" block with
    | Some (JStr name) =>
        if negb (matches_name name) then Reject "tool_use.name contains invalid characters"
        else
          match get "input" block with
          | None => Pass
          | Some input =>
              if negb (jstype_eqb (typeof (Some input)) TObject)
              then Reject "tool_use.input must be an object"
              else Pass
          end
    | _ => Reject "tool_use.name must be a non-empty string"
    end.

Definition validateToolResultBlock (block : json) : check :=
  if negb (is_str "tool_result" (get "type" block)) then Reject "Invalid tool_result block type"
  else if negb (isNonEmptyString (get "tool_use_id" block) 128)
  then Reject "tool_result.tool_use_id must be a non-empty string"
  else
    let content := get "content" block in
    let content_bad :=
      match content with
      | None => false
      | Some _ =>
          negb (jstype_eqb (typeof content) TString) && negb (isArray content)
      end in
    if content_bad then Reject "tool_result.content must be string or array"
    else
      let is_error := get "is_error" block in
      match is_error with
      | None => Pass
      | Some _ =>
          if negb (jstype_eqb (typeof is_error) TBoolean)
          then Reject "tool_result.is_error must be boolean"
          else Pass
      end.

Definition validateThinkingBlock (block : json) : check :=
  if negb (is_str "thinking" (get "type" block)) then Reject "Invalid thinking block type"
  else
    match get "thinking" block with
    | Some (JStr _) =>
        match get "signature" block with
        | None => Pass
        | Some (JStr signature) =>
            if (MAX_SIGNATURE_LENGTH <? strlen signature)%Z
            then Reject "thinking.signature exceeds maximum length"
            else Pass
        | Some _ => Reject "thinking.signature must be a string"
        end
    | _ => Reject "thinking.thinking must be a string"
    end.

(** [validateContentBlock(block)]: a [switch] on [block.type].  Only the
    check of an image block can throw. *)
Definition validateContentBlock (block : json) : result check :=
  if negb (truthy (Some block)) || negb (jstype_eqb (typeof (Some block)) TObject)
  then Ok (Reject "Content block must be an object")
  else
    let ty := get "type" block in
    if is_str "text" ty then Ok (validateTextBlock block)
    else if is_str "image" ty then validateImageBlock block
    else if is_str "document" ty then validateImageBlock block
    else if is_str "tool_use" ty then Ok (validateToolUseBlock block)
    else if is_str "tool_result" ty then Ok (validateToolResultBlock block)
    else if is_str "thinking" ty || is_str "redacted_thinking" ty
    then Ok (validateThinkingBlock block)
    else Ok Pass.

(** The [for] loop of [validateMessageContent] from index [i]: it returns at
    the first block that is rejected. *)
Fixpoint validateBlocks (i : nat) (content : list json) : result check :=
  match content with
  | [] => Ok Pass
  | block :: r =>
      blockResult <- validateContentBlock block ;;
      match blockResult with
      | Reject error => Ok (Reject ("content[" ++ nat_to_string i ++ "]: " ++ error))
      | Pass => validateBlocks (S i) r
      end
  end.

Definition validateMessageContent (content : json) : result check :=
  match content with
  | JStr s =>
      if (MAX_MESSAGE_LENGTH <? strlen s)%Z
      then Ok (Reject "Message content exceeds maximum length")
      else Ok Pass
  | JArr blocks =>
      if (MAX_BLOCKS_PER_MESSAGE <? Z.of_nat (List.length blocks))%Z
      then Ok (Reject ("Message has too many blocks (max "
                     ++ Z_to_string MAX_BLOCKS_PER_MESSAGE ++ ")"))
      else validateBlocks 0 blocks
  | _ => Ok (Reject "Message content must be string or array")
  end.

(** The result of [validateMessages]: [{ valid: true, data }] or
    [{ valid: false, errors }]. *)
Inductive validation :=
| Valid (data : json)
| Invalid (errors : list string).

(** One iteration of the loop over [body.messages]. *)
Definition messageErrors (i : nat) (msg : json) : result (list string) :=
  let here := "messages[" ++ nat_to_string i ++ "]" in
  if negb (truthy (Some msg)) || negb (jstype_eqb (typeof (Some msg)) TObject)
  then Ok [here ++ ": must be an object"]
  else
    let roleErrors :=
      if is_str "user" (get "role" msg) || is_str "assistant" (get "role" msg)
      then []
      else [here ++ ".role: must be 'user' or 'assistant'"] in
    match get "content" msg with
    | None => Ok (List.app roleErrors [here ++ ".content: is required"])
    | Some content =>
        contentResult <- validateMessageContent content ;;
        Ok (List.app roleErrors
              match contentResult with
              | Pass => []
              | Reject error => [here ++ "." ++ error]
              end)
    end.

Fixpoint messagesLoop (i : nat) (msgs : list json) : result (list string) :=
  match msgs with
  | [] => Ok []
  | msg :: r =>
      here <- messageErrors i msg ;;
      rest <- messagesLoop (S i) r ;;
      Ok (List.app here rest)
  end.

(** Required: messages array. *)
Definition checkMessages (body : json) : result (list string) :=
  let messages := get "messages" body in
  if negb (truthy messages) then Ok ["messages is required"]
  else
    match messages with
    | Some (JArr msgs) =>
        if (Z.of_nat (List.length msgs) =? 0)%Z then Ok ["messages cannot be empty"]
        else if (MAX_MESSAGES <? Z.of_nat (List.length msgs))%Z
        then Ok ["messages exceeds limit of " ++ Z_to_string MAX_MESSAGES]
        else messagesLoop 0 msgs
    | _ => Ok ["messages must be an array"]
    end.

(** Optional: model (whitelist check). *)
Definition checkModel (body : json) : list string :=
  match get "model" body with
  | None => []
  | Some (JStr m) =>
      if isAllowedModel (Some (JStr m)) then []
      else ["model '" ++ m ++ "' is not allowed."]
  | Some _ => ["model must be a string"]
  end.

(** Optional: max_tokens (range check). *)
Definition checkMaxTokens (body : json) : list string :=
  match get "max_tokens" body with
  | None => []
  | Some v =>
      if isPositiveInt (Some v) 1 MAX_TOKENS_UPPER then []
      else ["max_tokens must be integer between 1 and " ++ Z_to_string MAX_TOKENS_UPPER]
  end.

Definition checkTemperature (body : json) : list string :=
  match get "temperature" body with
  | None => []
  | Some v =>
      if isNumberInRange (Some v) 0 2 then []
      else ["temperature must be number between 0 and 2"]
  end.

Definition checkTopP (body : json) : list string :=
  match get "top_p" body with
  | None => []
  | Some v =>
      if isNumberInRange (Some v) 0 1 then []
      else ["top_p must be number between 0 and 1"]
  end.

Definition checkTopK (body : json) : list string :=
  match get "top_k" body with
  | None => []
  | Some v =>
      if isPositiveInt (Some v) 1 500 then []
      else ["top_k must be integer between 1 and 500"]
  end.

Definition checkStream (body : json) : list string :=
  match get "stream" body with
  | None => []
  | Some (JBool _) => []
  | Some _ => ["stream must be a boolean"]
  end.

(** The loop over the blocks of an array [body.system]; [block.type] on a
    [null] entry throws a [TypeError]. *)
Fixpoint systemLoop (i : nat) (blocks : list json) : result (list string) :=
  match blocks with
  | [] => Ok []
  | JNull :: _ => Throw "Cannot read properties of null (reading 'type')"
  | block :: r =>
      rest <- systemLoop (S i) r ;;
      Ok (List.app
            (if negb (is_str "text" (get "type" block))
                || negb (jstype_eqb (typeof (get "text" block)) TString)
             then ["system[" ++ nat_to_string i ++ "]: must be text block"]
             else [])
            rest)
  end.

(** Optional: system prompt. *)
Definition checkSystem (body : json) : result (list string) :=
  match get "system" body with
  | None => Ok []
  | Some (JStr s) =>
      if (MAX_SYSTEM_PROMPT_LENGTH <? strlen s)%Z
      then Ok ["system prompt exceeds maximum length"]
      else Ok []
  | Some (JArr blocks) => systemLoop 0 blocks
  | Some _ => Ok ["system must be string or array"]
  end.

(** The loop over [body.tools]; [tool.name] on a [null] entry throws. *)
Fixpoint toolsLoop (i : nat) (tools : list json) : result (list string) :=
  match tools with
  | [] => Ok []
  | JNull :: _ => Throw "Cannot read properties of null (reading 'name')"
  | tool :: r =>
      rest <- toolsLoop (S i) r ;;
      Ok (List.app
           (match get "name" tool with
          | Some (JStr name) =>
              if negb (truthy (Some (JStr name)))
              then ["tools[" ++ nat_to_string i ++ "].name: must be a non-empty string"]
              else if negb (matches_name name)
              then ["tools[" ++ nat_to_string i ++ "].name: contains invalid characters"]
              else []
          | _ => ["tools[" ++ nat_to_string i ++ "].name: must be a non-empty string"]
          end) rest)
  end.

(** Optional: tools. *)
Definition checkTools (body : json) : result (list string) :=
  match get "tools" body with
  | None => Ok []
  | Some (JArr tools) =>
      if (MAX_TOOLS <? Z.of_nat (List.length tools))%Z
      then Ok ["tools exceeds limit of " ++ Z_to_string MAX_TOOLS]
      else toolsLoop 0 tools
  | Some _ => Ok ["tools must be an array"]
  end.

(** Optional: thinking configuration; [typeof null] is ['object'], so a
    [null] value reaches the read of [budget_tokens], which throws. *)
Definition checkThinking (body : json) : result (list string) :=
  match get "thinking" body with
  | None => Ok []
  | Some thinking =>
      if negb (jstype_eqb (typeof (Some thinking)) TObject)
      then Ok ["thinking must be an object"]
      else
        match thinking with
        | JNull => Throw "Cannot read properties of null (reading 'budget_tokens')"
        | _ =>
            match get "budget_tokens" thinking with
            | None => Ok []
            | Some v =>
                if isPositiveInt (Some v) 1000 100000 then Ok []
                else Ok ["thinking.budget_tokens must be integer between 1000 and 100000"]
            end
        end
  end.

(** [{ ...o, k: v }]: an existing key keeps its place. *)
Fixpoint set_prop (k : string) (v : json) (props : list (string * json))
  : list (string * json) :=
  match props with
  | [] => [(k, v)]
  | (k', v') :: r => if k =? k' then (k, v) :: r else (k', v') :: set_prop k v r
  end.

(** [a ?? b]. *)
Definition nullish (a : option json) (b : json) : json :=
  match a with
  | None => b
  | Some JNull => b
  | Some v => v
  end.

(** The validated data with applied defaults.  It is built only when no
    error was recorded: then [body] is an object and [max_tokens], when
    given, is a number. *)
Definition validatedData (body : json) : json :=
  let stream := nullish (get "stream" body) (JBool false) in
  let max_tokens :=
    match nullish (get "max_tokens" body) (JNum (ofZ MAX_TOKENS_DEFAULT)) with
    | JNum n => JNum (num_min n (ofZ MAX_TOKENS_DEFAULT))
    | v => v
    end in
  match body with
  | JObj props => JObj (set_prop "max_tokens" max_tokens (set_prop "stream" stream props))
  | _ => JObj [("stream", stream); ("max_tokens", max_tokens)]
  end.

(** [validateMessages(body)]. *)
Definition validateMessages (body : json) : result validation :=
  if hasPrototypePollution body 0
  then Ok (Invalid ["Prototype pollution attempt detected"])
  else
    match body with
    | JNull => Throw "Cannot read properties of null (reading 'messages')"
    | _ =>
        emessages <- checkMessages body ;;
        let errors :=
          (emessages ++ checkModel body ++ checkMaxTokens body
           ++ checkTemperature body ++ checkTopP body ++ checkTopK body
           ++ checkStream body)%list in
        esystem <- checkSystem body ;;
        etools <- checkTools body ;;
        ethinking <- checkThinking body ;;
        match (errors ++ esystem ++ etools ++ ethinking)%list with
        | [] => Ok (Valid (validatedData body))
        | errors => Ok (Invalid errors)
        end
    end.
End WithPlatform.

End Validators.

(* ================================================================= *)
(** ** Anthropic to OpenAI transcoder ([src/transcoders/openai.js]) *)

Module OpenAITranscoder.
Import JS.

Section WithPlatform.
Context (pf : Platform).

(** [c => c.type === ty]. *)
Definition has_type (ty : string) (c : json) : result bool :=
  t <- prop "type" (Some c) ;; Ok (is_str ty t).

(** A message whose array content holds a [tool_result]. *)
Definition convertToolResults (msg : json) (content : list json) : result (list json) :=
  texts <- filterM (fun c =>
             t <- prop "type" (Some c) ;;
             Ok (is_str "text" t || jstype_eqb (typeof (Some c)) TString)) content ;;
  textParts <- join_empty pf (map (fun c => Some (or_else (get "text" c) c)) texts) ;;
  let userPart :=
    if truthy (Some (JStr textParts))
    then [obj [("role", get "role" msg); ("content", Some (JStr textParts))]]
    else [] in
  results <- filterM (has_type "tool_result") content ;;
  Ok (List.app userPart
        (map (fun tr =>
                obj [("role", Some (JStr "tool"));
                     ("tool_call_id", get "tool_use_id" tr);
                     ("content",
                      match get "content" tr with
                      | Some (JStr c) => Some (JStr c)
                      | other => stringify pf other
                      end)]) results)).

(** An assistant message with array content and no [tool_result]. *)
Definition convertAssistant (content : list json) : result (list json) :=
  toolUses <- filterM (has_type "tool_use") content ;;
  texts <- filterM (has_type "text") content ;;
  textParts <- join_empty pf (map (fun c => get "text" c) texts) ;;
  let tool_calls :=
    if (0 <? Z.of_nat (List.length toolUses))%Z
    then Some (JArr (map (fun tu =>
                 obj [("id", get "id" tu);
                      ("type", Some (JStr "function"));
                      ("function",
                       Some (obj [("name", get "name" tu);
                                  ("arguments", stringify pf (get "input" tu))]))])
               toolUses))
    else None in
  Ok [obj [("role", Some (JStr "assistant"));
           ("content", Some (or_else (Some (JStr textParts)) JNull));
           ("tool_calls", tool_calls)]].

(** The callback of [messages.forEach]. *)
Definition convertMessage (msg : json) : result (list json) :=
  content <- prop "content" (Some msg) ;;
  match content with
  | Some (JArr blocks) =>
      hasToolResult <- someM (has_type "tool_result") blocks ;;
      if hasToolResult then convertToolResults msg blocks
      else if is_str "assistant" (get "role" msg) then convertAssistant blocks
      else
        text <- join_empty pf
                  (map (fun c => Some (or_else (get "text" c) (JStr EmptyString))) blocks) ;;
        Ok [obj [("role", get "role" msg); ("content", Some (JStr text))]]
  | _ =>
      Ok [obj [("role", get "role" msg);
               ("content", Some (or_else content (JStr EmptyString)))]]
  end.

Fixpoint forEachMessage (msgs : list json) : result (list json) :=
  match msgs with
  | [] => Ok []
  | msg :: r =>
      out <- convertMessage msg ;;
      rest <- forEachMessage r ;;
      Ok (List.app out rest)
  end.

(** [tools.map(t => ...)]. *)
Definition convertTool (t : json) : result json :=
  name <- prop "name" (Some t) ;;
  Ok (obj [("type", Some (JStr "function"));
           ("function",
            Some (obj [("name", name);
                       ("description", get "description" t);
                       ("parameters", get "input_schema" t)]))]).

Definition convertTools (tools : option json) : result (option json) :=
  let len := match tools with Some t => length_prop t | None => None end in
  positive <- (if truthy tools then gt_zero pf len else Ok false) ;;
  if positive
  then
    match tools with
    | Some (JArr ts) => out <- mapM convertTool ts ;; Ok (Some (JArr out))
    | _ => Throw "tools.map is not a function"
    end
  else Ok None.

Definition convertToolChoice (tool_choice : option json) : option json :=
  if truthy tool_choice then
    let ty := get_opt "type" tool_choice in
    if is_str "tool" ty
    then Some (obj [("type", Some (JStr "function"));
                    ("function", Some (obj [("name", get_opt "name" tool_choice)]))])
    else if is_str "any" ty then Some (JStr "required")
    else if is_str "auto" ty then Some (JStr "auto")
    else None
  else None.

(** [OpenAITranscoder.toOpenAI(anthropicBody)]. *)
Definition toOpenAI (anthropicBody : json) : result json :=
  match anthropicBody with
  | JNull =>
      Throw "Cannot destructure property 'messages' of 'anthropicBody' as it is null."
  | _ =>
      let system := get "system" anthropicBody in
      let systemPart :=
        if truthy system
        then [obj [("role", Some (JStr "system")); ("content", system)]]
        else [] in
      converted <-
        match get "messages" anthropicBody with
        | Some (JArr msgs) => forEachMessage msgs
        | None => Throw "Cannot read properties of undefined (reading 'forEach')"
        | Some JNull => Throw "Cannot read properties of null (reading 'forEach')"
        | Some _ => Throw "messages.forEach is not a function"
        end ;;
      tools <- convertTools (get "tools" anthropicBody) ;;
      Ok (obj [("model", get "model" anthropicBody);
               ("messages", Some (JArr (List.app systemPart converted)));
               ("stream", get "stream" anthropicBody);
               ("temperature", get "temperature" anthropicBody);
               ("max_tokens", get "max_tokens" anthropicBody);
               ("stop", get "stop_sequences" anthropicBody);
               ("tools", tools);
               ("tool_choice", convertToolChoice (get "tool_choice" anthropicBody))])
  end.

(** [OpenAITranscoder.fromOpenAIStream(openaiChunk, index)]; [Ok None] is
    the [null] result. *)
Definition fromOpenAIStream (openaiChunk : json) (index : option json)
  : result (option json) :=
  choices <- prop "choices" (Some openaiChunk) ;;
  let delta :=
    match choices with
    | None | Some JNull => None
    | Some cs =>
        match first cs with
        | None | Some JNull => None
        | Some choice => get "delta" choice
        end
    end in
  if negb (truthy delta) then Ok None
  else if truthy (get_opt "content" delta)
  then Ok (Some (obj [("type", Some (JStr "content_block_delta"));
                      ("index", index);
                      ("delta",
                       Some (obj [("type", Some (JStr "text_delta"));
                                  ("text", get_opt "content" delta)]))]))
  else
    let tool_calls := get_opt "tool_calls" delta in
    let len := match tool_calls with Some t => length_prop t | None => None end in
    positive <- (if truthy tool_calls then gt_zero pf len else Ok false) ;;
    if positive then
      let toolCall := match tool_calls with Some t => first t | None => None end in
      i <- prop "index" toolCall ;;
      let fn := get_opt "function" toolCall in
      if truthy (get_opt "id" toolCall)
      then Ok (Some (obj [("type", Some (JStr "content_block_start"));
                          ("index", i);
                          ("content_block",
                           Some (obj [("type", Some (JStr "tool_use"));
                                      ("id", get_opt "id" toolCall);
                                      ("name",
                                       Some (or_else (get_opt "name" fn) (JStr EmptyString)));
                                      ("input", Some (JObj []))]))]))
      else if truthy fn && truthy (get_opt "arguments" fn)
      then Ok (Some (obj [("type", Some (JStr "content_block_delta"));
                          ("index", i);
                          ("delta",
                           Some (obj [("type", Some (JStr "input_json_delta"));
                                      ("partial_json", get_opt "arguments" fn)]))]))
      else Ok None
    else Ok None.
End WithPlatform.

End OpenAITranscoder.

(* ================================================================= *)
(** ** Local gateway ([src/gateway.js]) *)

Module Gateway.
Import JS.

(** One server-sent event written to the client: the text
    [event: <event>\n] followed by [data: <JSON of data>\n\n]. *)
Record sse := { event : string; data : json }.

(** The [bodyStream] handed to [streamResponse].  The function registers
    its listeners with [bodyStream.on], the method of a Node event emitter
    such as the body of a [node-fetch] response.  The body of a response of
    the global [fetch] (Node 18 and later), which is what the gateway passes,
    is a web [ReadableStream] without a method [on], or [null] for a
    response without content. *)
Inductive bodyStream :=
| NullBody
| WebReadableStream (chunks : list string)
| NodeReadable (chunks : list string).

(** What the global [fetch(targetUrl, ...)] gives back. *)
Record response := {
  ok : bool;
  status : Z;
  text : string;                  (* [await response.text()] *)
  body : option (list string);    (* [response.body]: [null], or a web stream of chunks *)
  parsed : result json            (* [await response.json()] *)
}.

Definition responseBody (r : response) : bodyStream :=
  match body r with
  | None => NullBody
  | Some chunks => WebReadableStream chunks
  end.

Inductive fetched :=
| Rejected (message : string)
| Responded (r : response).

(** What the handler does with the request: an answer
    [res.status(status).json(body)], an event stream, or nothing at all
    when the promise of the handler rejects before anything is written to
    the response. *)
Inductive reply :=
| Json (status : Z) (body : json)
| EventStream (frames : list sse)
| Unanswered (error : string).

Section WithPlatform.
Context (pf : Platform).

(** [writeSSE(res, chunk)]; the template literal converts [chunk.type]. *)
Definition writeSSE (chunk : json) : result sse :=
  event <- toString_opt pf (get "type" chunk) ;;
  Ok {| event := event; data := chunk |}.

Definition message_stop : sse :=
  {| event := "message_stop"; data := JObj [("type", JStr "message_stop")] |}.

(** The body of the loop over the lines of one chunk; the transcoder is
    called with one argument, so its [index] is [undefined]; an exception
    is caught and ignored. *)
Definition onLine (line : string) : list sse :=
  if startsWith "data: " line && negb (line =? "data: [DONE]") then
    match JSON_parse pf (drop 6 line) with
    | None => []
    | Some json =>
        match OpenAITranscoder.fromOpenAIStream pf json None with
        | Ok (Some anthropicChunk) =>
            match writeSSE anthropicChunk with
            | Ok frame => [frame]
            | Throw _ => []
            end
        | Ok None => []
        | Throw _ => []
        end
    end
  else [].

(** The ['data'] listener. *)
Definition onData (chunk : string) : list sse :=
  flat_map onLine (split_lines chunk).

(** [streamResponse(res, bodyStream, fromOpenAIStream, 'openai')].  After
    the three headers are set, [bodyStream.on('data', ...)] is evaluated: it
    throws a [TypeError] on [null] and on a web stream.  On an event emitter
    the frames are written while the body is read, then, on ['end'], the
    [message_stop] frame. *)
Definition streamResponse (bodyStream : bodyStream) : result (list sse) :=
  match bodyStream with
  | NullBody => Throw "Cannot read properties of null (reading 'on')"
  | WebReadableStream _ => Throw "bodyStream.on is not a function"
  | NodeReadable chunks => Ok (List.app (flat_map onData chunks) [message_stop])
  end.

(** [createAnthropicResponse(content, model)]; [now] is [Date.now()]. *)
Definition createAnthropicResponse (now : Z) (content model : option json) : json :=
  obj [("id", Some (JStr ("msg_" ++ Z_to_string now)));
       ("type", Some (JStr "message"));
       ("role", Some (JStr "assistant"));
       ("content", Some (JArr [obj [("type", Some (JStr "text")); ("text", content)]]));
       ("model", model);
       ("stop_reason", Some (JStr "end_turn"));
       ("usage", Some (JObj [("input_tokens", JNum (ofZ 0));
                             ("output_tokens", JNum (ofZ 0))]))].

(** [handleError(res, error)]. *)
Definition handleError (message : string) : reply :=
  Json 502 (JObj [("type", JStr "error");
                  ("error", JObj [("type", JStr "api_error");
                                  ("message", JStr message)])]).

(** The body POSTed to [LOCAL_LLM_URL]; a [Throw] means that the
    transcoder failed and no request is sent. *)
Definition upstreamBody (body : json) : result json :=
  OpenAITranscoder.toOpenAI pf body.

(** [data.choices[0].message.content]. *)
Definition messageContent (data : json) : result (option json) :=
  choices <- prop "choices" (Some data) ;;
  choice <-
    match choices with
    | None => Throw "Cannot read properties of undefined (reading '0')"
    | Some JNull => Throw "Cannot read properties of null (reading '0')"
    | Some cs => Ok (first cs)
    end ;;
  message <- prop "message" choice ;;
  prop "content" message.

(** The [try] block of [handleOpenAIProxyRequest]. *)
Definition tryProxy (fetch : json -> fetched) (now : Z) (body : json) : result reply :=
  openAIBody <- upstreamBody body ;;
  match fetch openAIBody with
  | Rejected e => Throw e
  | Responded r =>
      if negb (ok r)
      then Throw ("Local Agent Error (" ++ Z_to_string (status r) ++ "): " ++ text r)
      else if truthy (get "stream" body)
      then frames <- streamResponse (responseBody r) ;; Ok (EventStream frames)
      else
        data <- parsed r ;;
        content <- messageContent data ;;
        Ok (Json 200 (createAnthropicResponse now content (get "model" body)))
  end.

(** [handleOpenAIProxyRequest(req, res)] for [req.body = body]; [fetch]
    stands for the local endpoint.  The read of [req.body.model] and the
    template literal of the log line, which converts the model to a string,
    come before the [try]: an exception there rejects the promise of the
    handler.  An exception of the [try] block is answered by [handleError]. *)
Definition handleOpenAIProxyRequest (fetch : json -> fetched) (now : Z) (body : json)
  : reply :=
  match (model <- prop "model" (Some body) ;; toString_opt pf model) with
  | Throw e => Unanswered e
  | Ok _ =>
      match tryProxy fetch now body with
      | Ok answer => answer
      | Throw e => handleError e
      end
  end.

(** [handleLocalRequest(req, res)]: it reads [req.body.model] and hands the
    request to [handleOpenAIProxyRequest]. *)
Definition handleLocalRequest (fetch : json -> fetched) (now : Z) (body : json) : reply :=
  match prop "model" (Some body) with
  | Throw e => Unanswered e
  | Ok _ => handleOpenAIProxyRequest fetch now body
  end.
End WithPlatform.

End Gateway.

(* ================================================================= *)
(** ** The messages route ([src/routes/messages.js]) *)

Module Messages.
Import JS.

(** The result of [parseError]. *)
Record parsed := { errorType : string; statusCode : Z; errorMessage : string }.

Definition dquote : string := String (ascii_of_nat 34) EmptyString.

Fixpoint take_while (p : ascii -> bool) (s : string) : string :=
  match s with
  | EmptyString => EmptyString
  | String c r => if p c then String c (take_while p r) else EmptyString
  end.

Fixpoint drop_while (p : ascii -> bool) (s : string) : string :=
  match s with
  | EmptyString => EmptyString
  | String c r => if p c then drop_while p r else s
  end.

Definition char_is (n : nat) (c : ascii) : bool := (nat_of_ascii c =? n)%nat.

(** The class [[\dh\dm\ds]] under the [i] flag. *)
Definition is_duration_char (c : ascii) : bool :=
  between 48 57 c
  || char_is 104 c || char_is 109 c || char_is 115 c
  || char_is 72 c || char_is 77 c || char_is 83 c.

(** A match of a pattern [literal skip* opening (class+) tail] anchored at
    the start of [s]: after the literal, the longest run of [skip] and the
    text [opening], the capture is the longest run of [class], which must
    not be empty and must be followed by [tail].  No character of [opening]
    is in [skip] and none of [tail] is in [class], so a shorter run gives no
    other match. *)
Definition capture_here (ci : bool) (literal : string) (skip : ascii -> bool)
  (opening : string) (class : ascii -> bool) (tail : string) (s : string) : option string :=
  if String.prefix literal (if ci then toLowerCase s else s) then
    let skipped := drop_while skip (drop (String.length literal) s) in
    if String.prefix opening skipped then
      let rest := drop (String.length opening) skipped in
      let cap := take_while class rest in
      if (cap =? EmptyString) then None
      else if String.prefix tail (drop (String.length cap) rest) then Some cap
      else None
    else None
  else None.

(** The leftmost match in [s]. *)
Fixpoint capture (ci : bool) (literal : string) (skip : ascii -> bool)
  (opening : string) (class : ascii -> bool) (tail : string) (s : string) : option string :=
  match capture_here ci literal skip opening class tail s with
  | Some cap => Some cap
  | None =>
      match s with
      | EmptyString => None
      | String _ r => capture ci literal skip opening class tail r
      end
  end.

Definition no_char (c : ascii) : bool := false.

(** [message.match(/quota will reset after ([\dh\dm\ds]+)/i)], group 1. *)
Definition resetMatch (message : string) : option string :=
  capture true "quota will reset after " no_char EmptyString is_duration_char EmptyString
    message.

(** Group 1 of [message.match(/Rate limited on ([^.]+)\./)], or else of the
    match of the JSON field [model]: the quoted word model, a colon,
    optional white space, then a value between double quotes that is not
    empty. *)
Definition modelMatch (message : string) : option string :=
  match capture false "Rate limited on " no_char EmptyString
          (fun c => negb (char_is 46 c)) "." message with
  | Some m => Some m
  | None =>
      capture false (dquote ++ "model" ++ dquote ++ ":")
        is_space dquote
        (fun c => negb (char_is 34 c))
        dquote message
  end.

(** [parseError(error)] for [error.message = message]. *)
Definition parseError (message : string) : parsed :=
  if includes "401" message || includes "UNAUTHENTICATED" message then
    {| errorType := "authentication_error";
       statusCode := 401;
       errorMessage :=
         "Authentication failed. Make sure Antigravity is running with a valid token." |}
  else if includes "429" message || includes "RESOURCE_EXHAUSTED" message
          || includes "QUOTA_EXHAUSTED" message then
    let model := match modelMatch message with Some m => m | None => "the model" end in
    {| errorType := "invalid_request_error";
       statusCode := 400;
       errorMessage :=
         match resetMatch message with
         | Some reset =>
             "You have exhausted your capacity on " ++ model
             ++ ". Quota will reset after " ++ reset ++ "."
         | None =>
             "You have exhausted your capacity on " ++ model
             ++ ". Please wait for your quota to reset."
         end |}
  else if includes "invalid_request_error" message || includes "INVALID_ARGUMENT" message then
    {| errorType := "invalid_request_error"; statusCode := 400; errorMessage := message |}
  else if includes "overloaded_error" message || includes "503" message then
    {| errorType := "overloaded_error";
       statusCode := 503;
       errorMessage :=
         "The Antigravity API is currently overloaded. Please try again in a few seconds." |}
  else
    {| errorType := "api_error"; statusCode := 500; errorMessage := message |}.

(** What the handler does with a request, up to the first exchange with an
    upstream. *)
Inductive outcome :=
| Respond (status : Z) (errorType : string) (message : string)
    (* [res.status(status).json({type:'error', error:{type, message}})] *)
| Local (body : json)
    (* [handleLocalRequest(req, res)] *)
| Cloud (request : json)
    (* [sendMessage(request, ...)] or [sendMessageStream(request, ...)] *)
| Unanswered (error : string).
    (* the promise of the handler rejects; nothing is written to [res] *)

Definition DEFAULT_MODEL : string := "claude-3-5-sonnet-20241022".

(** [sessionManager.getSessionByRequest(req)].  The route imports the
    exports of [session-manager.js] as the namespace [sessionManager], and
    that file has no export of this name (see [SessionManager] below): the
    property is [undefined] and the call throws a [TypeError]. *)
Definition getSessionByRequest : result (option json) :=
  Throw "sessionManager.getSessionByRequest is not a function".

(** The [catch (error)] block of the handler when no header has been sent
    yet.  For an [authentication_error] the message is replaced by the
    outcome [refreshed] of the token refresh.  The error is broadcast, then
    the session of the request is looked up; the answer
    [res.status(statusCode).json(...)] comes after that call. *)
Definition onError (refreshed : string) (message : string) : outcome :=
  let p := parseError message in
  let errorMessage :=
    if errorType p =? "authentication_error" then refreshed else errorMessage p in
  match getSessionByRequest with
  | Throw e => Unanswered e
  | Ok _ => Respond (statusCode p) (errorType p) errorMessage
  end.

(** [gwModel && (gwModel.startsWith('local-') || gwModel.startsWith('gemma-'))]. *)
Definition isGatewayModel (gwModel : option json) : result bool :=
  if truthy gwModel then
    match gwModel with
    | Some (JStr m) => Ok (startsWith "local-" m || startsWith "gemma-" m)
    | _ => Throw "gwModel.startsWith is not a function"
    end
  else Ok false.

(** The request object handed to the Cloud Code dispatcher. *)
Definition buildRequest (data : json) : json :=
  obj [("model", Some (or_else (get "model" data) (JStr DEFAULT_MODEL)));
       ("messages", get "messages" data);
       ("max_tokens", Some (or_else (get "max_tokens" data) (JNum (ofZ 4096))));
       ("stream", get "stream" data);
       ("system", get "system" data);
       ("tools", get "tools" data);
       ("tool_choice", get "tool_choice" data);
       ("thinking", get "thinking" data);
       ("top_p", get "top_p" data);
       ("top_k", get "top_k" data);
       ("temperature", get "temperature" data)].

Section WithPlatform.
Context (pf : Platform).

(** The [try] block of [router.post('/messages')] for [req.body = body], up
    to the call of the dispatcher.  Between validation and dispatch the
    handler resets the rate limits when every account is limited for the
    model, records the session and broadcasts the request; none of this
    changes the request or the answer. *)
Definition tryMessages (body : json) : result outcome :=
  gwModel <- prop "model" (Some body) ;;
  gateway <- isGatewayModel gwModel ;;
  if gateway then Ok (Local body)
  else
    validation <- Validators.validateMessages pf body ;;
    match validation with
    | Validators.Invalid errors =>
        Ok (Respond 400 "invalid_request_error" (hd EmptyString errors))
    | Validators.Valid data => Ok (Cloud (buildRequest data))
    end.

(** [router.post('/messages')]. *)
Definition postMessages (refreshed : string) (body : json) : outcome :=
  match tryMessages body with
  | Ok o => o
  | Throw message => onError refreshed message
  end.

(** A non-streaming request whose dispatch [sendMessage] throws an error
    with the given message. *)
Definition onDispatchFailure (refreshed : string) (message : string) : outcome :=
  onError refreshed message.
End WithPlatform.

End Messages.

(* ================================================================= *)
(** ** Requests and paths, as Express matches them *)

Module Http.
Import JS.

Inductive method := GET | POST | PUT | PATCH | DELETE.

Definition method_eqb (a b : method) : bool :=
  match a, b with
  | GET, GET | POST, POST | PUT, PUT | PATCH, PATCH | DELETE, DELETE => true
  | _, _ => false
  end.

Definition method_name (m : method) : string :=
  match m with
  | GET => "GET" | POST => "POST" | PUT => "PUT" | PATCH => "PATCH" | DELETE => "DELETE"
  end.

(** Express matches a route path without regard to case and to one trailing
    slash. *)
Definition same_path (pattern path : string) : bool :=
  let p := toLowerCase path in
  (p =? pattern) || (p =? pattern ++ "/").

(** [app.use(mount, ...)]: the rest of a path under [mount]. *)
Definition under (mount path : string) : option string :=
  if String.prefix mount (toLowerCase path) then
    match drop (String.length mount) path with
    | EmptyString => Some "/"
    | String c r => if (nat_of_ascii c =? 47)%nat then Some (String c r) else None
    end
  else None.

(** A rest [/<id>] made of one segment. *)
Definition one_segment (rest : string) : bool :=
  match rest with
  | String c r =>
      (nat_of_ascii c =? 47)%nat && negb (r =? EmptyString) && negb (r =? "/")
      && negb (includes "/" (match r with
                             | EmptyString => r
                             | _ => String.substring 0 (String.length r - 1) r
                             end))
  | EmptyString => false
  end.

End Http.

(* ================================================================= *)
(** ** The routers of the management API *)

Module Routers.
Import Http.

(** [src/routes/accounts.js]: [GET /account-limits], [POST /refresh-token]. *)
Definition accountsRouter (m : method) (rest : string) : bool :=
  (method_eqb m GET && same_path "/account-limits" rest)
  || (method_eqb m POST && same_path "/refresh-token" rest).

(** [src/routes/sessions.js]: [GET /], and [GET], [PATCH], [DELETE] on
    [/:id]. *)
Definition sessionsRouter (m : method) (rest : string) : bool :=
  (method_eqb m GET && (rest =? "/"))
  || ((method_eqb m GET || method_eqb m PATCH || method_eqb m DELETE)
      && one_segment rest).

(** [src/routes/launcher.js]: [POST /launch], [GET /validate-cli],
    [GET /setup-instructions]. *)
Definition launcherRouter (m : method) (rest : string) : bool :=
  (method_eqb m POST && same_path "/launch" rest)
  || (method_eqb m GET && same_path "/validate-cli" rest)
  || (method_eqb m GET && same_path "/setup-instructions" rest).

(** [src/routes/usage.js]: [GET /history]. *)
Definition usageRouter (m : method) (rest : string) : bool :=
  method_eqb m GET && same_path "/history" rest.

(** Whether the router mounted at [mount] has a route for the request. *)
Definition handles (mount : string) (m : method) (rest : string) : bool :=
  if mount =? "/account" then accountsRouter m rest
  else if mount =? "/api/sessions" then sessionsRouter m rest
  else if mount =? "/api/launcher" then launcherRouter m rest
  else if mount =? "/api/stats" then usageRouter m rest
  else false.

End Routers.

(* ================================================================= *)
(** ** Route tables ([src/server.js] and the monolithic server) *)

Module Server.
Import JS.
Include Http.

(** The handler that answers a request. *)
Inductive endpoint :=
| Health
| PostMessages                          (* [Messages.postMessages] *)
| GetModels
| CountTokens                           (* 501 [not_implemented] *)
| Router (mount : string) (path : string) (* a router of the management API *)
| Moved (code : Z) (location : string)
| Handler (name : string)               (* another handler of the monolithic server *)
| NotFound (message : string).          (* the catch-all: 404 [not_found_error] *)

(** The status and [error.type] of the handlers that always answer with an
    error object. *)
Definition errorReply (e : endpoint) : option (Z * string) :=
  match e with
  | CountTokens => Some (501%Z, "not_implemented")
  | NotFound _ => Some (404%Z, "not_found_error")
  | _ => None
  end.

Definition notFound (m : method) (originalUrl : string) : endpoint :=
  NotFound ("Endpoint " ++ method_name m ++ " " ++ originalUrl ++ " not found").

(** The routers mounted on [/v1] by [src/server.js]:
    [messagesRouter] has [POST /messages], [modelsRouter] has [GET /models]. *)
Definition v1Routers (m : method) (rest : string) : option endpoint :=
  if method_eqb m POST && same_path "/messages" rest then Some PostMessages
  else if method_eqb m GET && same_path "/models" rest then Some GetModels
  else None.

(** The routers mounted with [app.use(mount, router)], in registration
    order: the request goes to the first router that is mounted above its
    path and has a route for it; a router without a route for the request
    passes it on to the handlers registered after it. *)
Definition first_mount (mounts : list string) (m : method) (path : string)
  : option endpoint :=
  fold_right
    (fun mount later =>
       match under mount path with
       | Some rest => if Routers.handles mount m rest then Some (Router mount rest) else later
       | None => later
       end)
    None mounts.

(** The route table of [src/server.js], in registration order.  The global
    middleware (CORS, body parser, security headers, usage statistics, web
    UI) and the initialisation pass the API requests on. *)
Definition route (m : method) (path : string) : endpoint :=
  if method_eqb m GET && same_path "/health" path then Health
  else
    match match under "/v1" path with
          | Some rest => v1Routers m rest
          | None => None
          end with
    | Some e => e
    | None =>
        match first_mount ["/api/launcher"; "/api/sessions"; "/api/stats"; "/account"]
                m path with
        | Some e => e
        | None =>
            if method_eqb m GET && same_path "/account-limits" path
            then Moved 301 "/account/account-limits"
            else if method_eqb m POST && same_path "/refresh-token" path
            then Moved 307 "/account/refresh-token"
            else if method_eqb m GET && same_path "/sessions" path
            then Moved 301 "/api/sessions"
            else if method_eqb m POST && same_path "/api/launch" path
            then Moved 307 "/api/launcher/launch"
            else notFound m path
        end
    end.

(** The route table of the earlier monolithic server, in registration
    order. *)
Definition monolithRoute (m : method) (path : string) : endpoint :=
  if method_eqb m GET && same_path "/health" path then Health
  else if method_eqb m GET && same_path "/account-limits" path then Handler "account-limits"
  else if method_eqb m POST && same_path "/refresh-token" path then Handler "refresh-token"
  else if method_eqb m GET && same_path "/v1/models" path then GetModels
  else if method_eqb m POST && same_path "/v1/messages/count_tokens" path then CountTokens
  else if method_eqb m POST && same_path "/v1/messages" path then PostMessages
  else if method_eqb m GET && same_path "/cli/detect" path then Handler "cli/detect"
  else if method_eqb m POST && same_path "/cli/launch" path then Handler "cli/launch"
  else if method_eqb m GET && same_path "/cli/commands" path then Handler "cli/commands"
  else if method_eqb m GET && same_path "/sessions" path then Handler "sessions"
  else if (method_eqb m GET || method_eqb m PATCH || method_eqb m DELETE)
          && match under "/sessions" path with
             | Some rest => one_segment rest
             | None => false
             end
  then Handler "sessions/:id"
  else notFound m path.

(** [modelMappingMiddleware]: [config.modelMapping] is an object; a model
    that has an entry with a truthy [mapping] is rewritten in place.  The
    model is converted to a property key, and the template literal of the
    log line converts the new model: both conversions may throw.  A key
    that the configuration inherits from [Object.prototype] has no
    [mapping], as a key without entry. *)
Definition modelMappingMiddleware (pf : Platform) (modelMapping : json) (body : json)
  : result json :=
  match body with
  | JObj props =>
      match assoc "model" props with
      | Some model =>
          if truthy (Some model) then
            key <- toString pf model ;;
            let mapping := get_opt "mapping" (get key modelMapping) in
            if truthy mapping
            then match mapping with
                 | Some target =>
                     _ <- toString pf target ;;
                     Ok (JObj (Validators.set_prop "model" target props))
                 | None => Ok body
                 end
            else Ok body
          else Ok body
      | None => Ok body
      end
  | _ => Ok body
  end.

(** What the server does with a [POST /v1/messages]. *)
Inductive served :=
| Routed (o : Messages.outcome)
    (* the outcome of the route *)
| ServerError (message : string).
    (* an exception of a middleware goes to the error handler of Express,
       which answers with the status 500 *)

(** [app.use('/v1', ensureInitialized, modelMappingMiddleware)], then
    [messagesRouter]: the route sees the body as the middleware left it. *)
Definition postV1Messages (pf : Platform) (modelMapping : json) (refreshed : string)
  (body : json) : served :=
  match modelMappingMiddleware pf modelMapping body with
  | Ok mapped => Routed (Messages.postMessages pf refreshed mapped)
  | Throw e => ServerError e
  end.

End Server.

(* ================================================================= *)
(** ** Streaming dispatcher ([src/cloudcode/streaming-handler.js]) *)

Module StreamingHandler.
Import JS.

(** Modelled from the spec: the constants of [src/constants.js], which is
    not part of the sources at hand: [MAX_WAIT_BEFORE_ERROR_MS = 120 000],
    [MAX_EMPTY_RESPONSE_RETRIES = 3] and [MAX_RETRIES = 3]. *)
Definition MAX_WAIT_BEFORE_ERROR_MS : Z := 120000.
Definition MAX_EMPTY_RESPONSE_RETRIES : nat := 3.
Definition MAX_RETRIES : Z := 3.

(** *** Account selection at the head of a dispatch attempt *)

Section Selection.
Variables Account Pool : Type.

(** The operations of the account manager that the dispatcher calls; each
    reads the clock ([Date.now()]) and the pool. *)
Record AccountManager := {
  pickStickyAccount : string -> Z -> Pool -> option Account * Z * Pool;
  getCurrentStickyAccount : string -> Z -> Pool -> option Account * Pool;
  clearExpiredLimits : Z -> Pool -> Pool;
  isAllRateLimited : string -> Z -> Pool -> bool;
  getMinWaitTimeMs : string -> Z -> Pool -> Z;
  pickNext : string -> Z -> Pool -> option Account * Pool;
  getAccountCount : Pool -> Z
}.

(** Helpers outside the sources at hand: [formatDuration],
    [Date.prototype.toISOString] and [getFallbackModel]. *)
Record Helpers := {
  formatDuration : Z -> string;
  toISOString : Z -> string;
  getFallbackModel : string -> option string
}.

Variable am : AccountManager.
Variable hp : Helpers.

Record world := { pool : Pool; now : Z }.

(** What the dispatcher does to the world while it selects. *)
Inductive effect :=
| Sleep (ms : Z)
| ClearExpiredLimits
| GetCurrentStickyAccount
| PickNext.

Inductive selection :=
| Selected (account : Account)
| Fallback (fallbackModel : string)
    (* [yield* sendMessageStream(fallbackRequest, accountManager, false)] *)
| Failed (message : string).
    (* [throw new Error(message)] *)

Definition exhaustedMessage (model : string) (allWaitMs : Z) (at_ : Z) : string :=
  "RESOURCE_EXHAUSTED: Rate limited on " ++ model
  ++ ". Quota will reset after " ++ formatDuration hp allWaitMs
  ++ ". Next available: " ++ toISOString hp (at_ + allWaitMs).

(** [await sleep(ms)]: the clock advances. *)
Definition sleep (ms : Z) (w : world) : world :=
  {| pool := pool w; now := now w + ms |}.

(** The sticky account, after the wait the account manager asks for. *)
Definition stickyStep (model : string) (w : world)
  : option Account * world * list effect :=
  let '(stickyAccount, waitMs, p1) := pickStickyAccount am model (now w) (pool w) in
  let w1 := {| pool := p1; now := now w |} in
  match stickyAccount with
  | Some a => (Some a, w1, [])
  | None =>
      if (0 <? waitMs)%Z then
        let w2 := sleep waitMs w1 in
        let p3 := clearExpiredLimits am (now w2) (pool w2) in
        let '(account, p4) := getCurrentStickyAccount am model (now w2) p3 in
        (account, {| pool := p4; now := now w2 |},
         [Sleep waitMs; ClearExpiredLimits; GetCurrentStickyAccount])
      else (None, w1, [])
  end.

(** No account at all: model fallback, or failure. *)
Definition noAccount (model : string) (fallbackEnabled : bool) : selection :=
  if fallbackEnabled then
    match getFallbackModel hp model with
    | Some fallbackModel => Fallback fallbackModel
    | None => Failed "No accounts available"
    end
  else Failed "No accounts available".

(** The block [if (!account) { ... }]. *)
Definition allLimitedStep (model : string) (fallbackEnabled : bool) (w : world)
  : selection * world * list effect :=
  if isAllRateLimited am model (now w) (pool w) then
    let allWaitMs := getMinWaitTimeMs am model (now w) (pool w) in
    if (MAX_WAIT_BEFORE_ERROR_MS <? allWaitMs)%Z
    then (Failed (exhaustedMessage model allWaitMs (now w)), w, [])
    else
      let w1 := sleep allWaitMs w in
      let p2 := clearExpiredLimits am (now w1) (pool w1) in
      let '(account, p3) := pickNext am model (now w1) p2 in
      let w3 := {| pool := p3; now := now w1 |} in
      match account with
      | Some a => (Selected a, w3, [Sleep allWaitMs; ClearExpiredLimits; PickNext])
      | None =>
          (noAccount model fallbackEnabled, w3,
           [Sleep allWaitMs; ClearExpiredLimits; PickNext])
      end
  else (noAccount model fallbackEnabled, w, []).

(** The head of one iteration of the attempt loop of [sendMessageStream]:
    from [pickStickyAccount] to the point where an account is in hand. *)
Definition selectAccount (model : string) (fallbackEnabled : bool) (w : world)
  : selection * world * list effect :=
  let '(account, w1, e1) := stickyStep model w in
  match account with
  | Some a => (Selected a, w1, e1)
  | None =>
      let '(s, w2, e2) := allLimitedStep model fallbackEnabled w1 in
      (s, w2, List.app e1 e2)
  end.
End Selection.

Arguments pickStickyAccount {Account Pool}.
Arguments getCurrentStickyAccount {Account Pool}.
Arguments clearExpiredLimits {Account Pool}.
Arguments isAllRateLimited {Account Pool}.
Arguments getMinWaitTimeMs {Account Pool}.
Arguments pickNext {Account Pool}.
Arguments getAccountCount {Account Pool}.
Arguments pool {Pool}.
Arguments now {Pool}.
Arguments Selected {Account}.
Arguments Fallback {Account}.
Arguments Failed {Account}.
Arguments sleep {Pool}.
Arguments noAccount {Account}.
Arguments stickyStep {Account Pool}.
Arguments allLimitedStep {Account Pool}.
Arguments selectAccount {Account Pool}.

(** *** Streaming one endpoint, with retries on an empty response *)

(** How [streamSSEResponse(response, model)] ends after the events it has
    yielded. *)
Inductive ending :=
| Completed
| EmptyResponse                  (* throws an error for which [isEmptyResponseError] holds *)
| StreamError (message : string).

(** A response of the Cloud Code endpoint, with what [streamSSEResponse]
    makes of its body. *)
Record response := {
  ok : bool;
  status : Z;
  errorText : string;
  events : list json;
  ends : ending
}.

Inductive fetched :=
| Rejected (message : string)
| Responded (r : response).

(** A POST sent to the endpoint. *)
Record request := { url : string; payload : json }.

Inductive finish :=
| Returned
| Thrown (message : string)
| LoopExit
| OutOfFuel.

(** What a run of the retry loop has done: the events yielded to the
    client, the re-fetches sent, the sleeps, and how it ended. *)
Record run := {
  yielded : list json;
  refetched : list request;
  slept : list Z;
  finished : finish
}.

(** [emitEmptyResponseFallback(model)]; [randomHex] is
    [crypto.randomBytes(16).toString('hex')]. *)
Definition emitEmptyResponseFallback (randomHex : string) (model : option json) : list json :=
  [ obj [("type", Some (JStr "message_start"));
         ("message",
          Some (obj [("id", Some (JStr ("msg_" ++ randomHex)));
                     ("type", Some (JStr "message"));
                     ("role", Some (JStr "assistant"));
                     ("content", Some (JArr []));
                     ("model", model);
                     ("stop_reason", Some JNull);
                     ("stop_sequence", Some JNull);
                     ("usage", Some (JObj [("input_tokens", JNum (ofZ 0));
                                           ("output_tokens", JNum (ofZ 0))]))]))];
    obj [("type", Some (JStr "content_block_start"));
         ("index", Some (JNum (ofZ 0)));
         ("content_block",
          Some (JObj [("type", JStr "text"); ("text", JStr EmptyString)]))];
    obj [("type", Some (JStr "content_block_delta"));
         ("index", Some (JNum (ofZ 0)));
         ("delta",
          Some (JObj [("type", JStr "text_delta");
                      ("text", JStr "[No response after retries - please try again]")]))];
    obj [("type", Some (JStr "content_block_stop")); ("index", Some (JNum (ofZ 0)))];
    obj [("type", Some (JStr "message_delta"));
         ("delta", Some (JObj [("stop_reason", JStr "end_turn"); ("stop_sequence", JNull)]));
         ("usage", Some (JObj [("output_tokens", JNum (ofZ 0))]))];
    obj [("type", Some (JStr "message_stop"))] ].

Section EmptyRetries.
(** The endpoint: the answer to the [n]-th re-fetch of a request. *)
Variable fetch : request -> nat -> fetched.
Variable randomHex : string.
Variable model : option json.
Variable req : request.

Definition add_events (evs : list json) (r : run) : run :=
  {| yielded := List.app evs (yielded r);
     refetched := refetched r;
     slept := slept r;
     finished := finished r |}.

Definition add_refetch (r : run) : run :=
  {| yielded := yielded r;
     refetched := req :: refetched r;
     slept := slept r;
     finished := finished r |}.

Definition add_sleep (ms : Z) (r : run) : run :=
  {| yielded := yielded r;
     refetched := refetched r;
     slept := ms :: slept r;
     finished := finished r |}.

Definition stop (f : finish) : run :=
  {| yielded := []; refetched := []; slept := []; finished := f |}.

(** The loop [while (emptyRetries <= MAX_EMPTY_RESPONSE_RETRIES)]. *)
Fixpoint retryLoop (fuel : nat) (emptyRetries : nat) (currentResponse : response) : run :=
  match fuel with
  | O => stop OutOfFuel
  | S fuel' =>
      if (emptyRetries <=? MAX_EMPTY_RESPONSE_RETRIES)%nat then
        add_events (events currentResponse)
          match ends currentResponse with
          | Completed => stop Returned
          | EmptyResponse =>
              if (emptyRetries <? MAX_EMPTY_RESPONSE_RETRIES)%nat then
                let emptyRetries' := S emptyRetries in
                add_refetch
                  match fetch req emptyRetries with
                  | Rejected message => stop (Thrown message)
                  | Responded r =>
                      if negb (ok r) then
                        if (status r =? 429)%Z
                        then stop (Thrown ("Rate limited during retry: " ++ errorText r))
                        else if (status r =? 401)%Z
                        then stop (Thrown ("Auth error during retry: " ++ errorText r))
                        else if (500 <=? status r)%Z
                        then add_sleep 1000 (retryLoop fuel' emptyRetries' r)
                        else stop (Thrown ("Empty response retry failed: "
                                           ++ Z_to_string (status r) ++ " - "
                                           ++ errorText r))
                      else retryLoop fuel' emptyRetries' r
                  end
              else
                add_events (emitEmptyResponseFallback randomHex model) (stop Returned)
          | StreamError message => stop (Thrown message)
          end
      else stop LoopExit
  end.

(** Streaming a successful first response: [emptyRetries] starts at 0. *)
Definition streamWithRetries (first : response) : run :=
  retryLoop (S MAX_EMPTY_RESPONSE_RETRIES) 0 first.
End EmptyRetries.

End StreamingHandler.

(* ================================================================= *)
(** ** Session manager ([src/session-manager.js]) *)

Module SessionManager.
Import JS.

(** ['active' | 'idle' | 'error']. *)
Inductive sessionStatus := StatusActive | StatusIdle | StatusError.

Definition status_eqb (a b : sessionStatus) : bool :=
  match a, b with
  | StatusActive, StatusActive | StatusIdle, StatusIdle | StatusError, StatusError => true
  | _, _ => false
  end.

(** An entry of [session.errors]. *)
Record sessionError := { message : string; timestamp : Z }.

(** A session; dates are epochs in milliseconds, [pid] is always [null]. *)
Record session := {
  id : Z;
  name : json;
  status : sessionStatus;
  createdAt : Z;
  lastActivity : Z;
  requestCount : Z;
  model : option json;
  errors : list sessionError
}.

(** The module state: the [sessions] map, in insertion order, and
    [sessionIdCounter]. *)
Record store := { sessions : list (Z * session); sessionIdCounter : Z }.

Definition initial : store := {| sessions := []; sessionIdCounter := 1 |}.

(** [sessions.get(id)]. *)
Fixpoint lookup (key : Z) (l : list (Z * session)) : option session :=
  match l with
  | [] => None
  | (k, s) :: r => if (key =? k)%Z then Some s else lookup key r
  end.

(** [sessions.set(id, session)]: an existing key keeps its place. *)
Fixpoint set (key : Z) (s : session) (l : list (Z * session)) : list (Z * session) :=
  match l with
  | [] => [(key, s)]
  | (k, s') :: r => if (key =? k)%Z then (key, s) :: r else (k, s') :: set key s r
  end.

(** [sessions.delete(id)]. *)
Fixpoint remove (key : Z) (l : list (Z * session)) : list (Z * session) :=
  match l with
  | [] => []
  | (k, s) :: r => if (key =? k)%Z then r else (k, s) :: remove key r
  end.

(** [createSession(name)] at the time [now]. *)
Definition createSession (given : option json) (now : Z) (st : store) : session * store :=
  let id := sessionIdCounter st in
  let s := {| id := id;
              name := or_else given (JStr ("Session " ++ Z_to_string id));
              status := StatusActive;
              createdAt := now;
              lastActivity := now;
              requestCount := 0;
              model := None;
              errors := [] |} in
  (s, {| sessions := set id s (sessions st); sessionIdCounter := id + 1 |}).

(** [getSession(id)]. *)
Definition getSession (key : Z) (st : store) : option session := lookup key (sessions st).

(** A write to a property of a session held in the map. *)
Definition update (key : Z) (f : session -> session) (st : store) : option session * store :=
  match lookup key (sessions st) with
  | None => (None, st)
  | Some s =>
      (Some (f s),
       {| sessions := set key (f s) (sessions st); sessionIdCounter := sessionIdCounter st |})
  end.

(** [updateSessionActivity(id, model)]. *)
Definition updateSessionActivity (key : Z) (given : option json) (now : Z) :=
  update key (fun s =>
    {| id := id s; name := name s; status := StatusActive; createdAt := createdAt s;
       lastActivity := now; requestCount := requestCount s + 1;
       model := if truthy given then given else model s;
       errors := errors s |}).

(** [markSessionIdle(id)]. *)
Definition markSessionIdle (key : Z) :=
  update key (fun s =>
    {| id := id s; name := name s; status := StatusIdle; createdAt := createdAt s;
       lastActivity := lastActivity s; requestCount := requestCount s;
       model := model s; errors := errors s |}).

(** [errors.slice(-10)] when [errors.length > 10]. *)
Definition lastTen (l : list sessionError) : list sessionError :=
  if (10 <? List.length l)%nat then skipn (List.length l - 10) l else l.

(** [recordSessionError(id, error)] for an error of the given message. *)
Definition recordSessionError (key : Z) (text : string) (now : Z) :=
  update key (fun s =>
    {| id := id s; name := name s; status := StatusError; createdAt := createdAt s;
       lastActivity := lastActivity s; requestCount := requestCount s;
       model := model s;
       errors := lastTen (List.app (errors s) [{| message := text; timestamp := now |}]) |}).

(** [updateSessionName(id, name)]. *)
Definition updateSessionName (key : Z) (given : json) :=
  update key (fun s =>
    {| id := id s; name := given; status := status s; createdAt := createdAt s;
       lastActivity := lastActivity s; requestCount := requestCount s;
       model := model s; errors := errors s |}).

(** [deleteSession(id)]. *)
Definition deleteSession (key : Z) (st : store) : bool * store :=
  match lookup key (sessions st) with
  | None => (false, st)
  | Some _ =>
      (true, {| sessions := remove key (sessions st);
                sessionIdCounter := sessionIdCounter st |})
  end.

(** The test of [cleanupIdleSessions]: idle, and last active more than one
    hour before [now]. *)
Definition stale (now : Z) (s : session) : bool :=
  (lastActivity s <? now - 60 * 60 * 1000)%Z && status_eqb (status s) StatusIdle.

(** [cleanupIdleSessions()]: the number of sessions removed and the new
    state. *)
Definition cleanupIdleSessions (now : Z) (st : store) : Z * store :=
  let kept := filter (fun kv => negb (stale now (snd kv))) (sessions st) in
  (Z.of_nat (List.length (filter (fun kv => stale now (snd kv)) (sessions st))),
   {| sessions := kept; sessionIdCounter := sessionIdCounter st |}).

(** The stable sort of [getAllSessions]: most recent activity first. *)
Fixpoint insertByActivity (s : session) (l : list session) : list session :=
  match l with
  | [] => [s]
  | t :: r =>
      if (lastActivity s <? lastActivity t)%Z then t :: insertByActivity s r
      else s :: t :: r
  end.

(** [getAllSessions()]. *)
Definition getAllSessions (st : store) : list session :=
  fold_right insertByActivity [] (map snd (sessions st)).

(** The result of [getSessionStats()]. *)
Record stats := { total : Z; active : Z; idle : Z; error : Z; totalRequests : Z }.

Definition count (st : sessionStatus) (l : list session) : Z :=
  Z.of_nat (List.length (filter (fun s => status_eqb (status s) st) l)).

(** [getSessionStats()]. *)
Definition getSessionStats (st : store) : stats :=
  let all := getAllSessions st in
  {| total := Z.of_nat (List.length all);
     active := count StatusActive all;
     idle := count StatusIdle all;
     error := count StatusError all;
     totalRequests := fold_left (fun sum s => (sum + requestCount s)%Z) all 0%Z |}.

(** [checkIdleSessions()]: an active session without activity for five
    minutes is marked idle. *)
Definition checkIdleSessions (now : Z) (st : store) : store :=
  fold_left
    (fun st' kv =>
       if status_eqb (status (snd kv)) StatusActive
          && (lastActivity (snd kv) <? now - 5 * 60 * 1000)%Z
       then snd (markSessionIdle (fst kv) st')
       else st')
    (sessions st) st.

Definition is_digit (c : ascii) : bool := between 48 57 c.

(** The value of a run of decimal digits read after [acc]. *)
Fixpoint digits (acc : Z) (s : string) : Z :=
  match s with
  | String c r =>
      if is_digit c then digits (10 * acc + Z.of_nat (nat_of_ascii c - 48)) r else acc
  | EmptyString => acc
  end.

Definition unsigned (s : string) : option Z :=
  match s with
  | String c _ => if is_digit c then Some (digits 0 s) else None
  | EmptyString => None
  end.

(** [parseInt(s, 10)]; [None] is [NaN]. *)
Definition parseInt (s : string) : option Z :=
  match trimStart s with
  | String c r =>
      if (nat_of_ascii c =? 45)%nat then option_map Z.opp (unsigned r)
      else if (nat_of_ascii c =? 43)%nat then unsigned r
      else unsigned (String c r)
  | EmptyString => None
  end.

(** [detectOrCreateSession(req)] for the value of the header
    [x-session-id]. *)
Definition detectOrCreateSession (header : option string) (now : Z) (st : store)
  : session * store :=
  let found :=
    match header with
    | Some sessionId =>
        if negb (sessionId =? EmptyString) then
          match parseInt sessionId with
          | Some key => lookup key (sessions st)
          | None => None
          end
        else None
    | None => None
    end in
  match found with
  | Some s => (s, st)
  | None => createSession None now st
  end.

(** A call of the module. *)
Inductive call :=
| CreateSession (given : option json) (now : Z)
| UpdateSessionActivity (key : Z) (given : option json) (now : Z)
| MarkSessionIdle (key : Z)
| RecordSessionError (key : Z) (text : string) (now : Z)
| UpdateSessionName (key : Z) (given : json)
| DeleteSession (key : Z)
| CleanupIdleSessions (now : Z)
| CheckIdleSessions (now : Z)
| DetectOrCreateSession (header : option string) (now : Z).

(** The state after a call. *)
Definition run (st : store) (c : call) : store :=
  match c with
  | CreateSession given now => snd (createSession given now st)
  | UpdateSessionActivity key given now => snd (updateSessionActivity key given now st)
  | MarkSessionIdle key => snd (markSessionIdle key st)
  | RecordSessionError key text now => snd (recordSessionError key text now st)
  | UpdateSessionName key given => snd (updateSessionName key given st)
  | DeleteSession key => snd (deleteSession key st)
  | CleanupIdleSessions now => snd (cleanupIdleSessions now st)
  | CheckIdleSessions now => checkIdleSessions now st
  | DetectOrCreateSession header now => snd (detectOrCreateSession header now st)
  end.

(** The state after a sequence of calls on a fresh module. *)
Definition runAll (calls : list call) : store := fold_left run calls initial.

End SessionManager.

(* ================================================================= *)
(** ** Sessions router ([src/routes/sessions.js]) *)

Module SessionsRouter.
Import JS.
Import SessionManager.

(** What a handler of the router answers. *)
Inductive reply :=
| Listing (listed : list session) (summary : stats)  (* [res.json({ sessions, stats })] *)
| Found (s : session)                                (* [res.json(session)] *)
| Deleted                           (* [res.json({ success: true, message: ... })] *)
| Failure (code : Z) (error : string).               (* [res.status(code).json({ error })] *)

Definition notFound : reply := Failure 404 "Session not found".

(** [router.get('/')]. *)
Definition getAll (st : store) : reply := Listing (getAllSessions st) (getSessionStats st).

(** [router.get('/:id')]; [parseInt] gives [NaN] for a parameter without
    leading digits, and [NaN] is no key of the map. *)
Definition getOne (param : string) (st : store) : reply :=
  match parseInt param with
  | Some key =>
      match getSession key st with
      | Some s => Found s
      | None => notFound
      end
  | None => notFound
  end.

(** [router.patch('/:id')] for [req.body = body]. *)
Definition patchOne (param : string) (body : json) (st : store) : reply * store :=
  match body with
  | JNull =>
      (Failure 500 "Cannot destructure property 'name' of 'req.body' as it is null.", st)
  | _ =>
      match get "name" body with
      | Some name =>
          if negb (truthy (Some name)) then (Failure 400 "Name is required", st)
          else
            match parseInt param with
            | Some key =>
                match updateSessionName key name st with
                | (Some s, st') => (Found s, st')
                | (None, st') => (notFound, st')
                end
            | None => (notFound, st)
            end
      | None => (Failure 400 "Name is required", st)
      end
  end.

(** [router.delete('/:id')]. *)
Definition deleteOne (param : string) (st : store) : reply * store :=
  match parseInt param with
  | Some key =>
      match deleteSession key st with
      | (true, st') => (Deleted, st')
      | (false, st') => (notFound, st')
      end
  | None => (notFound, st)
  end.

End SessionsRouter.

(* ================================================================= *)
(** ** Terminal launcher ([src/launcher.js]) *)

Module TerminalLauncher.
Import JS.

Definition backslash : ascii := ascii_of_nat 92.
Definition quote : ascii := ascii_of_nat 34.
Definition dollar : ascii := ascii_of_nat 36.
Definition backtick : ascii := ascii_of_nat 96.

(** [s.replace(/c/g, replacement)] for a pattern of one character and a
    replacement without special pattern. *)
Fixpoint replaceAll (c : ascii) (replacement : string) (s : string) : string :=
  match s with
  | EmptyString => EmptyString
  | String x r =>
      if Ascii.eqb x c then replacement ++ replaceAll c replacement r
      else String x (replaceAll c replacement r)
  end.

Definition escaped (c : ascii) : string := String backslash (String c EmptyString).

(** [safeCommands] of [_spawnMacOS]: backslashes, then quotes, then dollar
    signs, then backticks. *)
Definition safeCommands (commands : string) : string :=
  replaceAll backtick (escaped backtick)
    (replaceAll dollar (escaped dollar)
       (replaceAll quote (escaped quote)
          (replaceAll backslash (escaped backslash) commands))).

(** The [commands] of [launch]: the array joined with [' && ']; [port] and
    [apiKey] are the printed fields of the launcher. *)
Definition commands (port apiKey model : string) : string :=
  "export ANTHROPIC_BASE_URL=http://localhost:" ++ port
  ++ " && " ++ "export ANTHROPIC_API_KEY=" ++ apiKey
  ++ " && " ++ "export ANTHROPIC_MODEL=" ++ model
  ++ " && " ++ "clear"
  ++ " && " ++ "/Users/studio/antigravity-claude-proxy/claude-proxy".

End TerminalLauncher.

(* ================================================================= *)
(** ** Anthropic to Gemini transcoder ([src/transcoders/gemini.js]) *)

Module GeminiTranscoder.
Import JS.

Section WithPlatform.
Context (pf : Platform).

(** The callback of [messages.map]. *)
Definition convertMessage (msg : json) : result json :=
  role <- prop "role" (Some msg) ;;
  content <- prop "content" (Some msg) ;;
  text <-
    match content with
    | Some (JStr s) => Ok (JStr s)
    | Some (JArr blocks) =>
        texts <- mapM (fun c => prop "text" (Some c)) blocks ;;
        joined <- join_empty pf texts ;;
        Ok (JStr joined)
    | None => Throw "Cannot read properties of undefined (reading 'map')"
    | Some JNull => Throw "Cannot read properties of null (reading 'map')"
    | Some _ => Throw "msg.content.map is not a function"
    end ;;
  Ok (obj [("role", Some (JStr (if is_str "assistant" role then "model" else "user")));
           ("parts", Some (JArr [obj [("text", Some text)]]))]).

(** [GeminiTranscoder.toGemini(anthropicBody)]. *)
Definition toGemini (anthropicBody : json) : result json :=
  match anthropicBody with
  | JNull =>
      Throw "Cannot destructure property 'messages' of 'anthropicBody' as it is null."
  | _ =>
      let system := get "system" anthropicBody in
      let systemInstruction :=
        if truthy system
        then Some (obj [("parts", Some (JArr [obj [("text", system)]]))])
        else None in
      contents <-
        match get "messages" anthropicBody with
        | Some (JArr msgs) => mapM convertMessage msgs
        | None => Throw "Cannot read properties of undefined (reading 'map')"
        | Some JNull => Throw "Cannot read properties of null (reading 'map')"
        | Some _ => Throw "messages.map is not a function"
        end ;;
      Ok (obj [("contents", Some (JArr contents));
               ("system_instruction", systemInstruction);
               ("generationConfig",
                Some (obj [("temperature",
                            Some (or_else (get "temperature" anthropicBody)
                                    (JNum (Fin (7 # 10)))));
                           ("maxOutputTokens",
                            Some (or_else (get "max_tokens" anthropicBody)
                                    (JNum (ofZ 8192))));
                           ("stopSequences",
                            Some (or_else (get "stop_sequences" anthropicBody)
                                    (JArr [])))]))])
  end.

(** [geminiChunk.candidates?.[0]?.content?.parts?.[0]?.text]. *)
Definition chunkText (geminiChunk : json) : result (option json) :=
  candidates <- prop "candidates" (Some geminiChunk) ;;
  let opt (v : option json) (f : json -> option json) : option json :=
    match v with
    | None | Some JNull => None
    | Some x => f x
    end in
  Ok (opt (opt (opt (opt candidates first) (get "content")) (get "parts"))
        (fun parts => opt (first parts) (get "text"))).

(** [GeminiTranscoder.fromGeminiStream(geminiChunk, index)]; [Ok None] is
    the [null] result. *)
Definition fromGeminiStream (geminiChunk : json) (index : option json)
  : result (option json) :=
  found <- chunkText geminiChunk ;;
  let text := or_else found (JStr EmptyString) in
  if negb (truthy (Some text)) then Ok None
  else Ok (Some (obj [("type", Some (JStr "content_block_delta"));
                      ("index", index);
                      ("delta",
                       Some (obj [("type", Some (JStr "text_delta"));
                                  ("text", Some text)]))])).
End WithPlatform.

End GeminiTranscoder.

(* ================================================================= *)
(** ** Notions of the specification *)

Import JS.

(** A dangerous key appears somewhere in the decoded body, at any nesting
    depth. *)
Fixpoint has_dangerous_key (v : json) : bool :=
  match v with
  | JArr items =>
      (fix any (l : list json) : bool :=
         match l with
         | [] => false
         | x :: r => has_dangerous_key x || any r
         end) items
  | JObj props =>
      (fix any (l : list (string * json)) : bool :=
         match l with
         | [] => false
         | (k, x) :: r => Validators.is_dangerous k || has_dangerous_key x || any r
         end) props
  | _ => false
  end.

(** The nesting depth of a body: the body itself is at depth 0, an element
    of an array or the value of a property is one level below its parent,
    and the nesting depth is the depth of the deepest value. *)
Fixpoint nesting (v : json) : nat :=
  match v with
  | JArr items =>
      (fix deepest (l : list json) : nat :=
         match l with
         | [] => 0
         | x :: r => Nat.max (S (nesting x)) (deepest r)
         end) items
  | JObj props =>
      (fix deepest (l : list (string * json)) : nat :=
         match l with
         | [] => 0
         | (_, x) :: r => Nat.max (S (nesting x)) (deepest r)
         end) props
  | _ => 0
  end.

(** The model of a body does not send it to the local gateway: it is absent
    or falsy, or it is a string that starts neither with [local-] nor with
    [gemma-]. *)
Definition not_gateway_model (body : json) : Prop :=
  match get "model" body with
  | None => True
  | Some (JStr m) => startsWith "local-" m = false /\ startsWith "gemma-" m = false
  | Some v => truthy (Some v) = false
  end.

(** The model of a body holds none of the dangerous keys. *)
Definition clean_model (body : json) : bool :=
  match get "model" body with
  | Some v => negb (has_dangerous_key v)
  | None => true
  end.

(** A platform for the examples: every URL parses, numbers print as [0],
    values serialise to [{}] and no text parses. *)
Definition examplePlatform : Platform :=
  {| valid_url := fun _ => true;
     number_toString := fun _ => "0";
     JSON_stringify := fun _ => "{}";
     JSON_parse := fun _ => None;
     coerced_gt_zero := fun _ => false |}.

(** [{"model": "local-x", "messages": [{"role": "user", "content": "hi"}],
     "__proto__": {"polluted": true}}] *)
Definition pollutedLocalBody : json :=
  JObj [("model", JStr "local-x");
        ("messages", JArr [JObj [("role", JStr "user"); ("content", JStr "hi")]]);
        ("__proto__", JObj [("polluted", JBool true)])].

(** [{"messages": [{"role": "user", "content": "x"}],
     "__proto__": {"polluted": true}}] *)
Definition pollutedBody : json :=
  JObj [("messages", JArr [JObj [("role", JStr "user"); ("content", JStr "x")]]);
        ("__proto__", JObj [("polluted", JBool true)])].

(** [{"model": "fast", "messages": [{"role": "user", "content": "hi"}],
     "__proto__": {"polluted": true}}] *)
Definition pollutedAliasBody : json :=
  JObj [("model", JStr "fast");
        ("messages", JArr [JObj [("role", JStr "user"); ("content", JStr "hi")]]);
        ("__proto__", JObj [("polluted", JBool true)])].

(** A [config.modelMapping] with the alias [fast] for [local-x] and the
    alias [smart] for [gemini-pro]. *)
Definition aliasMapping : json :=
  JObj [("fast", JObj [("mapping", JStr "local-x")]);
        ("smart", JObj [("mapping", JStr "gemini-pro")])].

(** A [config.modelMapping] without entry. *)
Definition noMapping : json := JObj [].

(** The errors recorded by the checks of the scalar parameters, in source
    order; none of these checks can throw. *)
Definition plainErrors (body : json) : list string :=
  (Validators.checkModel body
   ++ Validators.checkMaxTokens body ++ Validators.checkTemperature body
   ++ Validators.checkTopP body ++ Validators.checkTopK body
   ++ Validators.checkStream body)%list.

(** The lowercased model starts with one of the prefixes of the whitelist:
    [claude-], [gemini-], [gpt-os-], [gpt-4-], [local-], [lmstudio-],
    [deepseek-], [qwen-]. *)
Definition allowed_prefix (m : string) : Prop :=
  exists p, In p Validators.allowedPrefixes /\ startsWith p (toLowerCase m) = true.

(** The model starts, as written, with [local-] or [gemma-]. *)
Definition gateway_prefix (m : string) : bool :=
  startsWith "local-" m || startsWith "gemma-" m.

(** [{"model": "LOCAL-x", "messages": [{"role": "user", "content": "hi"}]}] *)
Definition upperLocalBody : json :=
  JObj [("model", JStr "LOCAL-x");
        ("messages", JArr [JObj [("role", JStr "user"); ("content", JStr "hi")]])].

(** [{"model": "Gemma-2b", "messages": [{"role": "user", "content": "hi"}]}] *)
Definition upperGemmaBody : json :=
  JObj [("model", JStr "Gemma-2b");
        ("messages", JArr [JObj [("role", JStr "user"); ("content", JStr "hi")]])].

(** [{"model": "claude-3-haiku", "messages": [{"role": "user", "content": "hi"}]}] *)
Definition claudeBody : json :=
  JObj [("model", JStr "claude-3-haiku");
        ("messages", JArr [JObj [("role", JStr "user"); ("content", JStr "hi")]])].

(** [{"messages": [{"role": "user", "content": "hi"}]}] *)
Definition modellessBody : json :=
  JObj [("messages", JArr [JObj [("role", JStr "user"); ("content", JStr "hi")]])].

(** The value is an integer between [lo] and [hi]. *)
Definition integer_in (v : json) (lo hi : Z) : Prop :=
  exists q z, v = JNum (Fin q) /\ Qeq q (inject_Z z) /\ (lo <= z <= hi)%Z.

(** The value is a number between [lo] and [hi]. *)
Definition number_in (v : json) (lo hi : Z) : Prop :=
  exists q, v = JNum (Fin q) /\ Qle (inject_Z lo) q /\ Qle q (inject_Z hi).

(** A block of a message breaks its schema in one of the ways the
    specification lists. *)
Inductive block_violation : json -> Prop :=
| TextTooLong (block : json) (text : string) :
    get "type" block = Some (JStr "text") ->
    get "text" block = Some (JStr text) ->
    (2000000 < strlen text)%Z ->
    block_violation block
| ImageTooLarge (block source : json) (data : string) :
    get "type" block = Some (JStr "image") ->
    get "source" block = Some source ->
    get "type" source = Some (JStr "base64") ->
    get "data" source = Some (JStr data) ->
    (10000000 < strlen data)%Z ->
    block_violation block
| ImageMediaType (block source : json) (media_type : string) :
    get "type" block = Some (JStr "image") ->
    get "source" block = Some source ->
    get "type" source = Some (JStr "base64") ->
    get "media_type" source = Some (JStr media_type) ->
    media_type <> EmptyString ->
    ~ In media_type ["image/jpeg"; "image/png"; "image/gif"; "image/webp"] ->
    block_violation block
| ToolNameInvalid (block : json) (name : string) :
    get "type" block = Some (JStr "tool_use") ->
    get "name" block = Some (JStr name) ->
    matches_name name = false \/ (256 < strlen name)%Z ->
    block_violation block.

(** The body breaks one of the rules the specification lists. *)
Inductive violation : json -> Prop :=
| PollutionKey (body : json) :
    has_dangerous_key body = true -> violation body
| TooDeep (body : json) :
    (50 < nesting body)%nat -> violation body
| MessagesMissing (body : json) :
    get "messages" body = None -> violation body
| MessagesEmpty (body : json) :
    get "messages" body = Some (JArr []) -> violation body
| MessagesTooMany (body : json) (msgs : list json) :
    get "messages" body = Some (JArr msgs) ->
    (500 < Z.of_nat (List.length msgs))%Z -> violation body
| BlockViolation (body : json) (msgs : list json) (msg : json) (blocks : list json)
    (block : json) :
    get "messages" body = Some (JArr msgs) -> In msg msgs ->
    get "content" msg = Some (JArr blocks) -> In block blocks ->
    block_violation block -> violation body
| MaxTokensOutOfRange (body v : json) :
    get "max_tokens" body = Some v -> ~ integer_in v 1 200000 -> violation body
| TemperatureOutOfRange (body v : json) :
    get "temperature" body = Some v -> ~ number_in v 0 2 -> violation body
| TopPOutOfRange (body v : json) :
    get "top_p" body = Some v -> ~ number_in v 0 1 -> violation body
| TopKOutOfRange (body v : json) :
    get "top_k" body = Some v -> ~ integer_in v 1 500 -> violation body
| ToolsTooMany (body : json) (tools : list json) :
    get "tools" body = Some (JArr tools) ->
    (100 < Z.of_nat (List.length tools))%Z -> violation body
| ThinkingBudgetOutOfRange (body thinking v : json) :
    get "thinking" body = Some thinking ->
    get "budget_tokens" thinking = Some v ->
    ~ integer_in v 1000 100000 -> violation body
| ModelNotAllowed (body v : json) :
    get "model" body = Some v ->
    ~ (exists m, v = JStr m /\ allowed_prefix m) -> violation body.

(** The body has none of the [null] values on which a property is read
    without a guard: it is not [null] itself, [thinking] is not [null], and
    no entry of an array [system] or [tools] is [null]. *)
Definition no_null_entry (v : option json) : Prop :=
  forall items, v = Some (JArr items) -> ~ In JNull items.

Definition no_unguarded_null (body : json) : Prop :=
  body <> JNull
  /\ get "thinking" body <> Some JNull
  /\ no_null_entry (get "system" body)
  /\ no_null_entry (get "tools" body).



(** [{"max_tokens": 0}] *)
Definition twoFlawsBody : json := JObj [("max_tokens", JNum (ofZ 0))].

(** [{"messages": [], "thinking": null}] *)
Definition nullThinkingBody : json :=
  JObj [("messages", JArr []); ("thinking", JNull)].

(** [{"messages": [{"role": "user", "content": [{"type": "image",
      "source": {"type": "base64", "data": "AAAA", "media_type": {"toString": 1}}}]}],
     "max_tokens": 0}] *)
Definition unconvertibleMediaTypeBody : json :=
  JObj [("messages",
         JArr [JObj [("role", JStr "user");
                     ("content",
                      JArr [JObj [("type", JStr "image");
                                  ("source",
                                   JObj [("type", JStr "base64");
                                         ("data", JStr "AAAA");
                                         ("media_type",
                                          JObj [("toString", JNum (ofZ 1))])])]])]]);
        ("max_tokens", JNum (ofZ 0))].


Definition quoted (s : string) : string := Messages.dquote ++ s ++ Messages.dquote.

Definition nl : string := String newline EmptyString.

(** The text of the OpenAI chunk that carries the text [ok]: the JSON
    object with [choices] holding one choice whose [delta] has [content]
    equal to [ok]. *)
Definition okPayload : string :=
  "{" ++ quoted "choices" ++ ":[{" ++ quoted "delta" ++ ":{"
  ++ quoted "content" ++ ":" ++ quoted "ok" ++ "}}]}".

(** Its decoded value. *)
Definition okChunk : json :=
  JObj [("choices", JArr [JObj [("delta", JObj [("content", JStr "ok")])]])].

(** An upstream body of one text chunk, then the end marker. *)
Definition okStream : list string :=
  ["data: " ++ okPayload ++ nl ++ nl; "data: [DONE]" ++ nl ++ nl].

(** The frame written for that chunk. *)
Definition okFrame : Gateway.sse :=
  {| Gateway.event := "content_block_delta";
     Gateway.data :=
       JObj [("type", JStr "content_block_delta");
             ("delta", JObj [("type", JStr "text_delta"); ("text", JStr "ok")])] |}.

(** A platform whose [JSON.parse] decodes [okPayload]. *)
Definition okPlatform : Platform :=
  {| valid_url := fun _ => true;
     number_toString := fun _ => "0";
     JSON_stringify := fun _ => "{}";
     JSON_parse := fun s => if s =? okPayload then Some okChunk else None;
     coerced_gt_zero := fun _ => false |}.

(** The answer of a local endpoint that streams [okStream]: the status is
    200, the body is a stream, and the text is no JSON document (the text
    of the exception of [response.json()] depends on the platform). *)
Definition okResponse : Gateway.response :=
  {| Gateway.ok := true;
     Gateway.status := 200;
     Gateway.text := "data: " ++ okPayload ++ nl ++ nl ++ "data: [DONE]" ++ nl ++ nl;
     Gateway.body := Some okStream;
     Gateway.parsed := Throw "Unexpected token d in JSON at position 0" |}.

(** [{"model": "local-gemma", "messages": [{"role": "user", "content": "hi"}],
     "max_tokens": 10, "stream": true}] *)
Definition localStreamBody : json :=
  JObj [("model", JStr "local-gemma");
        ("messages", JArr [JObj [("role", JStr "user"); ("content", JStr "hi")]]);
        ("max_tokens", JNum (ofZ 10));
        ("stream", JBool true)].

(** The error object of the gateway: 502 [api_error]. *)
Definition badGateway (message : string) : Gateway.reply :=
  Gateway.Json 502
    (JObj [("type", JStr "error");
           ("error", JObj [("type", JStr "api_error"); ("message", JStr message)])]).

(** Helpers for the examples: every duration prints as [2m1s] and the
    clock reads 12:00:00.401 on 6 February 2026. *)
Definition exampleHelpers : StreamingHandler.Helpers :=
  {| StreamingHandler.formatDuration := fun _ => "2m1s";
     StreamingHandler.toISOString := fun _ => "2026-02-06T12:00:00.401Z";
     StreamingHandler.getFallbackModel := fun _ => None |}.

(** The error the dispatcher throws when the pool is exhausted for
    [claude-sonnet-4-5] and the next reset is 121 s away. *)
Definition exhaustedAt401 : string :=
  StreamingHandler.exhaustedMessage exampleHelpers "claude-sonnet-4-5" 121000 0.

Import StreamingHandler.





Definition emptyResponse : response :=
  {| ok := true; status := 200; errorText := EmptyString; events := [];
     ends := EmptyResponse |}.

(** The [message_start] of an upstream message. *)
Definition upstreamStart : json :=
  JObj [("type", JStr "message_start");
        ("message", JObj [("id", JStr "msg_1"); ("type", JStr "message");
                          ("role", JStr "assistant"); ("content", JArr [])])].

(** A response whose stream yields [message_start] and no content block. *)
Definition startOnlyResponse : response :=
  {| ok := true; status := 200; errorText := EmptyString; events := [upstreamStart];
     ends := EmptyResponse |}.

Definition exampleRequest : request :=
  {| url := "https://cloudcode.example/v1internal:streamGenerateContent?alt=sse";
     payload := JObj [("model", JStr "claude-sonnet-4-5")] |}.

(** Modelled from the spec: the account pool of section 4.4, which is not
    part of the sources at hand, reduced to what the examples need.  An
    account is an email with the epoch, in milliseconds, at which its rate
    limit for the requested model is lifted; it is limited while the clock
    is before that epoch.  The pool never asks for a sticky wait. *)
Definition simpleAccount : Type := string * Z.

Definition available (at_ : Z) (a : simpleAccount) : bool := (snd a <=? at_)%Z.

Definition simpleManager : AccountManager simpleAccount (list simpleAccount) :=
  {| pickStickyAccount := fun _ at_ accounts => (find (available at_) accounts, 0%Z, accounts);
     getCurrentStickyAccount := fun _ at_ accounts => (find (available at_) accounts, accounts);
     clearExpiredLimits := fun at_ accounts =>
       map (fun a => if available at_ a then (fst a, 0%Z) else a) accounts;
     isAllRateLimited := fun _ at_ accounts =>
       negb (Z.of_nat (List.length accounts) =? 0)%Z
       && forallb (fun a => negb (available at_ a)) accounts;
     getMinWaitTimeMs := fun _ at_ accounts =>
       match accounts with
       | [] => 0%Z
       | a :: r => fold_right (fun b acc => Z.min (snd b - at_) acc) (snd a - at_)%Z r
       end;
     pickNext := fun _ at_ accounts => (find (available at_) accounts, accounts);
     getAccountCount := fun accounts => Z.of_nat (List.length accounts) |}.

(** Scenario 4 of the specification after both accounts were limited:
    A for 30 minutes, B for 10 seconds. *)
Definition bothLimited : world (list simpleAccount) :=
  {| pool := [("a@example.com", 1800000%Z); ("b@example.com", 10000%Z)]; now := 0%Z |}.

(** The same pool under an account manager that, while no account is
    available, asks the dispatcher to wait one second for the sticky
    account before it tells that every account is limited. *)
Definition patientManager : AccountManager simpleAccount (list simpleAccount) :=
  {| pickStickyAccount := fun _ at_ accounts =>
       match find (available at_) accounts with
       | Some a => (Some a, 0%Z, accounts)
       | None => (None, 1000%Z, accounts)
       end;
     getCurrentStickyAccount := getCurrentStickyAccount simpleManager;
     clearExpiredLimits := clearExpiredLimits simpleManager;
     isAllRateLimited := isAllRateLimited simpleManager;
     getMinWaitTimeMs := getMinWaitTimeMs simpleManager;
     pickNext := pickNext simpleManager;
     getAccountCount := getAccountCount simpleManager |}.

(** Both accounts limited for 30 minutes. *)
Definition bothLimitedLong : world (list simpleAccount) :=
  {| pool := [("a@example.com", 1800000%Z); ("b@example.com", 1800000%Z)]; now := 0%Z |}.

(** The block has the type [ty]. *)
Definition is_block (ty : string) (c : json) : bool := is_str ty (get "type" c).

(** The text parts of a list of blocks: the [text] of each block of type
    [text], in order. *)
Definition text_parts (blocks : list json) : list (option json) :=
  map (get "text") (filter (is_block "text") blocks).

(** The text parts of a message that holds a tool result: the [text] of
    each block of type [text], and each element that is a bare string. *)
Definition hoisted_parts (blocks : list json) : list (option json) :=
  flat_map (fun c =>
              match c with
              | JStr _ => [Some c]
              | _ => if is_block "text" c then [get "text" c] else []
              end) blocks.

(** The element is a block of type [text] or a bare string. *)
Definition text_or_string (c : json) : bool :=
  is_block "text" c || jstype_eqb (typeof (Some c)) TString.

(** The text parts that come before the first tool result. *)
Fixpoint preceding_parts (blocks : list json) : list (option json) :=
  match blocks with
  | [] => []
  | c :: r =>
      if is_block "tool_result" c then []
      else ((if is_block "text" c then [get "text" c] else []) ++ preceding_parts r)%list
  end.

(** The [text] of every block of type [text] is truthy: it is not an empty
    string, for one. *)
Definition texts_truthy (blocks : list json) : Prop :=
  forall c, In c blocks -> is_block "text" c = true -> truthy (get "text" c) = true.

(** [{id, type: 'function', function: {name, arguments: JSON.stringify(input)}}]
    for a tool use. *)
Definition toolCall (pf : Platform) (tu : json) : json :=
  obj [("id", get "id" tu);
       ("type", Some (JStr "function"));
       ("function", Some (obj [("name", get "name" tu);
                               ("arguments", stringify pf (get "input" tu))]))].

(** [{role: 'tool', tool_call_id, content}] for a tool result, a content
    that is not a string being stringified. *)
Definition toolMessage (pf : Platform) (tr : json) : json :=
  obj [("role", Some (JStr "tool"));
       ("tool_call_id", get "tool_use_id" tr);
       ("content",
        match get "content" tr with
        | Some (JStr c) => Some (JStr c)
        | other => stringify pf other
        end)].

(** The conversion of an assistant message without tool result, whose
    collected text is [text]. *)
Definition assistantMessage (pf : Platform) (text : string) (blocks : list json) : json :=
  obj [("role", Some (JStr "assistant"));
       ("content", Some (if text =? EmptyString then JNull else JStr text));
       ("tool_calls", match filter (is_block "tool_use") blocks with
                      | [] => None
                      | uses => Some (JArr (map (toolCall pf) uses))
                      end)].

(** The conversion of a message that holds a tool result and whose
    collected text is [text]: a message of the same role with the text,
    when there is some, then the tool messages. *)
Definition toolResultMessages (pf : Platform) (role : option json) (text : string)
  (blocks : list json) : list json :=
  ((if text =? EmptyString then []
    else [obj [("role", role); ("content", Some (JStr text))]])
   ++ map (toolMessage pf) (filter (is_block "tool_result") blocks))%list.

(** The conversion the claim states for a user message that holds a tool
    result: first a user message with the preceding text parts, whose
    concatenation is [preceding], then the tool messages. *)
Definition statedToolResultMessages (pf : Platform) (role : option json)
  (preceding : string) (blocks : list json) : list json :=
  obj [("role", role); ("content", Some (JStr preceding))]
  :: map (toolMessage pf) (filter (is_block "tool_result") blocks).

(** The leading message for a truthy [system]. *)
Definition systemMessage (system : json) : json :=
  JObj [("role", JStr "system"); ("content", system)].

(** [[{"type": "tool_result", "tool_use_id": "toolu_1", "content": "42"},
      {"type": "text", "text": "thanks"}]]: the tool result first. *)
Definition resultThenTextBlocks : list json :=
  [JObj [("type", JStr "tool_result"); ("tool_use_id", JStr "toolu_1");
         ("content", JStr "42")];
   JObj [("type", JStr "text"); ("text", JStr "thanks")]].

Definition resultThenText : json :=
  JObj [("role", JStr "user"); ("content", JArr resultThenTextBlocks)].

(** A tool result alone. *)
Definition resultAloneBlocks : list json :=
  [JObj [("type", JStr "tool_result"); ("tool_use_id", JStr "toolu_1");
         ("content", JStr "42")]].

Definition resultAlone : json :=
  JObj [("role", JStr "user"); ("content", JArr resultAloneBlocks)].

(** A thinking block, a text and a tool use in an assistant message. *)
Definition assistantTurnBlocks : list json :=
  [JObj [("type", JStr "thinking"); ("thinking", JStr "hm"); ("signature", JStr "sig")];
   JObj [("type", JStr "text"); ("text", JStr "Let me check.")];
   JObj [("type", JStr "tool_use"); ("id", JStr "toolu_1"); ("name", JStr "lookup");
         ("input", JObj [])]].

Definition assistantTurn : json :=
  JObj [("role", JStr "assistant"); ("content", JArr assistantTurnBlocks)].

(** A base64 image whose [media_type] is the empty string. *)
Definition emptyMediaTypeBody : json :=
  JObj [("messages",
         JArr [JObj [("role", JStr "user");
                     ("content",
                      JArr [JObj [("type", JStr "image");
                                  ("source",
                                   JObj [("type", JStr "base64");
                                         ("data", JStr "AAAA");
                                         ("media_type", JStr EmptyString)])]])]])].

(** An object nested [n] levels deep: [{"a": {"a": ... {} ...}}]. *)
Fixpoint nested (n : nat) : json :=
  match n with
  | O => JObj []
  | S k => JObj [("a", nested k)]
  end.

(** [{"messages": [{"role": "user", "content": [{"type": "image",
      "source": {"type": "base64", "data": "AAAA", "media_type": "image/bmp"}}]}]}] *)
Definition bmpImageBody : json :=
  JObj [("messages",
         JArr [JObj [("role", JStr "user");
                     ("content",
                      JArr [JObj [("type", JStr "image");
                                  ("source",
                                   JObj [("type", JStr "base64");
                                         ("data", JStr "AAAA");
                                         ("media_type", JStr "image/bmp")])]])]])].

(** [{"model": "local-gemma", "messages": [{"role": "user", "content": "hi"}],
     "max_tokens": 10}] *)
Definition localGemmaBody : json :=
  JObj [("model", JStr "local-gemma");
        ("messages", JArr [JObj [("role", JStr "user"); ("content", JStr "hi")]]);
        ("max_tokens", JNum (ofZ 10))].

(* ================================================================= *)
(** ** Notions of the further properties *)

(** A message that the loop of [validateMessages] lets through: an object
    whose [role] is [user] or [assistant] and whose [content] passes
    [validateMessageContent]. *)
Definition well_formed_message (pf : Platform) (msg : json) : Prop :=
  exists role c,
    get "role" msg = Some (JStr role)
    /\ (role = "user" \/ role = "assistant")
    /\ get "content" msg = Some c
    /\ Validators.validateMessageContent pf c = Ok Validators.Pass.

(** A tool whose [name] is a string matching [[a-zA-Z0-9_-]+]. *)
Definition well_formed_tool (tool : json) : Prop :=
  exists name, get "name" tool = Some (JStr name) /\ matches_name name = true.

(** [{"messages": [...], "max_tokens": 100000}] *)
Definition hugeLimitBody : json :=
  JObj [("messages", JArr [JObj [("role", JStr "user"); ("content", JStr "hi")]]);
        ("max_tokens", JNum (ofZ 100000))].

(** [{"type": "document", "source": {"type": "base64", "data": "AAAA",
     "media_type": "application/pdf"}}] *)
Definition documentBlock : json :=
  JObj [("type", JStr "document");
        ("source", JObj [("type", JStr "base64"); ("data", JStr "AAAA");
                         ("media_type", JStr "application/pdf")])].

(** A user message that holds [documentBlock]. *)
Definition documentBody : json :=
  JObj [("messages",
         JArr [JObj [("role", JStr "user"); ("content", JArr [documentBlock])]])].

(** The properties of the payload built by [toOpenAI]. *)
Definition payloadKeys : list string :=
  ["model"; "messages"; "stream"; "temperature"; "max_tokens"; "stop"; "tools";
   "tool_choice"].

(** A message of which the transcoder reads no property of [null]: it is
    not [null] itself, and its array content holds no [null]. *)
Definition readable_message (msg : json) : Prop :=
  msg <> JNull
  /\ forall blocks, get "content" msg = Some (JArr blocks) -> ~ In JNull blocks.

(** A body on which the transcoder reads no property of [null]: [messages]
    is an array of readable messages, and [tools] is absent or an array
    that holds no [null]. *)
Definition readable (body : json) : Prop :=
  (exists msgs,
     get "messages" body = Some (JArr msgs) /\ Forall readable_message msgs)
  /\ (forall tools, get "tools" body = Some tools ->
        exists ts, tools = JArr ts /\ ~ In JNull ts).

(** Every element of the array content of a message, and its [text], can
    be converted to a string. *)
Definition texts_convertible (msg : json) : Prop :=
  forall blocks c,
    get "content" msg = Some (JArr blocks) -> In c blocks ->
    convertible c = true
    /\ forall t, get "text" c = Some t -> convertible t = true.

(** A body that the transcoder converts: it is readable, and the texts of
    its messages can be converted to strings. *)
Definition transcodable (body : json) : Prop :=
  readable body
  /\ forall msgs msg,
       get "messages" body = Some (JArr msgs) -> In msg msgs -> texts_convertible msg.

(** The truthy [text] of each element of an array content, whatever its
    type, and the empty string for an element without one. *)
Definition any_texts (blocks : list json) : list (option json) :=
  map (fun c => if truthy (get "text" c) then get "text" c else Some (JStr EmptyString))
      blocks.

(** A text and an image in a user message. *)
Definition imageTurnBlocks : list json :=
  [JObj [("type", JStr "text"); ("text", JStr "look")];
   JObj [("type", JStr "image");
         ("source", JObj [("type", JStr "base64"); ("data", JStr "AAAA");
                          ("media_type", JStr "image/png")])]].

Definition imageTurn : json :=
  JObj [("role", JStr "user"); ("content", JArr imageTurnBlocks)].

(** [{"messages": [{"role": "user", "content": [{"type": "foo",
      "text": {"toString": 1}}]}]}] *)
Definition unconvertibleTextBody : json :=
  JObj [("messages",
         JArr [JObj [("role", JStr "user");
                     ("content",
                      JArr [JObj [("type", JStr "foo");
                                  ("text", JObj [("toString", JNum (ofZ 1))])]])]])].

(** The function tool OpenAI expects for an Anthropic tool. *)
Definition functionTool (t o : json) : Prop :=
  get "type" o = Some (JStr "function")
  /\ get_opt "name" (get "function" o) = get "name" t
  /\ get_opt "description" (get "function" o) = get "description" t
  /\ get_opt "parameters" (get "function" o) = get "input_schema" t.

(** [{"messages": [{"role": "user", "content": "hi"}],
     "tools": [{"name": "lookup", "input_schema": {}}], "top_k": 5}] *)
Definition toolBody : json :=
  JObj [("messages", JArr [JObj [("role", JStr "user"); ("content", JStr "hi")]]);
        ("tools", JArr [JObj [("name", JStr "lookup"); ("input_schema", JObj [])]]);
        ("top_k", JNum (ofZ 5))].

(** The text delta of the Anthropic stream for a piece of text. *)
Definition textDelta (index content : option json) : json :=
  obj [("type", Some (JStr "content_block_delta"));
       ("index", index);
       ("delta", Some (obj [("type", Some (JStr "text_delta")); ("text", content)]))].

(** The start of a [tool_use] block for the first delta of a tool call. *)
Definition toolUseStart (call : json) : json :=
  obj [("type", Some (JStr "content_block_start"));
       ("index", get "index" call);
       ("content_block",
        Some (obj [("type", Some (JStr "tool_use"));
                   ("id", get "id" call);
                   ("name", Some (or_else (get_opt "name" (get "function" call))
                                    (JStr EmptyString)));
                   ("input", Some (JObj []))]))].

(** The delta of the input of a tool call. *)
Definition inputJsonDelta (call : json) : json :=
  obj [("type", Some (JStr "content_block_delta"));
       ("index", get "index" call);
       ("delta",
        Some (obj [("type", Some (JStr "input_json_delta"));
                   ("partial_json", get_opt "arguments" (get "function" call))]))].

(** The decoded chunk of an OpenAI stream that starts the tool call
    [lookup]. *)
Definition toolCallChunk : json :=
  JObj [("choices",
         JArr [JObj [("delta",
           JObj [("tool_calls",
                  JArr [JObj [("index", JNum (ofZ 0));
                              ("id", JStr "call_1");
                              ("type", JStr "function");
                              ("function",
                               JObj [("name", JStr "lookup");
                                     ("arguments", JStr EmptyString)])]])])]])].

(** [{"model": "local-x", "messages": "hi"}] *)
Definition stringMessagesBody : json :=
  JObj [("model", JStr "local-x"); ("messages", JStr "hi")].

(** The pairs of status and error type that [parseError] gives. *)
Definition errorClasses : list (Z * string) :=
  [(401%Z, "authentication_error"); (400%Z, "invalid_request_error");
   (503%Z, "overloaded_error"); (500%Z, "api_error")].

(** The [TypeError]s that the [try] block of the messages route raises
    before the dispatch. *)
Definition typeErrors : list string :=
  ["Cannot read properties of null (reading 'model')";
   "gwModel.startsWith is not a function";
   "Cannot read properties of null (reading 'messages')";
   "Cannot read properties of null (reading 'type')";
   "Cannot read properties of null (reading 'name')";
   "Cannot read properties of null (reading 'budget_tokens')";
   conversionError].

(** The total of the sleeps of a selection. *)
Definition slept_total (effects : list effect) : Z :=
  fold_right (fun e acc => match e with Sleep ms => (ms + acc)%Z | _ => acc end) 0%Z effects.

(** The shapes of the trace of a selection. *)
Definition selection_trace (effects : list effect) : Prop :=
  effects = []
  \/ (exists waitMs, (0 < waitMs)%Z
        /\ effects = [Sleep waitMs; ClearExpiredLimits; GetCurrentStickyAccount])
  \/ (exists allWaitMs, (allWaitMs <= 120000)%Z
        /\ effects = [Sleep allWaitMs; ClearExpiredLimits; PickNext])
  \/ (exists waitMs allWaitMs, (0 < waitMs)%Z /\ (allWaitMs <= 120000)%Z
        /\ effects = [Sleep waitMs; ClearExpiredLimits; GetCurrentStickyAccount;
                      Sleep allWaitMs; ClearExpiredLimits; PickNext]).

(** The part of a model name that the route finds in the text of a quota
    error: what precedes its first period. *)
Definition reportedModel (model : string) : string :=
  Messages.take_while (fun c => negb (Messages.char_is 46 c)) model.

(** The string holds no space. *)
Definition no_space (s : string) : bool :=
  all_chars (fun c => negb (Messages.char_is 32 c)) s.

(** A duration as it is printed in the text of a quota error: digits and
    the letters h, m and s, at least one. *)
Definition duration_text (d : string) : Prop :=
  d <> EmptyString /\ all_chars Messages.is_duration_char d = true.

(** Helpers for the examples whose clock reads 12:00:00.000. *)
Definition quietHelpers : StreamingHandler.Helpers :=
  {| StreamingHandler.formatDuration := fun _ => "2m1s";
     StreamingHandler.toISOString := fun _ => "2026-02-06T12:00:00.000Z";
     StreamingHandler.getFallbackModel := fun _ => None |}.

(** The invariant of the session store: the keys of the map are distinct,
    each session is stored under its [id], the ids handed out are below the
    counter, and no session keeps more than ten errors. *)
Definition consistent (st : SessionManager.store) : Prop :=
  (1 <= SessionManager.sessionIdCounter st)%Z
  /\ NoDup (map fst (SessionManager.sessions st))
  /\ Forall (fun kv =>
               fst kv = SessionManager.id (snd kv)
               /\ (1 <= fst kv < SessionManager.sessionIdCounter st)%Z
               /\ (List.length (SessionManager.errors (snd kv)) <= 10)%nat)
            (SessionManager.sessions st).

(** Most recent activity first. *)
Definition recent_first (a b : SessionManager.session) : Prop :=
  (SessionManager.lastActivity b <= SessionManager.lastActivity a)%Z.

(** The characters that [safeCommands] escapes. *)
Definition special (c : ascii) : bool :=
  Ascii.eqb c TerminalLauncher.backslash || Ascii.eqb c TerminalLauncher.quote
  || Ascii.eqb c TerminalLauncher.dollar || Ascii.eqb c TerminalLauncher.backtick.

(** One pass that puts a backslash before each special character. *)
Fixpoint escape (s : string) : string :=
  match s with
  | EmptyString => EmptyString
  | String x r =>
      if special x then String TerminalLauncher.backslash (String x (escape r))
      else String x (escape r)
  end.

(** The reading of an escaped text: a backslash stands for the character
    that follows it. *)
Fixpoint unescape (s : string) : string :=
  match s with
  | EmptyString => EmptyString
  | String x t =>
      if Ascii.eqb x TerminalLauncher.backslash then
        match t with
        | String y r => String y (unescape r)
        | EmptyString => EmptyString
        end
      else String x (unescape t)
  end.

(** No special character stands outside an escape, and no backslash is
    left alone at the end. *)
Fixpoint well_escaped (s : string) : bool :=
  match s with
  | EmptyString => true
  | String x t =>
      if Ascii.eqb x TerminalLauncher.backslash then
        match t with
        | String y r => well_escaped r
        | EmptyString => false
        end
      else negb (special x) && well_escaped t
  end.

(** The Gemini content for a message whose text is [text]: the role
    [model] for an assistant and [user] for any other role, and one part
    that holds the text. *)
Definition geminiContent (msg : JS.json) (text : string) : JS.json :=
  JS.JObj [("role", JS.JStr (if JS.is_str "assistant" (JS.get "role" msg)
                             then "model" else "user"));
           ("parts", JS.JArr [JS.JObj [("text", JS.JStr text)]])].

(** The text of a message: its content when that is a string, and else the
    concatenation of the [text] of the elements of its array content, none
    of which is [null]. *)
Definition message_text (pf : JS.Platform) (msg : JS.json) (text : string) : Prop :=
  JS.get "content" msg = Some (JS.JStr text)
  \/ exists blocks,
       JS.get "content" msg = Some (JS.JArr blocks)
       /\ ~ In JS.JNull blocks
       /\ JS.join_empty pf (map (JS.get "text") blocks) = JS.Ok text.

(** The decoded chunk of a Gemini stream that carries a text. *)
Definition geminiChunk (text : string) : JS.json :=
  JS.JObj [("candidates",
            JS.JArr [JS.JObj [("content",
                               JS.JObj [("parts",
                                         JS.JArr [JS.JObj [("text", JS.JStr text)]])])]])].

(** [{"messages": [...], "temperature": 0}] *)
Definition zeroTemperatureBody : JS.json :=
  JS.JObj [("messages", JS.JArr [resultThenText; assistantTurn]);
           ("temperature", JS.JNum (JS.ofZ 0))].

(** The keys of an object literal are distinct. *)
Ltac distinct_keys :=
  repeat (constructor; [cbn; intuition discriminate|]); constructor.

(* ================================================================= *)
(** ** Lemmas on the prototype-pollution scan *)

Lemma scan_array_true (d : nat) (items : list json) (x : json) :
  In x items ->
  Validators.hasPrototypePollution x (S d) = true ->
  (fix scan (l : list json) : bool :=
     match l with
     | [] => false
     | item :: r =>
         if Validators.hasPrototypePollution item (S d) then true else scan r
     end) items = true.
Proof.
  induction items as [|y r IH]; intros Hin Hx; [destruct Hin|].
  destruct Hin as [->|Hin].
  - now rewrite Hx.
  - destruct (Validators.hasPrototypePollution y (S d)); [reflexivity|].
    now apply IH.
Qed.

Lemma scan_object_true (d : nat) (props : list (string * json)) (k : string) (x : json) :
  In (k, x) props ->
  Validators.is_dangerous k = true \/ Validators.hasPrototypePollution x (S d) = true ->
  (fix scan (l : list (string * json)) : bool :=
     match l with
     | [] => false
     | (key, v) :: r =>
         if Validators.is_dangerous key then true
         else if Validators.hasPrototypePollution v (S d) then true
         else scan r
     end) props = true.
Proof.
  induction props as [|[k' y] r IH]; intros Hin Hx; [destruct Hin|].
  destruct Hin as [Heq|Hin].
  - inversion Heq; subst. destruct Hx as [-> | Hx]; [reflexivity|].
    rewrite Hx. now destruct (Validators.is_dangerous k).
  - destruct (Validators.is_dangerous k'); [reflexivity|].
    destruct (Validators.hasPrototypePollution y (S d)); [reflexivity|].
    now apply IH.
Qed.

Lemma hasPrototypePollution_unfold (o : json) (d : nat) :
  Validators.hasPrototypePollution o d =
  if (50 <? d)%nat then true
  else
    match o with
    | JArr items =>
        (fix scan (l : list json) : bool :=
           match l with
           | [] => false
           | item :: r =>
               if Validators.hasPrototypePollution item (S d) then true else scan r
           end) items
    | JObj props =>
        (fix scan (l : list (string * json)) : bool :=
           match l with
           | [] => false
           | (key, v) :: r =>
               if Validators.is_dangerous key then true
               else if Validators.hasPrototypePollution v (S d) then true
               else scan r
           end) props
    | _ => false
    end.
Proof. destruct o; reflexivity. Qed.

(** A dangerous key anywhere makes the scan answer [true], from any depth. *)
Lemma dangerous_key_detected (v : json) :
  has_dangerous_key v = true ->
  forall d, Validators.hasPrototypePollution v d = true.
Proof.
  induction v as [| | | |items IH|props IH] using json_ind;
    try (intros H; simpl in H; discriminate).
  - intros H d. rewrite hasPrototypePollution_unfold. simpl in H.
    destruct (50 <? d)%nat; [reflexivity|].
    induction items as [|x r IHr]; [discriminate|].
    inversion IH as [|? ? Hx Hr]; subst.
    apply orb_true_iff in H. destruct H as [H|H].
    + apply (scan_array_true d (x :: r) x); [now left|]. now apply Hx.
    + specialize (IHr Hr H).
      destruct (Validators.hasPrototypePollution x (S d)); [reflexivity|exact IHr].
  - intros H d. rewrite hasPrototypePollution_unfold. simpl in H.
    destruct (50 <? d)%nat; [reflexivity|].
    induction props as [|[k x] r IHr]; [discriminate|].
    inversion IH as [|? ? Hx Hr]; subst. simpl in Hx.
    apply orb_true_iff in H. destruct H as [H|H].
    + apply orb_true_iff in H.
      apply (scan_object_true d ((k, x) :: r) k x); [now left|].
      destruct H as [H|H]; [now left|right; now apply Hx].
    + specialize (IHr Hr H).
      destruct (Validators.is_dangerous k); [reflexivity|].
      destruct (Validators.hasPrototypePollution x (S d)); [reflexivity|exact IHr].
Qed.


Lemma ltb_max (d a b : nat) :
  (50 <? d + Nat.max a b)%nat = ((50 <? d + a) || (50 <? d + b))%nat.
Proof.
  destruct (Nat.ltb_spec 50 (d + Nat.max a b)),
           (Nat.ltb_spec 50 (d + a)), (Nat.ltb_spec 50 (d + b));
    try reflexivity; lia.
Qed.

(** The scan answers [true] exactly when a dangerous key appears somewhere
    or some value lies more than 50 levels below the body. *)
Lemma hasPrototypePollution_spec (v : json) :
  forall d,
    Validators.hasPrototypePollution v d
    = has_dangerous_key v || (50 <? d + nesting v)%nat.
Proof.
  induction v as [| | | |items IH|props IH] using json_ind; intros d;
    rewrite hasPrototypePollution_unfold;
    try (cbn [has_dangerous_key nesting orb]; rewrite Nat.add_0_r;
         now destruct (50 <? d)%nat).
  - destruct (50 <? d)%nat eqn:Hd.
    + apply Nat.ltb_lt in Hd. symmetry. apply orb_true_iff. right.
      apply Nat.ltb_lt. lia.
    + induction items as [|x r IHr].
      * cbn [has_dangerous_key nesting orb]. now rewrite Nat.add_0_r, Hd.
      * inversion IH as [|? ? Hx Hr]; subst.
        change (has_dangerous_key (JArr (x :: r)))
          with (has_dangerous_key x || has_dangerous_key (JArr r)).
        change (nesting (JArr (x :: r)))
          with (Nat.max (S (nesting x)) (nesting (JArr r))).
        rewrite ltb_max, (Hx (S d)), (IHr Hr).
        replace (S d + nesting x)%nat with (d + S (nesting x))%nat by lia.
        destruct (has_dangerous_key x), (has_dangerous_key (JArr r)),
                 (50 <? d + S (nesting x))%nat, (50 <? d + nesting (JArr r))%nat;
          reflexivity.
  - destruct (50 <? d)%nat eqn:Hd.
    + apply Nat.ltb_lt in Hd. symmetry. apply orb_true_iff. right.
      apply Nat.ltb_lt. lia.
    + induction props as [|[k x] r IHr].
      * cbn [has_dangerous_key nesting orb]. now rewrite Nat.add_0_r, Hd.
      * inversion IH as [|? ? Hx Hr]; subst. cbn [snd] in Hx.
        change (has_dangerous_key (JObj ((k, x) :: r)))
          with (Validators.is_dangerous k || has_dangerous_key x
                || has_dangerous_key (JObj r)).
        change (nesting (JObj ((k, x) :: r)))
          with (Nat.max (S (nesting x)) (nesting (JObj r))).
        rewrite ltb_max, (Hx (S d)), (IHr Hr).
        replace (S d + nesting x)%nat with (d + S (nesting x))%nat by lia.
        destruct (Validators.is_dangerous k), (has_dangerous_key x),
                 (has_dangerous_key (JObj r)),
                 (50 <? d + S (nesting x))%nat, (50 <? d + nesting (JObj r))%nat;
          reflexivity.
Qed.

(* ================================================================= *)
(** ** C1: prototype pollution and the routes *)

Lemma validateMessages_polluted (pf : Platform) (body : json) :
  Validators.hasPrototypePollution body 0 = true ->
  Validators.validateMessages pf body
  = Ok (Validators.Invalid ["Prototype pollution attempt detected"]).
Proof. intros H. unfold Validators.validateMessages. now rewrite H. Qed.

Lemma not_gateway_isGatewayModel (body : json) :
  not_gateway_model body -> Messages.isGatewayModel (get "model" body) = Ok false.
Proof.
  unfold not_gateway_model, Messages.isGatewayModel.
  destruct (get "model" body) as [v|]; [|reflexivity].
  destruct v; intros H; try (rewrite H; reflexivity).
  destruct H as [H1 H2]. rewrite H1, H2. now destruct (truthy (Some (JStr s))).
Qed.

Lemma gateway_model_routed (pf : Platform) (refreshed : string) (body : json) (m : string) :
  get "model" body = Some (JStr m) ->
  startsWith "local-" m || startsWith "gemma-" m = true ->
  Messages.postMessages pf refreshed body = Messages.Local body.
Proof.
  intros Hm Hp. unfold Messages.postMessages, Messages.tryMessages.
  destruct body; try discriminate. simpl in *. rewrite Hm. simpl.
  assert (Hne : (m =? EmptyString) = false).
  { destruct m; [|reflexivity]. discriminate Hp. }
  unfold Messages.isGatewayModel, truthy. rewrite Hne. simpl. now rewrite Hp.
Qed.

Lemma polluted_body_rejected (pf : Platform) (refreshed : string) (body : json) :
  has_dangerous_key body = true ->
  not_gateway_model body ->
  Messages.postMessages pf refreshed body
  = Messages.Respond 400 "invalid_request_error" "Prototype pollution attempt detected".
Proof.
  intros Hkey Hgw. unfold Messages.postMessages, Messages.tryMessages.
  assert (Hnn : prop "model" (Some body) = Ok (get "model" body)).
  { destruct body; try reflexivity. discriminate Hkey. }
  rewrite Hnn. simpl. rewrite (not_gateway_isGatewayModel body Hgw). simpl.
  rewrite (validateMessages_polluted pf body); [reflexivity|].
  now apply dangerous_key_detected.
Qed.

Lemma has_dangerous_key_cons (k : string) (x : json) (r : list (string * json)) :
  has_dangerous_key (JObj ((k, x) :: r))
  = Validators.is_dangerous k || has_dangerous_key x || has_dangerous_key (JObj r).
Proof. reflexivity. Qed.

(** Writing the model leaves in place a dangerous key that is not inside
    the model that is replaced. *)
Lemma set_model_keeps_dangerous_key (target : json) (props : list (string * json)) :
  has_dangerous_key (JObj props) = true ->
  clean_model (JObj props) = true ->
  has_dangerous_key (JObj (Validators.set_prop "model" target props)) = true.
Proof.
  unfold clean_model, get.
  induction props as [|[k x] r IH]; intros Hkey Hclean; [discriminate Hkey|].
  rewrite has_dangerous_key_cons in Hkey.
  cbn [assoc] in Hclean. cbn [Validators.set_prop].
  destruct ("model" =? k) eqn:Ek.
  - apply String.eqb_eq in Ek. subst k.
    apply negb_true_iff in Hclean. rewrite Hclean in Hkey.
    rewrite has_dangerous_key_cons.
    change (Validators.is_dangerous "model") with false in Hkey |- *.
    cbn [orb] in Hkey |- *. rewrite Hkey. apply orb_true_r.
  - rewrite has_dangerous_key_cons.
    destruct (Validators.is_dangerous k || has_dangerous_key x) eqn:E; [reflexivity|].
    cbn [orb] in Hkey |- *. now apply IH.
Qed.

(** The body that the route sees holds a dangerous key when the posted body
    holds one outside its model. *)
Lemma mapping_keeps_dangerous_key (pf : Platform) (modelMapping body mapped : json) :
  has_dangerous_key body = true ->
  clean_model body = true ->
  Server.modelMappingMiddleware pf modelMapping body = Ok mapped ->
  has_dangerous_key mapped = true.
Proof.
  intros Hkey Hclean. unfold Server.modelMappingMiddleware.
  destruct body as [| | | | |props]; try (intros [= <-]; exact Hkey).
  destruct (assoc "model" props) as [model|]; [|intros [= <-]; exact Hkey].
  destruct (truthy (Some model)); [|intros [= <-]; exact Hkey].
  destruct (toString pf model) as [key|e]; [|discriminate]. simpl.
  destruct (truthy (get_opt "mapping" (get key modelMapping)));
    [|intros [= <-]; exact Hkey].
  destruct (get_opt "mapping" (get key modelMapping)) as [target|];
    [|intros [= <-]; exact Hkey].
  destruct (toString pf target); [|discriminate]. simpl. intros [= <-].
  now apply set_model_keeps_dangerous_key.
Qed.

(** C1, as amended.  Take a body posted to [/v1/messages] that holds one of
    the keys [__proto__], [constructor], [prototype] at any nesting depth
    outside its model, and on which the model mapping of the server does not
    throw.  When the model that the mapping leaves does not select the local
    gateway (it is absent or falsy, or a string that starts neither with
    [local-] nor with [gemma-]), the request is answered with 400
    [invalid_request_error] "Prototype pollution attempt detected", before
    anything is sent upstream.  When that model starts with [local-] or
    [gemma-], the body is handed to the local gateway without being
    validated. *)
Theorem pollution_rejected_outside_gateway
  (pf : Platform) (modelMapping : json) (refreshed : string) (body mapped : json) :
  has_dangerous_key body = true ->
  clean_model body = true ->
  Server.modelMappingMiddleware pf modelMapping body = Ok mapped ->
  (not_gateway_model mapped ->
   Server.postV1Messages pf modelMapping refreshed body
   = Server.Routed
       (Messages.Respond 400 "invalid_request_error" "Prototype pollution attempt detected"))
  /\ (forall m, get "model" mapped = Some (JStr m) ->
      gateway_prefix m = true ->
      Server.postV1Messages pf modelMapping refreshed body
      = Server.Routed (Messages.Local mapped)).
Proof.
  intros Hkey Hclean Hmap. unfold Server.postV1Messages. rewrite Hmap. split.
  - intros Hgw. f_equal. apply polluted_body_rejected; [|exact Hgw].
    now apply (mapping_keeps_dangerous_key pf modelMapping body).
  - intros m Hm Hp. f_equal. now apply gateway_model_routed with (m := m).
Qed.

(** The theorem at the body of scenario 5 of the specification, on a server
    without model mapping. *)
Lemma pollution_rejected_outside_gateway_witness :
  has_dangerous_key pollutedBody = true
  /\ Server.postV1Messages examplePlatform noMapping "retry" pollutedBody
     = Server.Routed
         (Messages.Respond 400 "invalid_request_error"
            "Prototype pollution attempt detected").
Proof.
  split; [reflexivity|].
  apply (proj1 (pollution_rejected_outside_gateway examplePlatform noMapping "retry"
                  pollutedBody pollutedBody eq_refl eq_refl eq_refl)).
  exact I.
Defined.

(** C1 as stated fails on the gateway route: a polluted body whose model is
    [local-x] is not rejected; it is handed to the local gateway, which
    transcodes it and sends the result to the local endpoint. *)
Lemma polluted_local_body_reaches_upstream :
  has_dangerous_key pollutedLocalBody = true
  /\ Server.postV1Messages examplePlatform noMapping "retry" pollutedLocalBody
     = Server.Routed (Messages.Local pollutedLocalBody)
  /\ Gateway.upstreamBody examplePlatform pollutedLocalBody
     = Ok (JObj [("model", JStr "local-x");
                 ("messages", JArr [JObj [("role", JStr "user"); ("content", JStr "hi")]])]).
Proof. repeat split; reflexivity. Qed.

(** The same under an alias: the model [fast], which the server maps to
    [local-x], sends a polluted body to the local gateway. *)
Lemma polluted_alias_body_reaches_gateway :
  has_dangerous_key pollutedAliasBody = true
  /\ Server.postV1Messages examplePlatform aliasMapping "retry" pollutedAliasBody
     = Server.Routed (Messages.Local pollutedLocalBody).
Proof. split; reflexivity. Qed.

(** Outside the amended claim: with a truthy model that is not a string the
    call of [startsWith] throws, the [catch] block throws in its turn, and a
    polluted body gets no answer. *)
Lemma polluted_body_with_numeric_model :
  Server.postV1Messages examplePlatform noMapping "retry"
    (JObj [("model", JNum (ofZ 5)); ("__proto__", JObj [])])
  = Server.Routed
      (Messages.Unanswered "sessionManager.getSessionByRequest is not a function").
Proof. reflexivity. Qed.

(** Outside the amended claim as well: a model that cannot be converted to
    a property key makes the model mapping throw, and the error handler of
    Express answers. *)
Lemma polluted_body_with_unconvertible_model :
  Server.postV1Messages examplePlatform noMapping "retry"
    (JObj [("model", JObj [("toString", JNum (ofZ 1))]); ("__proto__", JObj [])])
  = Server.ServerError conversionError.
Proof. reflexivity. Qed.

(* ================================================================= *)
(** ** The shape of the result of [validateMessages] *)

Lemma validateMessages_unfold (pf : Platform) (body : json) :
  body <> JNull ->
  Validators.validateMessages pf body =
  if Validators.hasPrototypePollution body 0
  then Ok (Validators.Invalid ["Prototype pollution attempt detected"])
  else
    emessages <- Validators.checkMessages pf body ;;
    esystem <- Validators.checkSystem body ;;
    etools <- Validators.checkTools body ;;
    ethinking <- Validators.checkThinking body ;;
    match ((emessages ++ plainErrors body) ++ esystem ++ etools ++ ethinking)%list with
    | [] => Ok (Validators.Valid (Validators.validatedData body))
    | errors => Ok (Validators.Invalid errors)
    end.
Proof.
  intros Hnn. unfold Validators.validateMessages, plainErrors.
  destruct (Validators.hasPrototypePollution body 0); [reflexivity|].
  destruct body; try reflexivity. now elim Hnn.
Qed.

(** When validation succeeds no check has recorded an error, and the data
    are the body with the defaults applied. *)
Lemma validateMessages_valid_inv (pf : Platform) (body data : json) :
  Validators.validateMessages pf body = Ok (Validators.Valid data) ->
  data = Validators.validatedData body
  /\ Validators.hasPrototypePollution body 0 = false
  /\ Validators.checkMessages pf body = Ok []
  /\ plainErrors body = []
  /\ Validators.checkSystem body = Ok []
  /\ Validators.checkTools body = Ok []
  /\ Validators.checkThinking body = Ok [].
Proof.
  intros H.
  assert (Hnn : body <> JNull).
  { intros ->. unfold Validators.validateMessages in H. simpl in H. discriminate. }
  rewrite (validateMessages_unfold pf body Hnn) in H.
  destruct (Validators.hasPrototypePollution body 0); [discriminate|].
  destruct (Validators.checkMessages pf body) as [em|]; [|discriminate].
  destruct (Validators.checkSystem body) as [es|]; [|discriminate].
  destruct (Validators.checkTools body) as [et|]; [|discriminate].
  destruct (Validators.checkThinking body) as [eth|]; [|discriminate].
  simpl in H.
  destruct ((em ++ plainErrors body) ++ es ++ et ++ eth)%list eqn:E; [|discriminate].
  apply app_eq_nil in E. destruct E as [E1 E].
  apply app_eq_nil in E1. destruct E1 as [E0 E1].
  apply app_eq_nil in E. destruct E as [E2 E].
  apply app_eq_nil in E. destruct E as [E3 E4]. subst.
  inversion H. repeat split; auto.
Qed.

(** When some check has recorded an error and nothing throws, the result is
    invalid and carries at least one message. *)
Lemma validateMessages_invalid (pf : Platform) (body : json)
  (em es et eth : list string) :
  body <> JNull ->
  Validators.checkMessages pf body = Ok em ->
  Validators.checkSystem body = Ok es ->
  Validators.checkTools body = Ok et ->
  Validators.checkThinking body = Ok eth ->
  ((em ++ plainErrors body) ++ es ++ et ++ eth)%list <> [] ->
  exists e errs, Validators.validateMessages pf body = Ok (Validators.Invalid (e :: errs)).
Proof.
  intros Hnn Hm Hs Ht Hth Hne. rewrite (validateMessages_unfold pf body Hnn).
  destruct (Validators.hasPrototypePollution body 0); [eauto|].
  rewrite Hm, Hs, Ht, Hth. simpl.
  destruct ((em ++ plainErrors body) ++ es ++ et ++ eth)%list as [|e errs];
    [now elim Hne|eauto].
Qed.

Lemma assoc_set_prop_other (k k' : string) (v : json) (props : list (string * json)) :
  (k =? k') = false ->
  assoc k (Validators.set_prop k' v props) = assoc k props.
Proof.
  intros Hk. induction props as [|[k0 v0] r IH]; simpl.
  - now rewrite Hk.
  - destruct (k' =? k0) eqn:E; simpl.
    + apply String.eqb_eq in E. subst. now rewrite Hk.
    + destruct (k =? k0); [reflexivity|exact IH].
Qed.

(** The defaults touch [stream] and [max_tokens] only. *)
Lemma validatedData_keeps (k : string) (props : list (string * json)) :
  (k =? "stream") = false -> (k =? "max_tokens") = false ->
  get k (Validators.validatedData (JObj props)) = assoc k props.
Proof.
  intros H1 H2. unfold Validators.validatedData. simpl.
  rewrite assoc_set_prop_other by assumption.
  now rewrite assoc_set_prop_other by assumption.
Qed.

(** When validation returns and a check of a scalar parameter has recorded
    an error, the result is invalid. *)
Lemma validateMessages_returns_invalid (pf : Platform) (body : json) :
  body <> JNull ->
  (forall e, Validators.validateMessages pf body <> Throw e) ->
  plainErrors body <> [] ->
  exists e errs, Validators.validateMessages pf body = Ok (Validators.Invalid (e :: errs)).
Proof.
  intros Hnn Hnt Hne.
  pose proof (validateMessages_unfold pf body Hnn) as Hu.
  destruct (Validators.hasPrototypePollution body 0); [eauto|].
  destruct (Validators.checkMessages pf body) as [em|e0] eqn:Em;
    [|now elim (Hnt e0)].
  destruct (Validators.checkSystem body) as [es|e1] eqn:Es;
    [|now elim (Hnt e1)].
  destruct (Validators.checkTools body) as [et|e2] eqn:Et;
    [|now elim (Hnt e2)].
  destruct (Validators.checkThinking body) as [eth|e3] eqn:Eth;
    [|now elim (Hnt e3)].
  apply (validateMessages_invalid pf body em es et eth); auto.
  intros Happ. apply app_eq_nil in Happ. destruct Happ as [Happ _].
  apply app_eq_nil in Happ. now destruct Happ.
Qed.

(* ================================================================= *)
(** ** C4: classification by model prefix *)

Lemma isAllowedModel_spec (m : string) :
  Validators.isAllowedModel (Some (JStr m)) = true <-> allowed_prefix m.
Proof.
  unfold Validators.isAllowedModel, allowed_prefix, truthy.
  destruct (m =? EmptyString) eqn:E; cbn -[existsb toLowerCase startsWith].
  - apply String.eqb_eq in E. subst. split; [discriminate|].
    intros [p [Hin Hp]]. simpl in Hin.
    repeat (destruct Hin as [<-|Hin]; [discriminate Hp|]). destruct Hin.
  - rewrite existsb_exists. split; intros [p Hp]; exists p; exact Hp.
Qed.

Lemma checkModel_string (body : json) (m : string) :
  get "model" body = Some (JStr m) ->
  Validators.checkModel body =
  if Validators.isAllowedModel (Some (JStr m)) then []
  else ["model '" ++ m ++ "' is not allowed."].
Proof. intros H. unfold Validators.checkModel. now rewrite H. Qed.

Lemma not_gateway_prefix_model (body : json) (m : string) :
  get "model" body = Some (JStr m) ->
  gateway_prefix m = false ->
  Messages.isGatewayModel (get "model" body) = Ok false.
Proof.
  intros Hm Hp. rewrite Hm. unfold Messages.isGatewayModel.
  destruct (truthy (Some (JStr m))); [|reflexivity].
  unfold gateway_prefix in Hp. now rewrite Hp.
Qed.

(** C4, as amended.  The classification is made on the model that the
    model mapping of the server leaves in the body.  The gateway test is
    made on that model as written: a model that starts with [local-] or
    [gemma-] goes to the local gateway.  For any other model string the
    whitelist is consulted on the lowercased name: when validation succeeds
    the request goes to the Cloud Code dispatcher under that model, whose
    lowercased name starts with one of [claude-], [gemini-], [gpt-os-],
    [gpt-4-], [local-], [lmstudio-], [deepseek-], [qwen-]; a name with such
    a prefix is never the reason of a rejection; and a name without one is
    answered with 400 [invalid_request_error] whenever validation returns. *)
Theorem model_prefix_routing
  (pf : Platform) (modelMapping : json) (refreshed : string) (body mapped : json)
  (m : string) :
  Server.modelMappingMiddleware pf modelMapping body = Ok mapped ->
  get "model" mapped = Some (JStr m) ->
  (gateway_prefix m = true ->
   Server.postV1Messages pf modelMapping refreshed body
   = Server.Routed (Messages.Local mapped))
  /\ (gateway_prefix m = false ->
      forall data, Validators.validateMessages pf mapped = Ok (Validators.Valid data) ->
      Server.postV1Messages pf modelMapping refreshed body
      = Server.Routed (Messages.Cloud (Messages.buildRequest data))
      /\ get "model" (Messages.buildRequest data) = Some (JStr m)
      /\ allowed_prefix m)
  /\ (allowed_prefix m -> Validators.checkModel mapped = [])
  /\ (gateway_prefix m = false -> ~ allowed_prefix m ->
      (forall e, Validators.validateMessages pf mapped <> Throw e) ->
      exists message,
        Server.postV1Messages pf modelMapping refreshed body
        = Server.Routed (Messages.Respond 400 "invalid_request_error" message)).
Proof.
  intros Hmap Hm. unfold Server.postV1Messages. rewrite Hmap.
  assert (Hobj : exists props, mapped = JObj props).
  { destruct mapped; try discriminate. eauto. }
  destruct Hobj as [props ->].
  assert (Hprop : prop "model" (Some (JObj props)) = Ok (get "model" (JObj props)))
    by reflexivity.
  split; [|split; [|split]].
  - intros Hp. f_equal. now apply gateway_model_routed with (m := m).
  - intros Hp data Hv.
    assert (Ha : allowed_prefix m).
    { apply validateMessages_valid_inv in Hv.
      destruct Hv as [_ [_ [_ [Hplain _]]]]. unfold plainErrors in Hplain.
      apply app_eq_nil in Hplain. destruct Hplain as [Hmodel _].
      rewrite (checkModel_string _ m Hm) in Hmodel.
      apply isAllowedModel_spec.
      destruct (Validators.isAllowedModel (Some (JStr m))); [reflexivity|discriminate]. }
    split; [|split; [|exact Ha]].
    + f_equal. unfold Messages.postMessages, Messages.tryMessages. rewrite Hprop.
      cbn [bind]. rewrite (not_gateway_prefix_model _ m Hm Hp). cbn [bind].
      now rewrite Hv.
    + apply validateMessages_valid_inv in Hv. destruct Hv as [-> _].
      unfold Messages.buildRequest. simpl in Hm.
      rewrite validatedData_keeps by reflexivity. rewrite Hm.
      assert (E : (m =? EmptyString) = false).
      { destruct m; [|reflexivity]. exfalso.
        destruct Ha as [p [Hin Hpre]]. simpl in Hin.
        repeat (destruct Hin as [<-|Hin]; [discriminate Hpre|]). destruct Hin. }
      unfold or_else, truthy. rewrite E. reflexivity.
  - intros Ha. rewrite (checkModel_string _ m Hm).
    apply isAllowedModel_spec in Ha. now rewrite Ha.
  - intros Hp Hna Hnt.
    unfold Messages.postMessages, Messages.tryMessages. rewrite Hprop.
    cbn [bind]. rewrite (not_gateway_prefix_model _ m Hm Hp). cbn [bind].
    destruct (validateMessages_returns_invalid pf (JObj props)) as [e [errs ->]].
    + discriminate.
    + exact Hnt.
    + unfold plainErrors. rewrite (checkModel_string _ m Hm).
      destruct (Validators.isAllowedModel (Some (JStr m))) eqn:E.
      * elim Hna. now apply isAllowedModel_spec.
      * discriminate.
    + simpl. eauto.
Qed.

(** The theorem at a request for [claude-3-haiku] on a server without model
    mapping: it is dispatched to the Cloud Code pool under that model. *)
Lemma model_prefix_routing_witness :
  get "model" claudeBody = Some (JStr "claude-3-haiku")
  /\ Server.postV1Messages examplePlatform noMapping "retry" claudeBody
     = Server.Routed
         (Messages.Cloud (Messages.buildRequest (Validators.validatedData claudeBody)))
  /\ get "model" (Messages.buildRequest (Validators.validatedData claudeBody))
     = Some (JStr "claude-3-haiku")
  /\ allowed_prefix "claude-3-haiku".
Proof.
  split; [reflexivity|].
  apply (proj1 (proj2 (model_prefix_routing examplePlatform noMapping "retry" claudeBody
                         claudeBody "claude-3-haiku" eq_refl eq_refl)) eq_refl
               (Validators.validatedData claudeBody) eq_refl).
Defined.

(** C4 as stated fails: the gateway test is case-sensitive.  [LOCAL-x] is
    dispatched to the Cloud Code pool, not to the local gateway, and
    [Gemma-2b] is rejected. *)
Lemma uppercase_local_models_not_routed_to_gateway :
  (startsWith "local-" (toLowerCase "LOCAL-x") = true
   /\ Server.postV1Messages examplePlatform noMapping "retry" upperLocalBody
      = Server.Routed
          (Messages.Cloud (Messages.buildRequest (Validators.validatedData upperLocalBody)))
   /\ get "model" (Messages.buildRequest (Validators.validatedData upperLocalBody))
      = Some (JStr "LOCAL-x"))
  /\ (startsWith "gemma-" (toLowerCase "Gemma-2b") = true
      /\ Server.postV1Messages examplePlatform noMapping "retry" upperGemmaBody
         = Server.Routed
             (Messages.Respond 400 "invalid_request_error"
                "model 'Gemma-2b' is not allowed.")).
Proof. repeat split; reflexivity. Qed.

(** The classification follows the mapping: the alias [smart], which has no
    allowed prefix, is dispatched under [gemini-pro], the model the server
    maps it to. *)
Lemma alias_dispatched_under_mapped_model :
  exists request,
    Server.postV1Messages examplePlatform aliasMapping "retry"
      (JObj [("model", JStr "smart");
             ("messages", JArr [JObj [("role", JStr "user"); ("content", JStr "hi")]])])
    = Server.Routed (Messages.Cloud request)
    /\ get "model" request = Some (JStr "gemini-pro").
Proof. eexists. split; reflexivity. Qed.

(* ================================================================= *)
(** ** C10: a body without a model *)

Lemma validatedData_model_absent (body : json) :
  get "model" body = None -> get "model" (Validators.validatedData body) = None.
Proof.
  intros H. destruct body; try reflexivity.
  rewrite validatedData_keeps by reflexivity. exact H.
Qed.

(** C10.  For a body without a [model] field the whitelist check records no
    error, so that the body is valid when its other fields are; the handler
    then dispatches the request to the Cloud Code pool under the default
    model [claude-3-5-sonnet-20241022]. *)
Theorem missing_model_gets_default
  (pf : Platform) (refreshed : string) (body : json) :
  get "model" body = None ->
  Validators.checkModel body = []
  /\ forall data,
      Validators.validateMessages pf body = Ok (Validators.Valid data) ->
      Messages.postMessages pf refreshed body = Messages.Cloud (Messages.buildRequest data)
      /\ get "model" (Messages.buildRequest data) = Some (JStr "claude-3-5-sonnet-20241022").
Proof.
  intros Hm. split.
  - unfold Validators.checkModel. now rewrite Hm.
  - intros data Hv.
    assert (Hnn : body <> JNull).
    { intros ->. unfold Validators.validateMessages in Hv. simpl in Hv. discriminate. }
    split.
    + unfold Messages.postMessages, Messages.tryMessages.
      assert (Hprop : prop "model" (Some body) = Ok None).
      { destruct body; try reflexivity; [now elim Hnn|]. simpl in *. now rewrite Hm. }
      rewrite Hprop. cbn [bind Messages.isGatewayModel truthy].
      now rewrite Hv.
    + apply validateMessages_valid_inv in Hv. destruct Hv as [-> _].
      unfold Messages.buildRequest.
      rewrite (validatedData_model_absent body Hm). reflexivity.
Qed.

(** The theorem at a body that has only [messages]: it is valid and is
    dispatched under the default model. *)
Lemma missing_model_gets_default_witness :
  Validators.validateMessages examplePlatform modellessBody
  = Ok (Validators.Valid (Validators.validatedData modellessBody))
  /\ Messages.postMessages examplePlatform "retry" modellessBody
     = Messages.Cloud (Messages.buildRequest (Validators.validatedData modellessBody))
  /\ get "model" (Messages.buildRequest (Validators.validatedData modellessBody))
     = Some (JStr "claude-3-5-sonnet-20241022").
Proof.
  split; [reflexivity|].
  apply (proj2 (missing_model_gets_default examplePlatform "retry" modellessBody eq_refl)
               (Validators.validatedData modellessBody) eq_refl).
Defined.

(* ================================================================= *)
(** ** Lemmas on the conversion to a string *)

Lemma toString_array_cons (pf : Platform) (x : json) (r : list json) :
  toString pf (JArr (x :: r))
  = match r with
    | [] => match x with JNull => Ok EmptyString | _ => toString pf x end
    | _ :: _ =>
        bind (match x with JNull => Ok EmptyString | _ => toString pf x end)
          (fun s => bind (toString pf (JArr r)) (fun rest => Ok (s ++ "," ++ rest)))
    end.
Proof. destruct r; reflexivity. Qed.

Lemma convertible_array_cons (x : json) (r : list json) :
  convertible (JArr (x :: r)) = convertible x && convertible (JArr r).
Proof. reflexivity. Qed.

(** The conversion returns on a value that holds no object with a key
    [toString] of its own, looking through arrays. *)
Lemma toString_returns (pf : Platform) (v : json) :
  convertible v = true -> exists s, toString pf v = Ok s.
Proof.
  induction v as [|b|n|s|items IH|props IH] using json_ind; intros Hc;
    try (simpl; eauto; fail).
  - destruct b; simpl; eauto.
  - induction items as [|x r IHr]; [simpl; eauto|].
    rewrite convertible_array_cons in Hc. apply andb_true_iff in Hc.
    destruct Hc as [Hx Hr]. inversion IH as [|? ? IHx IHrest]; subst.
    destruct (IHr IHrest Hr) as [rest Hrest].
    assert (Hhead : exists s, match x with
                              | JNull => Ok EmptyString
                              | _ => toString pf x
                              end = Ok s).
    { destruct x; eauto. }
    destruct Hhead as [s Hs].
    rewrite toString_array_cons. destruct r as [|y r'].
    + eauto.
    + rewrite Hs, Hrest. simpl. eauto.
  - simpl in *. destruct (assoc "toString" props); [discriminate|eauto].
Qed.

(** It throws on the other values, and its exception is the [TypeError] of
    the failed conversion. *)
Lemma toString_throws (pf : Platform) (v : json) (e : string) :
  toString pf v = Throw e -> e = conversionError /\ convertible v = false.
Proof.
  revert e.
  induction v as [|b|n|s|items IH|props IH] using json_ind; intros e H;
    try (simpl in H; discriminate H).
  - destruct b; discriminate H.
  - revert e H. induction items as [|x r IHr]; intros e H; [discriminate H|].
    inversion IH as [|? ? IHx IHrest]; subst.
    rewrite convertible_array_cons. rewrite toString_array_cons in H.
    assert (Hhead : forall e',
               match x with JNull => Ok EmptyString | _ => toString pf x end = Throw e' ->
               e' = conversionError /\ convertible x = false).
    { intros e' He'. destruct x; try discriminate He'; apply IHx; exact He'. }
    destruct r as [|y r'].
    + destruct (Hhead e H) as [-> ->]. auto.
    + destruct (match x with JNull => Ok EmptyString | _ => toString pf x end)
        as [s|e'] eqn:Ex.
      * cbn [bind] in H.
        destruct (toString pf (JArr (y :: r'))) as [rest|e''] eqn:Er; [discriminate H|].
        cbn [bind] in H. injection H as <-.
        destruct (IHr IHrest e'' eq_refl) as [-> Hr]. rewrite Hr.
        split; [reflexivity|apply andb_false_r].
      * cbn [bind] in H. injection H as <-.
        destruct (Hhead e' eq_refl) as [-> ->]. auto.
  - simpl in *. destruct (assoc "toString" props); [|discriminate H].
    injection H as <-. auto.
Qed.

(** The conversion throws on every other value. *)
Lemma toString_fails (pf : Platform) (v : json) :
  convertible v = false -> toString pf v = Throw conversionError.
Proof.
  induction v as [|b|n|s|items IH|props IH] using json_ind; intros Hc;
    try discriminate Hc.
  - induction items as [|x r IHr]; [discriminate Hc|].
    inversion IH as [|? ? IHx IHrest]; subst.
    rewrite convertible_array_cons in Hc. rewrite toString_array_cons.
    destruct (convertible x) eqn:Ex.
    + cbn [andb] in Hc. specialize (IHr IHrest Hc).
      destruct r as [|y r']; [discriminate Hc|].
      destruct (toString_returns pf x Ex) as [s Hs].
      assert (Hhead : exists s', match x with
                                 | JNull => Ok EmptyString
                                 | _ => toString pf x
                                 end = Ok s').
      { destruct x; eauto. }
      destruct Hhead as [s' ->]. cbn [bind]. now rewrite IHr.
    + specialize (IHx eq_refl).
      assert (Hhead : match x with
                      | JNull => Ok EmptyString
                      | _ => toString pf x
                      end = Throw conversionError).
      { destruct x; try exact IHx. discriminate Ex. }
      rewrite Hhead. now destruct r.
  - simpl in *. now destruct (assoc "toString" props).
Qed.

Lemma toString_ok_convertible (pf : Platform) (v : json) (s : string) :
  toString pf v = Ok s -> convertible v = true.
Proof.
  intros H. destruct (convertible v) eqn:E; [reflexivity|].
  rewrite (toString_fails pf v E) in H. discriminate H.
Qed.

Lemma toString_opt_throws (pf : Platform) (v : option json) (e : string) :
  toString_opt pf v = Throw e -> e = conversionError.
Proof.
  destruct v as [x|]; [|discriminate]. intros H.
  now destruct (toString_throws pf x e H).
Qed.

Lemma join_elem_throws (pf : Platform) (v : option json) (e : string) :
  join_elem pf v = Throw e -> e = conversionError.
Proof.
  destruct v as [x|]; [|discriminate]. intros H.
  destruct x; try discriminate H; now destruct (toString_throws pf _ e H).
Qed.

Lemma join_empty_throws (pf : Platform) (xs : list (option json)) (e : string) :
  join_empty pf xs = Throw e -> e = conversionError.
Proof.
  induction xs as [|x r IH]; [discriminate|]. simpl.
  destruct (join_elem pf x) as [s|e'] eqn:Ex; simpl.
  - destruct (join_empty pf r) as [rest|e'']; simpl; [discriminate|].
    intros [= <-]. now apply IH.
  - intros [= <-]. now apply (join_elem_throws pf x).
Qed.

Lemma gt_zero_throws (pf : Platform) (v : option json) (e : string) :
  gt_zero pf v = Throw e -> e = conversionError.
Proof.
  unfold gt_zero. destruct v as [x|]; [|discriminate].
  destruct x; try discriminate;
    match goal with |- context [convertible ?y] => destruct (convertible y) end;
    try discriminate; now intros [= <-].
Qed.

(* ================================================================= *)
(** ** C2: what [validateMessages] rejects *)

Lemma isPositiveInt_integer_in (v : json) (lo hi : Z) :
  Validators.isPositiveInt (Some v) lo hi = true -> integer_in v lo hi.
Proof.
  unfold Validators.isPositiveInt, integer_in.
  destruct v as [| |n| | |]; try discriminate.
  destruct n as [q| |]; simpl; try discriminate.
  destruct (Qnum q mod Z.pos (Qden q) =? 0)%Z eqn:Hint; simpl; [|discriminate].
  destruct (Qle_bool (inject_Z lo) q) eqn:Hlo; simpl; [|discriminate].
  destruct (Qle_bool q (inject_Z hi)) eqn:Hhi; simpl; [|discriminate].
  intros _. apply Z.eqb_eq in Hint.
  apply Qle_bool_iff in Hlo. apply Qle_bool_iff in Hhi.
  exists q, (Qnum q / Z.pos (Qden q))%Z.
  assert (Hq : Qnum q = (Z.pos (Qden q) * (Qnum q / Z.pos (Qden q)))%Z).
  { apply Z.div_exact; [discriminate|exact Hint]. }
  destruct q as [n d]. unfold Qle, Qeq, inject_Z in *.
  cbn [Qnum Qden] in *.
  remember (n / Z.pos d)%Z as z eqn:Hz. clear Hz Hint.
  pose proof (Pos2Z.is_pos d) as Hd.
  split; [reflexivity|]. split; [lia|]. split; nia.
Qed.

Lemma isNumberInRange_number_in (v : json) (lo hi : Z) :
  Validators.isNumberInRange (Some v) lo hi = true -> number_in v lo hi.
Proof.
  unfold Validators.isNumberInRange, number_in.
  destruct v as [| |n| | |]; try discriminate.
  destruct n as [q| |]; simpl; try discriminate.
  destruct (Qle_bool (inject_Z lo) q) eqn:Hlo; simpl; [|discriminate].
  destruct (Qle_bool q (inject_Z hi)) eqn:Hhi; simpl; [|discriminate].
  intros _. apply Qle_bool_iff in Hlo. apply Qle_bool_iff in Hhi.
  exists q. auto.
Qed.

Lemma get_some_object (k : string) (v x : json) :
  get k v = Some x -> exists props, v = JObj props /\ assoc k props = Some x.
Proof. destruct v; try discriminate. intros H. eauto. Qed.



















Lemma no_error_recorded (body : json) (em es et eth : list string) :
  ((em ++ plainErrors body) ++ es ++ et ++ eth)%list = [] ->
  em = []
  /\ Validators.checkModel body = []
  /\ Validators.checkMaxTokens body = []
  /\ Validators.checkTemperature body = []
  /\ Validators.checkTopP body = []
  /\ Validators.checkTopK body = []
  /\ Validators.checkStream body = []
  /\ es = [] /\ et = [] /\ eth = [].
Proof.
  unfold plainErrors. intros H.
  apply app_eq_nil in H. destruct H as [Hp H].
  apply app_eq_nil in H. destruct H as [Hes H].
  apply app_eq_nil in H. destruct H as [Het Heth].
  apply app_eq_nil in Hp. destruct Hp as [H1 Hp].
  apply app_eq_nil in Hp. destruct Hp as [H2 Hp].
  apply app_eq_nil in Hp. destruct Hp as [H3 Hp].
  apply app_eq_nil in Hp. destruct Hp as [H4 Hp].
  apply app_eq_nil in Hp. destruct Hp as [H5 Hp].
  apply app_eq_nil in Hp. destruct Hp as [H6 H7].
  repeat split; assumption.
Qed.







(** Outside the amended claim: with [thinking: null] the validator does not
    return at all; the read of [budget_tokens] throws. *)
Lemma null_thinking_throws :
  violation nullThinkingBody
  /\ Validators.validateMessages examplePlatform nullThinkingBody
     = Throw "Cannot read properties of null (reading 'budget_tokens')".
Proof.
  split; [|reflexivity]. now apply MessagesEmpty.
Qed.

(** Outside the amended claim as well: the test of a [media_type] that is
    an object with a key [toString] of its own throws, whatever else the
    body breaks. *)
Lemma unconvertible_media_type_throws :
  violation unconvertibleMediaTypeBody
  /\ no_unguarded_null unconvertibleMediaTypeBody
  /\ Validators.validateMessages examplePlatform unconvertibleMediaTypeBody
     = Throw conversionError.
Proof.
  split; [|split; [|reflexivity]].
  - apply MaxTokensOutOfRange with (v := JNum (ofZ 0)); [reflexivity|].
    intros [q [z [Hv [Hq Hr]]]]. inversion Hv; subst.
    unfold Qeq, inject_Z in Hq. cbn [Qnum Qden] in Hq. lia.
  - repeat split; try discriminate; intros items H; discriminate H.
Qed.

(* ================================================================= *)
(** ** C3: the frames of a local stream *)

(** The body of a response of [fetch] is never a Node event emitter:
    [streamResponse] throws on it before it has written anything. *)
Lemma streamResponse_throws (pf : Platform) (r : Gateway.response) :
  exists e, Gateway.streamResponse pf (Gateway.responseBody r) = Throw e
            /\ (e = "bodyStream.on is not a function"
                \/ e = "Cannot read properties of null (reading 'on')").
Proof.
  unfold Gateway.responseBody. destruct (Gateway.body r); simpl; eauto.
Qed.

(** C3 on the code.  The streaming request of scenario 2 of the
    specification, sent to a local endpoint that streams the one text chunk
    [ok], goes to the local gateway, which answers with 502 [api_error]
    "bodyStream.on is not a function" and writes no frame: neither
    [message_start], nor the delta, nor [message_stop].  Had the body been
    an event emitter, [streamResponse] would have written the delta and
    [message_stop], still without [message_start]. *)
Theorem local_stream_answered_502 :
  Server.postV1Messages okPlatform noMapping "retry" localStreamBody
  = Server.Routed (Messages.Local localStreamBody)
  /\ Gateway.handleLocalRequest okPlatform (fun _ => Gateway.Responded okResponse) 0
       localStreamBody
     = badGateway "bodyStream.on is not a function"
  /\ Gateway.streamResponse okPlatform (Gateway.NodeReadable okStream)
     = Ok [okFrame; Gateway.message_stop].
Proof. repeat split; reflexivity. Qed.

(* ================================================================= *)
(** ** C6: quota exhaustion and the status of the answer *)

(** [parseError] never gives the status 429. *)
Lemma parseError_never_429 (message : string) :
  Messages.statusCode (Messages.parseError message) <> 429%Z.
Proof.
  unfold Messages.parseError.
  repeat match goal with
         | |- context [if ?c then _ else _] => destruct c
         end; simpl; discriminate.
Qed.

(** An error that indicates quota exhaustion and mentions neither [401] nor
    [UNAUTHENTICATED] is classified as 400 [invalid_request_error]. *)
Lemma quota_error_classified_400 (message : string) :
  includes "401" message = false ->
  includes "UNAUTHENTICATED" message = false ->
  includes "429" message || includes "RESOURCE_EXHAUSTED" message
  || includes "QUOTA_EXHAUSTED" message = true ->
  Messages.statusCode (Messages.parseError message) = 400%Z
  /\ Messages.errorType (Messages.parseError message) = "invalid_request_error".
Proof.
  intros H1 H2 H3. unfold Messages.parseError.
  rewrite H1, H2, H3. cbn [orb]. split; reflexivity.
Qed.

(** The [catch] block never reaches its answer: whatever the error of the
    dispatch, the call of [sessionManager.getSessionByRequest] throws and
    the request is left without an answer. *)
Lemma dispatch_failure_unanswered (refreshed message : string) :
  Messages.onDispatchFailure refreshed message
  = Messages.Unanswered "sessionManager.getSessionByRequest is not a function".
Proof. reflexivity. Qed.

(** C6, at the failing input.  A non-streaming request whose dispatch
    throws the quota error of the dispatcher gets no answer at all, neither
    400 nor another status: the [catch] block of the route throws before
    [res.status(statusCode).json(...)].  Moreover this error, thrown at a
    moment whose ISO time ends in [.401Z], contains the text [401]; the test
    for an authentication error comes first in [parseError], which
    classifies it as 401 [authentication_error], not as 400
    [invalid_request_error]. *)
Theorem quota_error_gets_no_answer :
  exhaustedAt401
  = "RESOURCE_EXHAUSTED: Rate limited on claude-sonnet-4-5. Quota will reset after 2m1s. Next available: 2026-02-06T12:00:00.401Z"
  /\ includes "RESOURCE_EXHAUSTED" exhaustedAt401 = true
  /\ Messages.onDispatchFailure "Token was expired and has been refreshed." exhaustedAt401
     = Messages.Unanswered "sessionManager.getSessionByRequest is not a function"
  /\ Messages.statusCode (Messages.parseError exhaustedAt401) = 401%Z
  /\ Messages.errorType (Messages.parseError exhaustedAt401) = "authentication_error".
Proof. repeat split; reflexivity. Qed.

(* ================================================================= *)
(** ** C8: the token-counting endpoint *)

(** C8, at the failing input.  The route table of [src/server.js] has no
    entry for [POST /v1/messages/count_tokens]: the request falls through
    to the catch-all and is answered with 404 [not_found_error].  The
    earlier monolithic server answered it with 501 [not_implemented]. *)
Theorem count_tokens_not_found_on_modular_server :
  Server.route Server.POST "/v1/messages/count_tokens"
  = Server.NotFound "Endpoint POST /v1/messages/count_tokens not found"
  /\ Server.errorReply (Server.route Server.POST "/v1/messages/count_tokens")
     = Some (404%Z, "not_found_error")
  /\ Server.monolithRoute Server.POST "/v1/messages/count_tokens" = Server.CountTokens
  /\ Server.errorReply (Server.monolithRoute Server.POST "/v1/messages/count_tokens")
     = Some (501%Z, "not_implemented").
Proof. repeat split; reflexivity. Qed.

(** On the route table of [src/server.js] no request at all reaches a
    handler that answers 501. *)
Lemma modular_server_never_501 (m : Server.method) (path : string) :
  Server.route m path <> Server.CountTokens.
Proof.
  unfold Server.route, Server.v1Routers, Server.notFound, Server.first_mount.
  cbn [fold_right].
  repeat match goal with
         | |- context [if ?c then _ else _] => destruct c
         | |- context [Server.under ?mount ?p] => destruct (Server.under mount p)
         end; discriminate.
Qed.

(* ================================================================= *)
(** ** C5: retries on an empty response *)

(** The loop stops by itself: with the fuel [streamWithRetries] gives it,
    it never runs out of fuel, never leaves through the loop condition, and
    sends at most [MAX_EMPTY_RESPONSE_RETRIES] re-fetches, all to the same
    endpoint with the same payload. *)
Lemma retryLoop_bounded (fetch : request -> nat -> fetched) (randomHex : string)
  (model : option json) (req : request) :
  forall fuel emptyRetries r,
    (emptyRetries <= MAX_EMPTY_RESPONSE_RETRIES)%nat ->
    (MAX_EMPTY_RESPONSE_RETRIES < fuel + emptyRetries)%nat ->
    let out := retryLoop fetch randomHex model req fuel emptyRetries r in
    finished out <> OutOfFuel /\ finished out <> LoopExit
    /\ (List.length (refetched out) + emptyRetries <= MAX_EMPTY_RESPONSE_RETRIES)%nat
    /\ Forall (fun q => q = req) (refetched out).
Proof.
  unfold MAX_EMPTY_RESPONSE_RETRIES.
  induction fuel as [|fuel IH]; intros e r He Hf; [lia|].
  cbn [retryLoop]. unfold MAX_EMPTY_RESPONSE_RETRIES.
  destruct (Nat.leb_spec e 3) as [_|Hgt]; [|lia].
  destruct (ends r);
    try (cbn; repeat split; try discriminate; try lia; constructor).
  destruct (Nat.ltb_spec e 3) as [Hlt|Hge].
  - assert (Hrec : forall r',
               let out := retryLoop fetch randomHex model req fuel (S e) r' in
               finished out <> OutOfFuel /\ finished out <> LoopExit
               /\ (List.length (refetched out) + S e <= 3)%nat
               /\ Forall (fun q => q = req) (refetched out)).
    { intros r'. apply IH; lia. }
    destruct (fetch req e) as [msg|r'];
      [cbn; repeat split; try discriminate; try lia; repeat constructor|].
    destruct (negb (ok r')).
    + destruct (status r' =? 429)%Z;
        [cbn; repeat split; try discriminate; try lia; repeat constructor|].
      destruct (status r' =? 401)%Z;
        [cbn; repeat split; try discriminate; try lia; repeat constructor|].
      destruct (500 <=? status r')%Z;
        [|cbn; repeat split; try discriminate; try lia; repeat constructor].
      destruct (Hrec r') as [H1 [H2 [H3 H4]]]. cbn.
      repeat split; auto; try lia.
    + destruct (Hrec r') as [H1 [H2 [H3 H4]]]. cbn.
      repeat split; auto; try lia.
  - cbn. repeat split; try discriminate; try lia. constructor.
Qed.






(** What the client receives in that case, in full. *)
Lemma empty_streams_forward_their_message_start :
  yielded (streamWithRetries (fun _ _ => Responded startOnlyResponse) "00ff"
             (Some (JStr "claude-sonnet-4-5")) exampleRequest startOnlyResponse)
  = ([upstreamStart; upstreamStart; upstreamStart; upstreamStart]
     ++ emitEmptyResponseFallback "00ff" (Some (JStr "claude-sonnet-4-5")))%list.
Proof. reflexivity. Qed.

(** With a streamer that yields nothing for an empty response the client
    receives the synthetic message alone. *)
Lemma silent_empty_streams_give_the_fallback_alone :
  yielded (streamWithRetries (fun _ _ => Responded emptyResponse) "00ff"
             (Some (JStr "claude-sonnet-4-5")) exampleRequest emptyResponse)
  = emitEmptyResponseFallback "00ff" (Some (JStr "claude-sonnet-4-5")).
Proof. reflexivity. Qed.

(* ================================================================= *)
(** ** C7: every account rate-limited *)

(** The sticky step of an attempt sleeps at most once, for the wait that
    [pickStickyAccount] asks for. *)
Lemma stickyStep_trace (Account Pool : Type) (am : AccountManager Account Pool)
  (model : string) (w w1 : world Pool) (account : option Account) (e1 : list effect) :
  stickyStep am model w = (account, w1, e1) ->
  (e1 = [] /\ now w1 = now w
   /\ forall waitMs p1,
        pickStickyAccount am model (now w) (pool w) = (None, waitMs, p1) ->
        (waitMs <= 0)%Z /\ pool w1 = p1)
  \/ (exists waitMs p1,
        pickStickyAccount am model (now w) (pool w) = (None, waitMs, p1)
        /\ (0 < waitMs)%Z
        /\ e1 = [Sleep waitMs; ClearExpiredLimits; GetCurrentStickyAccount]
        /\ now w1 = (now w + waitMs)%Z).
Proof.
  unfold stickyStep.
  destruct (pickStickyAccount am model (now w) (pool w)) as [[[a|] waitMs] p1].
  - intros [= <- <- <-]. left. split; [reflexivity|]. split; [reflexivity|].
    intros ? ? [=].
  - destruct (Z.ltb_spec 0 waitMs) as [Hpos|Hle].
    + destruct (getCurrentStickyAccount am model _ _) as [acc p4].
      intros [= <- <- <-]. right. exists waitMs, p1. auto.
    + intros [= <- <- <-]. left. split; [reflexivity|]. split; [reflexivity|].
      intros ? ? [= <- <-]. auto.
Qed.

(** C7, as amended.  Take an attempt in which the sticky step, which
    sleeps for the wait that [pickStickyAccount] asks for when it asks for
    one, ends without an account, and in which the account manager then
    reports every account as rate-limited for the model.  The dispatcher
    reads the minimum wait from the account manager.  If it exceeds
    [MAX_WAIT_BEFORE_ERROR_MS = 120000] the attempt fails with a
    [RESOURCE_EXHAUSTED] error without any further sleep: the clock and the
    trace are those of the sticky step; they have not moved at all when
    [pickStickyAccount] asked for no wait.  Otherwise the dispatcher sleeps
    for exactly that wait, clears the expired limits and picks the next
    account, in this order. *)
Theorem all_limited_waits_or_fails
  (Account Pool : Type) (am : AccountManager Account Pool) (hp : Helpers)
  (model : string) (fallbackEnabled : bool) (w w1 : world Pool) (e1 : list effect) :
  stickyStep am model w = (None, w1, e1) ->
  isAllRateLimited am model (now w1) (pool w1) = true ->
  let allWaitMs := getMinWaitTimeMs am model (now w1) (pool w1) in
  (MAX_WAIT_BEFORE_ERROR_MS = 120000%Z)
  /\ ((forall waitMs p1,
         pickStickyAccount am model (now w) (pool w) = (None, waitMs, p1) ->
         (waitMs <= 0)%Z) ->
      e1 = [] /\ now w1 = now w)
  /\ ((120000 < allWaitMs)%Z ->
      selectAccount am hp model fallbackEnabled w
      = (Failed (exhaustedMessage hp model allWaitMs (now w1)), w1, e1)
      /\ String.prefix "RESOURCE_EXHAUSTED" (exhaustedMessage hp model allWaitMs (now w1))
         = true)
  /\ ((allWaitMs <= 120000)%Z ->
      let woken := (now w1 + allWaitMs)%Z in
      let cleared := clearExpiredLimits am woken (pool w1) in
      exists s,
        selectAccount am hp model fallbackEnabled w
        = (s, {| pool := snd (pickNext am model woken cleared); now := woken |},
           (e1 ++ [Sleep allWaitMs; ClearExpiredLimits; PickNext])%list)
        /\ (forall a, fst (pickNext am model woken cleared) = Some a -> s = Selected a)).
Proof.
  intros Hstep Hall allWaitMs.
  split; [reflexivity|]. split; [|split].
  - intros Hnowait.
    destruct (stickyStep_trace _ _ am model w w1 None e1 Hstep)
      as [[He [Hn _]]|[waitMs [p1 [Hp [Hpos _]]]]]; [auto|].
    specialize (Hnowait waitMs p1 Hp). lia.
  - intros Hlong. split; [|reflexivity].
    unfold selectAccount. rewrite Hstep. unfold allLimitedStep.
    rewrite Hall. fold allWaitMs.
    unfold MAX_WAIT_BEFORE_ERROR_MS.
    destruct (Z.ltb_spec 120000 allWaitMs); [|lia].
    now rewrite app_nil_r.
  - intros Hshort woken cleared.
    unfold selectAccount. rewrite Hstep. unfold allLimitedStep.
    rewrite Hall. fold allWaitMs.
    unfold MAX_WAIT_BEFORE_ERROR_MS.
    destruct (Z.ltb_spec 120000 allWaitMs); [lia|].
    unfold sleep. cbn [pool now]. fold woken. fold cleared.
    destruct (pickNext am model woken cleared) as [[a|] p3].
    + exists (Selected a). split; [reflexivity|].
      intros a' Ha. cbn in Ha. now inversion Ha.
    + exists (noAccount hp model fallbackEnabled). split; [reflexivity|].
      intros a' Ha. discriminate Ha.
Qed.

(** The theorem on scenario 4: the pool reports a wait of 10 s; the
    dispatcher sleeps 10 s, clears the expired limit and selects B. *)
Lemma all_limited_waits_or_fails_witness :
  selectAccount simpleManager exampleHelpers "claude-3-5-sonnet" false bothLimited
  = (Selected ("b@example.com", 0%Z),
     {| pool := [("a@example.com", 1800000%Z); ("b@example.com", 0%Z)]; now := 10000%Z |},
     [Sleep 10000; ClearExpiredLimits; PickNext]).
Proof.
  pose proof (all_limited_waits_or_fails simpleAccount (list simpleAccount)
                simpleManager exampleHelpers "claude-3-5-sonnet" false bothLimited
                bothLimited [] eq_refl eq_refl) as H.
  cbv zeta in H.
  destruct H as [_ [_ [_ H]]].
  destruct H as [s [Hs Hsel]]; [vm_compute; discriminate|].
  rewrite Hs. rewrite (Hsel ("b@example.com", 0%Z) eq_refl). reflexivity.
Defined.

(** C7 as stated fails: every account is rate-limited for the model and
    the minimum wait, 30 minutes, exceeds 120 s, but the dispatcher does not
    fail at once.  The account manager asks for a wait of one second for the
    sticky account; the dispatcher sleeps for it, clears the expired limits
    and asks again, and only then fails with [RESOURCE_EXHAUSTED]. *)
Lemma sticky_wait_precedes_the_failure :
  isAllRateLimited patientManager "claude-3-5-sonnet"
    (now bothLimitedLong) (pool bothLimitedLong) = true
  /\ (MAX_WAIT_BEFORE_ERROR_MS
      < getMinWaitTimeMs patientManager "claude-3-5-sonnet"
          (now bothLimitedLong) (pool bothLimitedLong))%Z
  /\ selectAccount patientManager exampleHelpers "claude-3-5-sonnet" false bothLimitedLong
     = (Failed (exhaustedMessage exampleHelpers "claude-3-5-sonnet" 1799000 1000),
        {| pool := pool bothLimitedLong; now := 1000%Z |},
        [Sleep 1000; ClearExpiredLimits; GetCurrentStickyAccount]).
Proof. repeat split; reflexivity. Qed.

(* ================================================================= *)
(** ** C9: the Anthropic to OpenAI transcoder *)

Lemma filterM_pure {A} (p : A -> result bool) (q : A -> bool) (xs : list A) :
  (forall x, In x xs -> p x = Ok (q x)) ->
  filterM p xs = Ok (filter q xs).
Proof.
  induction xs as [|x r IH]; intros H; [reflexivity|].
  cbn [filterM filter]. rewrite (H x (or_introl eq_refl)).
  rewrite IH by (intros y Hy; apply H; now right).
  now destruct (q x).
Qed.

Lemma someM_pure {A} (p : A -> result bool) (q : A -> bool) (xs : list A) :
  (forall x, In x xs -> p x = Ok (q x)) ->
  someM p xs = Ok (existsb q xs).
Proof.
  induction xs as [|x r IH]; intros H; [reflexivity|].
  cbn [someM existsb]. rewrite (H x (or_introl eq_refl)).
  destruct (q x); [reflexivity|].
  apply IH. intros y Hy. apply H. now right.
Qed.

Lemma prop_not_null (k : string) (c : json) :
  c <> JNull -> prop k (Some c) = Ok (get k c).
Proof. intros H. destruct c; try reflexivity. now elim H. Qed.

Lemma has_type_not_null (ty : string) (c : json) :
  c <> JNull -> OpenAITranscoder.has_type ty c = Ok (is_block ty c).
Proof.
  intros H. unfold OpenAITranscoder.has_type. now rewrite (prop_not_null _ c H).
Qed.

Lemma in_not_null (blocks : list json) (c : json) :
  ~ In JNull blocks -> In c blocks -> c <> JNull.
Proof. intros Hn Hin ->. now apply Hn. Qed.

Lemma filter_by_type (ty : string) (blocks : list json) :
  ~ In JNull blocks ->
  filterM (OpenAITranscoder.has_type ty) blocks = Ok (filter (is_block ty) blocks).
Proof.
  intros Hn. apply filterM_pure. intros c Hin.
  apply has_type_not_null. now apply (in_not_null blocks).
Qed.

Lemma some_by_type (ty : string) (blocks : list json) :
  ~ In JNull blocks ->
  someM (OpenAITranscoder.has_type ty) blocks = Ok (existsb (is_block ty) blocks).
Proof.
  intros Hn. apply someM_pure. intros c Hin.
  apply has_type_not_null. now apply (in_not_null blocks).
Qed.

Lemma hoisted_parts_spec (blocks : list json) :
  texts_truthy blocks ->
  map (fun c => Some (or_else (get "text" c) c)) (filter text_or_string blocks)
  = hoisted_parts blocks.
Proof.
  induction blocks as [|c r IH]; intros Ht; [reflexivity|].
  assert (Hr : texts_truthy r).
  { intros x Hx. apply Ht. now right. }
  specialize (IH Hr). cbn [filter hoisted_parts flat_map].
  fold (hoisted_parts r). rewrite <- IH.
  unfold text_or_string at 1.
  destruct c as [| | |s| |props];
    try (unfold is_block; cbn [get is_str orb typeof jstype_eqb]; reflexivity).
  cbn [typeof jstype_eqb]. rewrite orb_false_r.
  destruct (is_block "text" (JObj props)) eqn:E; [|reflexivity].
  cbn [map List.app]. f_equal.
  pose proof (Ht (JObj props) (or_introl eq_refl) E) as Htruthy.
  unfold or_else. rewrite Htruthy.
  destruct (get "text" (JObj props)); [reflexivity|discriminate Htruthy].
Qed.

Lemma tool_calls_present (pf : Platform) (uses : list json) :
  (if (0 <? Z.of_nat (List.length uses))%Z
   then Some (JArr (map (toolCall pf) uses)) else None)
  = match uses with
    | [] => None
    | _ => Some (JArr (map (toolCall pf) uses))
    end.
Proof.
  destruct uses as [|u r]; [reflexivity|].
  cbn [List.length]. rewrite Nat2Z.inj_succ.
  destruct (Z.ltb_spec 0 (Z.succ (Z.of_nat (List.length r)))); [reflexivity|lia].
Qed.

Lemma content_read (msg : json) (c : json) :
  get "content" msg = Some c -> prop "content" (Some msg) = Ok (Some c).
Proof.
  intros H. destruct msg; try discriminate H. cbn [prop]. now rewrite H.
Qed.

(** A message that holds a tool result. *)
Lemma convert_tool_results (pf : Platform) (msg : json) (blocks : list json)
  (text : string) :
  get "content" msg = Some (JArr blocks) ->
  ~ In JNull blocks ->
  existsb (is_block "tool_result") blocks = true ->
  texts_truthy blocks ->
  join_empty pf (hoisted_parts blocks) = Ok text ->
  OpenAITranscoder.convertMessage pf msg
  = Ok (toolResultMessages pf (get "role" msg) text blocks).
Proof.
  intros Hc Hn Hres Ht Hjoin. unfold OpenAITranscoder.convertMessage.
  rewrite (content_read msg _ Hc). cbn [bind].
  rewrite (some_by_type "tool_result" blocks Hn), Hres. cbn [bind].
  unfold OpenAITranscoder.convertToolResults.
  rewrite (filterM_pure _ text_or_string blocks).
  2:{ intros c Hin. rewrite (prop_not_null _ c (in_not_null blocks c Hn Hin)).
      reflexivity. }
  cbn [bind]. rewrite (hoisted_parts_spec blocks Ht), Hjoin. cbn [bind].
  rewrite (filter_by_type "tool_result" blocks Hn). cbn [bind].
  unfold toolResultMessages, truthy.
  now destruct (text =? EmptyString).
Qed.

(** An assistant message without tool result. *)
Lemma convert_assistant (pf : Platform) (msg : json) (blocks : list json) (text : string) :
  get "role" msg = Some (JStr "assistant") ->
  get "content" msg = Some (JArr blocks) ->
  ~ In JNull blocks ->
  existsb (is_block "tool_result") blocks = false ->
  join_empty pf (text_parts blocks) = Ok text ->
  OpenAITranscoder.convertMessage pf msg = Ok [assistantMessage pf text blocks].
Proof.
  intros Hrole Hc Hn Hres Hjoin. unfold OpenAITranscoder.convertMessage.
  rewrite (content_read msg _ Hc). cbn [bind].
  rewrite (some_by_type "tool_result" blocks Hn), Hres. cbn [bind].
  rewrite Hrole. replace (is_str "assistant" (Some (JStr "assistant"))) with true
    by reflexivity.
  unfold OpenAITranscoder.convertAssistant.
  rewrite (filter_by_type "tool_use" blocks Hn). cbn [bind].
  rewrite (filter_by_type "text" blocks Hn). cbn [bind].
  change (map (fun c => get "text" c) (filter (is_block "text") blocks))
    with (text_parts blocks).
  rewrite Hjoin. cbn [bind].
  change (fun tu : json =>
            obj [("id", get "id" tu);
                 ("type", Some (JStr "function"));
                 ("function",
                  Some (obj [("name", get "name" tu);
                             ("arguments", stringify pf (get "input" tu))]))])
    with (toolCall pf).
  rewrite tool_calls_present.
  unfold assistantMessage, or_else, truthy.
  destruct (text =? EmptyString); cbn [negb];
    destruct (filter (is_block "tool_use") blocks); reflexivity.
Qed.

(** On strings [join('')] is the concatenation. *)
Lemma join_empty_strings (pf : Platform) (strs : list string) :
  join_empty pf (map (fun s => Some (JStr s)) strs) = Ok (String.concat EmptyString strs).
Proof.
  induction strs as [|s r IH]; [reflexivity|].
  cbn [map join_empty join_elem toString bind]. rewrite IH. cbn [bind].
  destruct r as [|s' r']; [|reflexivity].
  cbn [String.concat]. f_equal. induction s; [reflexivity|]. cbn. now f_equal.
Qed.

Lemma forEachMessage_spec (pf : Platform) (msgs : list json) (out : list json) :
  OpenAITranscoder.forEachMessage pf msgs = Ok out ->
  exists outs,
    Forall2 (fun m o => OpenAITranscoder.convertMessage pf m = Ok o) msgs outs
    /\ out = concat outs.
Proof.
  revert out. induction msgs as [|m r IH]; intros out H.
  - inversion H. exists []. split; [constructor|reflexivity].
  - cbn [OpenAITranscoder.forEachMessage] in H.
    destruct (OpenAITranscoder.convertMessage pf m) as [o|] eqn:Em; [|discriminate].
    cbn [bind] in H.
    destruct (OpenAITranscoder.forEachMessage pf r) as [rest|] eqn:Er; [|discriminate].
    cbn [bind] in H. inversion H; subst.
    destruct (IH rest eq_refl) as [outs [Hall ->]].
    exists (o :: outs). split; [now constructor|reflexivity].
Qed.

Lemma toOpenAI_messages (pf : Platform) (body payload : json) (msgs : list json) :
  OpenAITranscoder.toOpenAI pf body = Ok payload ->
  get "messages" body = Some (JArr msgs) ->
  exists outs,
    Forall2 (fun m o => OpenAITranscoder.convertMessage pf m = Ok o) msgs outs
    /\ get "messages" payload
       = Some (JArr ((match get "system" body with
                      | Some system =>
                          if truthy (Some system) then [systemMessage system] else []
                      | None => []
                      end) ++ concat outs)%list).
Proof.
  intros H Hm. unfold OpenAITranscoder.toOpenAI in H.
  destruct body; try discriminate.
  rewrite Hm in H.
  destruct (OpenAITranscoder.forEachMessage pf msgs) as [converted|] eqn:Ec;
    [|discriminate].
  cbn [bind] in H.
  destruct (OpenAITranscoder.convertTools pf (get "tools" (JObj props))) as [tools|];
    [|discriminate].
  cbn [bind] in H. inversion H; subst. clear H.
  destruct (forEachMessage_spec pf msgs converted Ec) as [outs [Hall ->]].
  exists outs. split; [exact Hall|].
  unfold obj. cbn [get].
  destruct (assoc "model" props);
    (destruct (assoc "system" props) as [system|];
     [destruct (truthy (Some system)); reflexivity|reflexivity]).
Qed.

(** C9, as amended.  A truthy [system] field becomes the leading
    system-role message, followed by the conversions of the messages in
    order.  Take a message with array content that holds no [null].  If it
    is an assistant message without tool result, it becomes one assistant
    message whose content is the concatenation of its text parts, the
    [text] of its blocks of type [text] ([null] when that is empty), and
    whose [tool_calls], present when it has tool uses, hold [{id, type:
    'function', function: {name, arguments: JSON.stringify(input)}}] for
    each of them.  If it holds a tool result and the text of its text
    blocks is truthy, it becomes a message of the same role carrying all
    the text parts of the message, wherever they stand, a bare string
    counting as a text part, emitted only when there is some text; then one
    [{role: 'tool', tool_call_id, content}] message for each tool result, a
    content that is not a string being stringified.  The concatenation is
    that of [join('')]: of strings, it is the strings put end to end. *)
Theorem transcoder_conversions (pf : Platform) :
  (forall body payload msgs,
     OpenAITranscoder.toOpenAI pf body = Ok payload ->
     get "messages" body = Some (JArr msgs) ->
     exists outs,
       Forall2 (fun m o => OpenAITranscoder.convertMessage pf m = Ok o) msgs outs
       /\ get "messages" payload
          = Some (JArr ((match get "system" body with
                         | Some system =>
                             if truthy (Some system) then [systemMessage system] else []
                         | None => []
                         end) ++ concat outs)%list))
  /\ (forall msg blocks text,
        get "role" msg = Some (JStr "assistant") ->
        get "content" msg = Some (JArr blocks) ->
        ~ In JNull blocks ->
        existsb (is_block "tool_result") blocks = false ->
        join_empty pf (text_parts blocks) = Ok text ->
        OpenAITranscoder.convertMessage pf msg = Ok [assistantMessage pf text blocks])
  /\ (forall msg blocks text,
        get "content" msg = Some (JArr blocks) ->
        ~ In JNull blocks ->
        existsb (is_block "tool_result") blocks = true ->
        texts_truthy blocks ->
        join_empty pf (hoisted_parts blocks) = Ok text ->
        OpenAITranscoder.convertMessage pf msg
        = Ok (toolResultMessages pf (get "role" msg) text blocks))
  /\ (forall strs,
        join_empty pf (map (fun s => Some (JStr s)) strs)
        = Ok (String.concat EmptyString strs)).
Proof.
  split; [|split; [|split]].
  - intros body payload msgs. apply toOpenAI_messages.
  - intros msg blocks text. apply convert_assistant.
  - intros msg blocks text. apply convert_tool_results.
  - apply join_empty_strings.
Qed.

Lemma assistantTurn_no_null : ~ In JNull assistantTurnBlocks.
Proof. cbn. intuition discriminate. Defined.

(** The theorem on an assistant turn with a thinking block, a text and a
    tool use. *)
Lemma transcoder_conversions_witness :
  OpenAITranscoder.convertMessage examplePlatform assistantTurn
  = Ok [JObj [("role", JStr "assistant");
              ("content", JStr "Let me check.");
              ("tool_calls",
               JArr [JObj [("id", JStr "toolu_1"); ("type", JStr "function");
                           ("function", JObj [("name", JStr "lookup");
                                              ("arguments", JStr "{}")])]])]].
Proof.
  apply (proj1 (proj2 (transcoder_conversions examplePlatform))
               assistantTurn assistantTurnBlocks "Let me check."
               eq_refl eq_refl assistantTurn_no_null eq_refl eq_refl).
Defined.

(** C9 as stated fails on the user message: a text that follows the tool
    result is carried by the message emitted first, which therefore is not
    the message of the preceding text parts; and for a tool result alone no
    user message is emitted at all. *)
Lemma tool_result_text_not_the_preceding_text :
  (join_empty examplePlatform (preceding_parts resultThenTextBlocks) = Ok EmptyString
   /\ OpenAITranscoder.convertMessage examplePlatform resultThenText
      = Ok [JObj [("role", JStr "user"); ("content", JStr "thanks")];
            JObj [("role", JStr "tool"); ("tool_call_id", JStr "toolu_1");
                  ("content", JStr "42")]]
   /\ OpenAITranscoder.convertMessage examplePlatform resultThenText
      <> Ok (statedToolResultMessages examplePlatform (Some (JStr "user")) EmptyString
               resultThenTextBlocks))
  /\ (join_empty examplePlatform (preceding_parts resultAloneBlocks) = Ok EmptyString
      /\ OpenAITranscoder.convertMessage examplePlatform resultAlone
         = Ok [JObj [("role", JStr "tool"); ("tool_call_id", JStr "toolu_1");
                     ("content", JStr "42")]]
      /\ OpenAITranscoder.convertMessage examplePlatform resultAlone
         <> Ok (statedToolResultMessages examplePlatform (Some (JStr "user")) EmptyString
                  resultAloneBlocks)).
Proof.
  repeat split; try reflexivity; vm_compute; discriminate.
Qed.

(** Outside the amended claim: an empty text block beside a tool result is
    rendered as the text [[object Object]]. *)
Lemma empty_text_beside_tool_result :
  OpenAITranscoder.convertMessage examplePlatform
    (JObj [("role", JStr "user");
           ("content",
            JArr [JObj [("type", JStr "text"); ("text", JStr EmptyString)];
                  JObj [("type", JStr "tool_result"); ("tool_use_id", JStr "toolu_1");
                        ("content", JStr "42")]])])
  = Ok [JObj [("role", JStr "user"); ("content", JStr "[object Object]")];
        JObj [("role", JStr "tool"); ("tool_call_id", JStr "toolu_1");
              ("content", JStr "42")]].
Proof. reflexivity. Qed.

(** Outside the amended claim as well: a text that cannot be converted to a
    string makes the transcoder throw. *)
Lemma unconvertible_text_throws :
  OpenAITranscoder.convertMessage examplePlatform
    (JObj [("role", JStr "assistant");
           ("content",
            JArr [JObj [("type", JStr "text");
                        ("text", JObj [("toString", JNum (ofZ 1))])]])])
  = Throw conversionError.
Proof. reflexivity. Qed.

(** Outside the amended claim: the media type is only checked when it is
    truthy, so an empty one is accepted. *)
Lemma empty_media_type_accepted :
  Validators.validateMessages examplePlatform emptyMediaTypeBody
  = Ok (Validators.Valid (Validators.validatedData emptyMediaTypeBody)).
Proof. reflexivity. Qed.

(* ================================================================= *)
(** ** Boundary behaviours and scenarios of the specification *)

(** A value 51 levels below the body is rejected; 50 levels are not. *)
Example depth_51_rejected :
  nesting (nested 51) = 51%nat
  /\ Validators.hasPrototypePollution (nested 51) 0 = true
  /\ Validators.hasPrototypePollution (nested 50) 0 = false.
Proof. repeat split; reflexivity. Qed.

(** [max_tokens = 0] is rejected. *)
Example max_tokens_zero_rejected :
  Validators.checkMaxTokens twoFlawsBody
  = ["max_tokens must be integer between 1 and 200000"].
Proof. reflexivity. Qed.

(** An image block with the media type [image/bmp] is rejected. *)
Example bmp_image_rejected :
  Validators.validateMessages examplePlatform bmpImageBody
  = Ok (Validators.Invalid ["messages[0].content[0]: Invalid image media type"]).
Proof. reflexivity. Qed.

(** Scenario 1: the local endpoint cannot be reached. *)
Example local_endpoint_unreachable :
  Messages.postMessages examplePlatform "retry" localGemmaBody
  = Messages.Local localGemmaBody
  /\ Gateway.handleLocalRequest examplePlatform
       (fun _ => Gateway.Rejected "fetch failed") 0 localGemmaBody
     = Gateway.Json 502
         (JObj [("type", JStr "error");
                ("error", JObj [("type", JStr "api_error");
                                ("message", JStr "fetch failed")])]).
Proof. split; reflexivity. Qed.

(** The message built for a quota error names the model and the reset
    delay found in the text of the error. *)
Example quota_error_message :
  Messages.parseError
    "RESOURCE_EXHAUSTED: Rate limited on claude-sonnet-4-5. Quota will reset after 2m1s. Next available: 2026-02-06T12:00:00.000Z"
  = {| Messages.errorType := "invalid_request_error";
       Messages.statusCode := 400;
       Messages.errorMessage :=
         "You have exhausted your capacity on claude-sonnet-4-5. Quota will reset after 2m1s." |}.
Proof. reflexivity. Qed.


(** The model is also found in a JSON text of the upstream. *)
Example quota_error_message_from_json :
  Messages.parseError
    ("429 {" ++ quoted "error" ++ ": {" ++ quoted "model" ++ ": "
     ++ quoted "claude-sonnet-4-5" ++ "}}")
  = {| Messages.errorType := "invalid_request_error";
       Messages.statusCode := 400;
       Messages.errorMessage :=
         "You have exhausted your capacity on claude-sonnet-4-5. Please wait for your quota to reset." |}.
Proof. reflexivity. Qed.

(* ================================================================= *)
(** * Further properties of the code *)

(** X1.  The scan for prototype pollution flags a body exactly when one of
    the keys [__proto__], [constructor], [prototype] appears in it at some
    depth or when its nesting depth exceeds 50: it has no false positive and
    no false negative. *)
Theorem pollution_scan_exact (body : json) :
  Validators.hasPrototypePollution body 0 = true
  <-> has_dangerous_key body = true \/ (50 < nesting body)%nat.
Proof.
  rewrite hasPrototypePollution_spec, orb_true_iff, Nat.ltb_lt. reflexivity.
Qed.

Lemma messageErrors_nil (pf : Platform) (j : nat) (msg : json) :
  Validators.messageErrors pf j msg = Ok [] -> well_formed_message pf msg.
Proof.
  unfold Validators.messageErrors, well_formed_message.
  destruct (negb (truthy (Some msg)) || negb (jstype_eqb (typeof (Some msg)) TObject));
    [discriminate|].
  destruct (get "content" msg) as [c|];
    [|intros [= H]; apply app_eq_nil in H; destruct H as [_ H]; discriminate H].
  destruct (Validators.validateMessageContent pf c) as [r|] eqn:Ev; [|discriminate].
  cbn [bind]. intros [= H]. apply app_eq_nil in H. destruct H as [Hr Hc].
  destruct r; [|discriminate].
  destruct (get "role" msg) as [[| | |role| |]|]; try discriminate.
  exists role, c. repeat split; auto.
  cbn [is_str] in Hr.
  destruct (role =? "user") eqn:E1; [apply String.eqb_eq in E1; auto|].
  destruct (role =? "assistant") eqn:E2; [apply String.eqb_eq in E2; auto|].
  discriminate.
Qed.

Lemma messagesLoop_nil (pf : Platform) (msgs : list json) :
  forall i, Validators.messagesLoop pf i msgs = Ok [] ->
            Forall (well_formed_message pf) msgs.
Proof.
  induction msgs as [|m r IH]; intros i H; [constructor|].
  cbn [Validators.messagesLoop] in H.
  destruct (Validators.messageErrors pf i m) as [here|] eqn:Eh; [|discriminate].
  destruct (Validators.messagesLoop pf (S i) r) as [rest|] eqn:Er; [|discriminate].
  cbn [bind] in H. injection H as H.
  apply app_eq_nil in H. destruct H as [-> ->].
  constructor; [now apply messageErrors_nil with (j := i)|now apply IH with (i := S i)].
Qed.

Lemma checkMessages_nil (pf : Platform) (body : json) :
  Validators.checkMessages pf body = Ok [] ->
  exists msgs,
    get "messages" body = Some (JArr msgs)
    /\ (1 <= Z.of_nat (List.length msgs) <= 500)%Z
    /\ Forall (well_formed_message pf) msgs.
Proof.
  unfold Validators.checkMessages.
  destruct (negb (truthy (get "messages" body))); [discriminate|].
  destruct (get "messages" body) as [[| | | |msgs|]|]; try discriminate.
  destruct (Z.of_nat (List.length msgs) =? 0)%Z eqn:E0; [discriminate|].
  destruct (Validators.MAX_MESSAGES <? Z.of_nat (List.length msgs))%Z eqn:E1; [discriminate|].
  intros H. exists msgs. split; [reflexivity|]. split.
  - apply Z.eqb_neq in E0. apply Z.ltb_ge in E1. unfold Validators.MAX_MESSAGES in E1. lia.
  - now apply messagesLoop_nil with (i := 0%nat).
Qed.

Lemma toolsLoop_nil (tools : list json) :
  forall i, Validators.toolsLoop i tools = Ok [] -> Forall well_formed_tool tools.
Proof.
  induction tools as [|t r IH]; intros i H; [constructor|].
  cbn [Validators.toolsLoop] in H.
  destruct t as [| | | | |props]; try discriminate;
    (destruct (Validators.toolsLoop (S i) r) as [rest|] eqn:Er; [|discriminate]);
    cbn [bind] in H; inversion H as [Happ]; apply app_eq_nil in Happ;
    destruct Happ as [Hn ->]; try discriminate.
  constructor; [|now apply IH with (i := S i)].
  unfold well_formed_tool.
  destruct (get "name" (JObj props)) as [[| | |name| |]|]; try discriminate.
  exists name. split; [reflexivity|].
  destruct (negb (truthy (Some (JStr name)))); [discriminate|].
  destruct (matches_name name); [reflexivity|discriminate].
Qed.

Lemma checkTools_nil (body : json) :
  Validators.checkTools body = Ok [] ->
  forall tools, get "tools" body = Some tools ->
    exists ts, tools = JArr ts
               /\ (Z.of_nat (List.length ts) <= 100)%Z
               /\ Forall well_formed_tool ts.
Proof.
  unfold Validators.checkTools. intros H tools Ht. rewrite Ht in H.
  destruct tools as [| | | |ts|]; try discriminate.
  destruct (Validators.MAX_TOOLS <? Z.of_nat (List.length ts))%Z eqn:E; [discriminate|].
  exists ts. split; [reflexivity|]. split.
  - apply Z.ltb_ge in E. exact E.
  - now apply toolsLoop_nil with (i := 0%nat).
Qed.

(** X2.  A body that [validateMessages] accepts has no dangerous key and
    a nesting depth of at most 50; its [messages] is an array of 1 to 500
    objects, each with the role [user] or [assistant] and a content that
    passes [validateMessageContent]; its [tools], when present, is an array
    of at most 100 tools whose names match [[a-zA-Z0-9_-]+]. *)
Theorem accepted_body_shape (pf : Platform) (body data : json) :
  Validators.validateMessages pf body = Ok (Validators.Valid data) ->
  has_dangerous_key body = false
  /\ (nesting body <= 50)%nat
  /\ (exists msgs,
        get "messages" body = Some (JArr msgs)
        /\ (1 <= Z.of_nat (List.length msgs) <= 500)%Z
        /\ Forall (well_formed_message pf) msgs)
  /\ (forall tools, get "tools" body = Some tools ->
        exists ts, tools = JArr ts
                   /\ (Z.of_nat (List.length ts) <= 100)%Z
                   /\ Forall well_formed_tool ts).
Proof.
  intros H. apply validateMessages_valid_inv in H.
  destruct H as [_ [Hp [Hm [_ [_ [Ht _]]]]]].
  rewrite hasPrototypePollution_spec in Hp. apply orb_false_iff in Hp.
  destruct Hp as [Hk Hd]. apply Nat.ltb_ge in Hd.
  split; [exact Hk|]. split; [exact Hd|]. split.
  - now apply checkMessages_nil.
  - now apply checkTools_nil.
Qed.

Lemma accepted_body_shape_witness :
  has_dangerous_key claudeBody = false
  /\ (nesting claudeBody <= 50)%nat
  /\ (exists msgs,
        get "messages" claudeBody = Some (JArr msgs)
        /\ (1 <= Z.of_nat (List.length msgs) <= 500)%Z
        /\ Forall (well_formed_message examplePlatform) msgs)
  /\ (forall tools, get "tools" claudeBody = Some tools ->
        exists ts, tools = JArr ts
                   /\ (Z.of_nat (List.length ts) <= 100)%Z
                   /\ Forall well_formed_tool ts).
Proof.
  apply (accepted_body_shape examplePlatform claudeBody
           (Validators.validatedData claudeBody)).
  reflexivity.
Defined.

Lemma assoc_set_prop_same (k : string) (v : json) (props : list (string * json)) :
  assoc k (Validators.set_prop k v props) = Some v.
Proof.
  induction props as [|[k0 v0] r IH]; simpl.
  - now rewrite String.eqb_refl.
  - destruct (k =? k0) eqn:E; simpl; [now rewrite String.eqb_refl|].
    now rewrite E.
Qed.

Lemma integer_in_num_min (q : Q) (z : Z) :
  Qeq q (inject_Z z) ->
  exists q', num_min (Fin q) (ofZ 8192) = Fin q' /\ Qeq q' (inject_Z (Z.min z 8192)).
Proof.
  intros Hq. unfold num_min, num_lt, ofZ.
  destruct (Qle_bool q (inject_Z 8192)) eqn:E; cbn [negb].
  - exists q. split; [reflexivity|].
    apply Qle_bool_iff in E. rewrite Hq in E. rewrite <- Zle_Qle in E.
    now rewrite Z.min_l by exact E.
  - exists (inject_Z 8192). split; [reflexivity|].
    assert (~ (z <= 8192)%Z) as Hz.
    { intros Hle. rewrite Zle_Qle in Hle. rewrite <- Hq in Hle.
      apply Qle_bool_iff in Hle. congruence. }
    rewrite Z.min_r by lia. reflexivity.
Qed.


Lemma validatedData_stream (props : list (string * json)) :
  get "stream" (Validators.validatedData (JObj props))
  = Some (Validators.nullish (assoc "stream" props) (JBool false)).
Proof.
  unfold Validators.validatedData. cbn [get].
  rewrite assoc_set_prop_other by reflexivity. apply assoc_set_prop_same.
Qed.

Lemma validatedData_max_tokens (props : list (string * json)) :
  get "max_tokens" (Validators.validatedData (JObj props))
  = Some match Validators.nullish (assoc "max_tokens" props) (JNum (ofZ 8192)) with
         | JNum n => JNum (num_min n (ofZ 8192))
         | v => v
         end.
Proof. unfold Validators.validatedData. cbn [get]. apply assoc_set_prop_same. Qed.

Lemma checkStream_nil (body : json) :
  Validators.checkStream body = [] ->
  exists b, Validators.nullish (get "stream" body) (JBool false) = JBool b
            /\ (get "stream" body = None -> b = false)
            /\ (forall v, get "stream" body = Some v -> v = JBool b).
Proof.
  unfold Validators.checkStream.
  destruct (get "stream" body) as [[|b| | | |]|]; try discriminate; intros _.
  - exists b. repeat split; [discriminate|]. intros v Hv. now inversion Hv.
  - exists false. repeat split. discriminate.
Qed.

Lemma checkMaxTokens_nil (body : json) :
  Validators.checkMaxTokens body = [] ->
  exists v,
    match Validators.nullish (get "max_tokens" body) (JNum (ofZ 8192)) with
    | JNum n => JNum (num_min n (ofZ 8192))
    | v => v
    end = v
    /\ integer_in v 1 8192.
Proof.
  unfold Validators.checkMaxTokens.
  destruct (get "max_tokens" body) as [v|].
  - destruct (Validators.isPositiveInt (Some v) 1 Validators.MAX_TOKENS_UPPER) eqn:Ei;
      [|discriminate].
    intros _. apply isPositiveInt_integer_in in Ei. destruct Ei as [q [z [-> [Hq Hz]]]].
    cbn [Validators.nullish]. destruct (integer_in_num_min q z Hq) as [q' [Hn Hq']].
    rewrite Hn. eexists. split; [reflexivity|].
    exists q', (Z.min z 8192). repeat split; auto; lia.
  - intros _. cbn [Validators.nullish]. eexists. split; [reflexivity|].
    exists (inject_Z 8192), 8192%Z. repeat split; try reflexivity; lia.
Qed.

Lemma valid_body_checks (pf : Platform) (body data : json) :
  Validators.validateMessages pf body = Ok (Validators.Valid data) ->
  exists props,
    body = JObj props
    /\ data = Validators.validatedData (JObj props)
    /\ Validators.hasPrototypePollution body 0 = false
    /\ Validators.checkMessages pf body = Ok []
    /\ Validators.checkModel body = []
    /\ Validators.checkMaxTokens body = []
    /\ Validators.checkStream body = []
    /\ Validators.checkTools body = Ok [].
Proof.
  intros H. apply validateMessages_valid_inv in H.
  destruct H as [-> [Hp [Hm [He [_ [Ht _]]]]]].
  destruct (no_error_recorded body [] [] [] []) as [_ [Hmod [Hmt [_ [_ [_ [Hs _]]]]]]].
  { rewrite He. reflexivity. }
  pose proof (checkMessages_nil pf body Hm) as [msgs [Hmsgs _]].
  destruct (get_some_object _ _ _ Hmsgs) as [props [-> _]].
  exists props. repeat split; auto.
Qed.

(** X3.  In the data of an accepted body, [stream] is a boolean
    ([false] when the body gives none), [max_tokens] is an integer between 1
    and 8192 (8192 when the body gives none, else the smaller of the given
    value and 8192), and every other property is that of the body. *)
Theorem validated_data_defaults (pf : Platform) (body data : json) :
  Validators.validateMessages pf body = Ok (Validators.Valid data) ->
  (exists b, get "stream" data = Some (JBool b)
             /\ (get "stream" body = None -> b = false)
             /\ (forall v, get "stream" body = Some v -> v = JBool b))
  /\ (exists v, get "max_tokens" data = Some v /\ integer_in v 1 8192)
  /\ (get "max_tokens" body = None ->
      get "max_tokens" data = Some (JNum (ofZ 8192)))
  /\ (forall q z, get "max_tokens" body = Some (JNum (Fin q)) -> Qeq q (inject_Z z) ->
        exists q', get "max_tokens" data = Some (JNum (Fin q'))
                   /\ Qeq q' (inject_Z (Z.min z 8192)))
  /\ (forall k, (k =? "stream") = false -> (k =? "max_tokens") = false ->
        get k data = get k body).
Proof.
  intros H. apply valid_body_checks in H.
  destruct H as [props [-> [-> [_ [_ [_ [Hmt [Hs _]]]]]]]].
  rewrite validatedData_stream, validatedData_max_tokens.
  split; [|split; [|split; [|split]]].
  - destruct (checkStream_nil _ Hs) as [b [Hb Hrest]]. cbn [get] in *. rewrite Hb. eauto.
  - destruct (checkMaxTokens_nil _ Hmt) as [v [Hv Hin]]. cbn [get] in *. rewrite Hv. eauto.
  - cbn [get]. intros ->. reflexivity.
  - cbn [get]. intros q z -> Hz. cbn [Validators.nullish].
    destruct (integer_in_num_min q z Hz) as [q' [Hn Hq']]. rewrite Hn. eauto.
  - intros k H1 H2. now apply validatedData_keeps.
Qed.

Lemma validated_data_defaults_witness :
  exists v, get "max_tokens" (Validators.validatedData hugeLimitBody) = Some v
            /\ integer_in v 1 8192.
Proof.
  apply (validated_data_defaults examplePlatform hugeLimitBody
           (Validators.validatedData hugeLimitBody)).
  reflexivity.
Defined.

Lemma postMessages_cloud_inv (pf : Platform) (refreshed : string) (body request : json) :
  Messages.postMessages pf refreshed body = Messages.Cloud request ->
  exists data,
    Validators.validateMessages pf body = Ok (Validators.Valid data)
    /\ request = Messages.buildRequest data
    /\ Messages.isGatewayModel (get "model" body) = Ok false.
Proof.
  unfold Messages.postMessages, Messages.tryMessages, Messages.onError.
  destruct body as [| | | | |props]; cbn [prop bind]; try discriminate;
    (destruct (Messages.isGatewayModel _) as [[|]|e] eqn:Eg; cbn [bind]; try discriminate);
    (destruct (Validators.validateMessages pf _) as [[data|errs]|e] eqn:Ev;
       cbn [bind]; try discriminate);
    intros H; inversion H; exists data; repeat split; assumption.
Qed.

Lemma integer_in_truthy (v : json) (lo hi : Z) :
  (1 <= lo)%Z -> integer_in v lo hi -> truthy (Some v) = true.
Proof.
  intros Hlo [q [z [-> [Hq Hz]]]]. cbn [truthy num_truthy].
  destruct (Qeq_bool q 0) eqn:E; [|reflexivity].
  apply Qeq_bool_iff in E. rewrite Hq in E.
  unfold Qeq, inject_Z in E. cbn [Qnum Qden] in E. lia.
Qed.

Lemma assoc_mkobj_absent (k : string) (fields : list (string * option json)) :
  ~ In k (map fst fields) -> assoc k (mkobj fields) = None.
Proof.
  induction fields as [|[k' [v|]] r IH]; cbn [mkobj assoc map fst In]; intros Hn.
  - reflexivity.
  - destruct (k =? k') eqn:E.
    + apply String.eqb_eq in E. subst. elim Hn. now left.
    + apply IH. intros Hin. apply Hn. now right.
  - apply IH. intros Hin. apply Hn. now right.
Qed.

(** A property of an object literal whose keys are distinct. *)
Lemma get_obj_field (k : string) (v : option json) (fields : list (string * option json)) :
  NoDup (map fst fields) -> In (k, v) fields -> get k (obj fields) = v.
Proof.
  unfold obj. cbn [get].
  induction fields as [|[k' v'] r IH]; cbn [map fst In]; intros Hnd Hin; [destruct Hin|].
  inversion Hnd as [|? ? Hnotin Hnd']; subst.
  destruct Hin as [Heq|Hin].
  - inversion Heq; subst. destruct v as [x|]; cbn [mkobj assoc].
    + now rewrite String.eqb_refl.
    + now apply assoc_mkobj_absent.
  - assert (Hk : (k =? k') = false).
    { apply String.eqb_neq. intros ->. apply Hnotin.
      change k' with (fst (k', v)). now apply in_map. }
    destruct v' as [x|]; cbn [mkobj assoc]; [rewrite Hk|]; now apply IH.
Qed.

Lemma buildRequest_fields (data : json) :
  get "model" (Messages.buildRequest data)
  = Some (or_else (get "model" data) (JStr Messages.DEFAULT_MODEL))
  /\ get "messages" (Messages.buildRequest data) = get "messages" data
  /\ get "max_tokens" (Messages.buildRequest data)
     = Some (or_else (get "max_tokens" data) (JNum (ofZ 4096)))
  /\ get "stream" (Messages.buildRequest data) = get "stream" data.
Proof.
  unfold Messages.buildRequest.
  repeat split; (apply get_obj_field; [distinct_keys|cbn; tauto]).
Qed.

(** X17.  Every request handed to the Cloud Code dispatcher names a
    model with an allowed prefix that is not a gateway prefix, has a
    [max_tokens] between 1 and 8192 (the default 4096 of the route never
    applies), a boolean [stream], and 1 to 500 well-formed messages. *)
Theorem dispatched_request_limits
  (pf : Platform) (refreshed : string) (body request : json) :
  Messages.postMessages pf refreshed body = Messages.Cloud request ->
  (exists m, get "model" request = Some (JStr m)
             /\ allowed_prefix m /\ gateway_prefix m = false)
  /\ (exists v, get "max_tokens" request = Some v /\ integer_in v 1 8192)
  /\ (exists b, get "stream" request = Some (JBool b))
  /\ (exists msgs,
        get "messages" request = Some (JArr msgs)
        /\ (1 <= Z.of_nat (List.length msgs) <= 500)%Z
        /\ Forall (well_formed_message pf) msgs).
Proof.
  intros H. apply postMessages_cloud_inv in H. destruct H as [data [Hv [-> Hg]]].
  apply valid_body_checks in Hv.
  destruct Hv as [props [-> [-> [_ [Hm [Hmodel [Hmt [Hs _]]]]]]]].
  destruct (checkMessages_nil pf _ Hm) as [msgs [Hmsgs [Hlen Hwf]]].
  destruct (checkStream_nil _ Hs) as [b [Hb _]].
  destruct (checkMaxTokens_nil _ Hmt) as [v [Hv Hin]].
  destruct (buildRequest_fields (Validators.validatedData (JObj props)))
    as [-> [-> [-> ->]]].
  rewrite validatedData_max_tokens, validatedData_stream.
  rewrite !validatedData_keeps by reflexivity.
  cbn [get] in *. rewrite Hv, Hmsgs, Hb.
  split; [|split; [|split]].
  - unfold Validators.checkModel in Hmodel. cbn [get] in Hmodel.
    destruct (assoc "model" props) as [[| | |m| |]|]; try discriminate.
    + destruct (Validators.isAllowedModel (Some (JStr m))) eqn:Ea; [|discriminate].
      pose proof Ea as Ea'. apply isAllowedModel_spec in Ea'.
      unfold Validators.isAllowedModel in Ea.
      destruct (negb (truthy (Some (JStr m)))) eqn:Et; [discriminate|].
      apply negb_false_iff in Et. unfold or_else. rewrite Et.
      exists m. repeat split; auto.
      unfold Messages.isGatewayModel in Hg. rewrite Et in Hg.
      injection Hg as Hg'. exact Hg'.
    + exists Messages.DEFAULT_MODEL. repeat split.
      exists "claude-". split; [left; reflexivity|reflexivity].
  - exists v. unfold or_else. rewrite (integer_in_truthy v 1 8192) by (auto; lia). auto.
  - exists b. reflexivity.
  - exists msgs. auto.
Qed.

Lemma dispatched_request_limits_witness :
  exists v, get "max_tokens"
              (Messages.buildRequest (Validators.validatedData hugeLimitBody)) = Some v
            /\ integer_in v 1 8192.
Proof.
  apply (dispatched_request_limits examplePlatform "retry" hugeLimitBody
           (Messages.buildRequest (Validators.validatedData hugeLimitBody))).
  reflexivity.
Defined.

Lemma validateBlocks_pass (pf : Platform) (blocks : list json) :
  forall i, Validators.validateBlocks pf i blocks = Ok Validators.Pass ->
            Forall (fun block => Validators.validateContentBlock pf block
                                 = Ok Validators.Pass)
                   blocks.
Proof.
  induction blocks as [|b r IH]; intros i H; [constructor|].
  cbn [Validators.validateBlocks] in H.
  destruct (Validators.validateContentBlock pf b) as [[|e]|e] eqn:Eb;
    cbn [bind] in H; try discriminate.
  constructor; [exact Eb|now apply IH with (i := S i)].
Qed.

(** X6.  A content block of type [document] is checked as an image
    block and a block of type [redacted_thinking] as a thinking block; the
    first check starts by comparing the type with [image] and answers
    "Invalid image block type", the second starts by comparing it with
    [thinking] and answers "Invalid thinking block type".  So such a block
    is always rejected, and a body that holds one in a message is never
    accepted. *)
Theorem document_blocks_never_accepted
  (pf : Platform) (body : json) (msgs : list json) (msg : json) (blocks : list json)
  (block : json) :
  get "messages" body = Some (JArr msgs) -> In msg msgs ->
  get "content" msg = Some (JArr blocks) -> In block blocks ->
  get "type" block = Some (JStr "document")
  \/ get "type" block = Some (JStr "redacted_thinking") ->
  (get "type" block = Some (JStr "document") ->
   Validators.validateContentBlock pf block = Validators.validateImageBlock pf block
   /\ Validators.validateImageBlock pf block
      = Ok (Validators.Reject "Invalid image block type"))
  /\ (get "type" block = Some (JStr "redacted_thinking") ->
      Validators.validateContentBlock pf block
      = Ok (Validators.validateThinkingBlock block)
      /\ Validators.validateThinkingBlock block
         = Validators.Reject "Invalid thinking block type")
  /\ forall data, Validators.validateMessages pf body <> Ok (Validators.Valid data).
Proof.
  intros Hm Hin Hc Hb Hty.
  assert (Hdoc : get "type" block = Some (JStr "document") ->
                 Validators.validateContentBlock pf block
                 = Validators.validateImageBlock pf block
                 /\ Validators.validateImageBlock pf block
                    = Ok (Validators.Reject "Invalid image block type")).
  { intros H. destruct (get_some_object _ _ _ H) as [props [-> _]].
    unfold Validators.validateContentBlock, Validators.validateImageBlock.
    rewrite H. split; reflexivity. }
  assert (Hred : get "type" block = Some (JStr "redacted_thinking") ->
                 Validators.validateContentBlock pf block
                 = Ok (Validators.validateThinkingBlock block)
                 /\ Validators.validateThinkingBlock block
                    = Validators.Reject "Invalid thinking block type").
  { intros H. destruct (get_some_object _ _ _ H) as [props [-> _]].
    unfold Validators.validateContentBlock, Validators.validateThinkingBlock.
    rewrite H. split; reflexivity. }
  split; [exact Hdoc|]. split; [exact Hred|].
  assert (Hrej : exists e, Validators.validateContentBlock pf block
                           = Ok (Validators.Reject e)).
  { destruct Hty as [H|H].
    - destruct (Hdoc H) as [-> ->]. eauto.
    - destruct (Hred H) as [-> ->]. eauto. }
  intros data Hv. apply valid_body_checks in Hv.
  destruct Hv as [props [-> [_ [_ [Hcm _]]]]].
  destruct (checkMessages_nil pf _ Hcm) as [msgs' [Hm' [_ Hwf]]].
  rewrite Hm in Hm'. inversion Hm'; subst msgs'.
  rewrite Forall_forall in Hwf. destruct (Hwf msg Hin) as [role [c [_ [_ [Hc' Hpass]]]]].
  rewrite Hc in Hc'. inversion Hc'; subst c.
  unfold Validators.validateMessageContent in Hpass.
  destruct (Validators.MAX_BLOCKS_PER_MESSAGE <? Z.of_nat (List.length blocks))%Z;
    [discriminate|].
  apply validateBlocks_pass in Hpass. rewrite Forall_forall in Hpass.
  specialize (Hpass block Hb). destruct Hrej as [e Hr]. rewrite Hr in Hpass. discriminate.
Qed.

Lemma document_blocks_never_accepted_witness :
  Validators.validateContentBlock examplePlatform documentBlock
  = Ok (Validators.Reject "Invalid image block type")
  /\ forall data,
       Validators.validateMessages examplePlatform documentBody
       <> Ok (Validators.Valid data).
Proof.
  destruct (document_blocks_never_accepted examplePlatform documentBody
              [JObj [("role", JStr "user"); ("content", JArr [documentBlock])]]
              (JObj [("role", JStr "user"); ("content", JArr [documentBlock])])
              [documentBlock] documentBlock eq_refl (or_introl eq_refl) eq_refl
              (or_introl eq_refl) (or_introl eq_refl)) as [Hdoc [_ Hnever]].
  split; [|exact Hnever].
  destruct (Hdoc eq_refl) as [-> ->]. reflexivity.
Defined.

Lemma integer_in_isPositiveInt (v : json) (lo hi : Z) :
  integer_in v lo hi -> Validators.isPositiveInt (Some v) lo hi = true.
Proof.
  intros [q [z [-> [Hq Hz]]]]. unfold Validators.isPositiveInt, isInteger, num_lt, ofZ.
  assert (Hint : (Qnum q mod Z.pos (Qden q) =? 0)%Z = true).
  { apply Z.eqb_eq. unfold Qeq, inject_Z in Hq. cbn [Qnum Qden] in Hq.
    rewrite Z.mul_1_r in Hq. rewrite Hq. apply Z_mod_mult. }
  rewrite Hint. cbn [negb].
  assert (Hlo : Qle_bool (inject_Z lo) q = true).
  { apply Qle_bool_iff. rewrite Hq. rewrite <- Zle_Qle. lia. }
  assert (Hhi : Qle_bool q (inject_Z hi) = true).
  { apply Qle_bool_iff. rewrite Hq. rewrite <- Zle_Qle. lia. }
  rewrite Hlo, Hhi. reflexivity.
Qed.

Lemma number_in_isNumberInRange (v : json) (lo hi : Z) :
  number_in v lo hi -> Validators.isNumberInRange (Some v) lo hi = true.
Proof.
  intros [q [-> [Hlo Hhi]]]. unfold Validators.isNumberInRange, num_lt, ofZ.
  apply Qle_bool_iff in Hlo. apply Qle_bool_iff in Hhi. rewrite Hlo, Hhi. reflexivity.
Qed.

(** X4.  The range checks record no error exactly when the parameter
    is absent or lies in its range: [max_tokens] an integer of [1, 200000],
    [top_k] an integer of [1, 500], [temperature] a number of [0, 2],
    [top_p] a number of [0, 1]. *)
Theorem range_checks_exact (body : json) :
  (Validators.checkMaxTokens body = []
   <-> forall v, get "max_tokens" body = Some v -> integer_in v 1 200000)
  /\ (Validators.checkTopK body = []
      <-> forall v, get "top_k" body = Some v -> integer_in v 1 500)
  /\ (Validators.checkTemperature body = []
      <-> forall v, get "temperature" body = Some v -> number_in v 0 2)
  /\ (Validators.checkTopP body = []
      <-> forall v, get "top_p" body = Some v -> number_in v 0 1).
Proof.
  unfold Validators.checkMaxTokens, Validators.checkTopK, Validators.checkTemperature,
    Validators.checkTopP.
  repeat split.
  - destruct (get "max_tokens" body) as [v|]; [|discriminate].
    destruct (Validators.isPositiveInt (Some v) 1 Validators.MAX_TOKENS_UPPER) eqn:E;
      [|discriminate].
    intros _ v' Hv'. inversion Hv'; subst. now apply isPositiveInt_integer_in.
  - intros H. destruct (get "max_tokens" body) as [v|]; [|reflexivity].
    change Validators.MAX_TOKENS_UPPER with 200000%Z.
    now rewrite (integer_in_isPositiveInt v 1 200000 (H v eq_refl)).
  - destruct (get "top_k" body) as [v|]; [|discriminate].
    destruct (Validators.isPositiveInt (Some v) 1 500) eqn:E; [|discriminate].
    intros _ v' Hv'. inversion Hv'; subst. now apply isPositiveInt_integer_in.
  - intros H. destruct (get "top_k" body) as [v|]; [|reflexivity].
    now rewrite (integer_in_isPositiveInt v 1 500 (H v eq_refl)).
  - destruct (get "temperature" body) as [v|]; [|discriminate].
    destruct (Validators.isNumberInRange (Some v) 0 2) eqn:E; [|discriminate].
    intros _ v' Hv'. inversion Hv'; subst. now apply isNumberInRange_number_in.
  - intros H. destruct (get "temperature" body) as [v|]; [|reflexivity].
    now rewrite (number_in_isNumberInRange v 0 2 (H v eq_refl)).
  - destruct (get "top_p" body) as [v|]; [|discriminate].
    destruct (Validators.isNumberInRange (Some v) 0 1) eqn:E; [|discriminate].
    intros _ v' Hv'. inversion Hv'; subst. now apply isNumberInRange_number_in.
  - intros H. destruct (get "top_p" body) as [v|]; [|reflexivity].
    now rewrite (number_in_isNumberInRange v 0 1 (H v eq_refl)).
Qed.

(** X5.  When validation fails on a body that is not flagged as
    prototype pollution, the list of errors starts with the errors of the
    [messages] check: if that check has any, the error that the route
    reports (the first) is its first error, and for a body without
    [messages] it is the text [messages is required]. *)
Theorem messages_errors_reported_first (pf : Platform) (body : json) (errors : list string) :
  Validators.validateMessages pf body = Ok (Validators.Invalid errors) ->
  Validators.hasPrototypePollution body 0 = false ->
  exists emessages,
    Validators.checkMessages pf body = Ok emessages
    /\ (exists rest, errors = (emessages ++ rest)%list)
    /\ (emessages <> [] -> hd EmptyString errors = hd EmptyString emessages)
    /\ (get "messages" body = None -> hd EmptyString errors = "messages is required").
Proof.
  intros H Hp.
  assert (Hnn : body <> JNull).
  { intros ->. unfold Validators.validateMessages in H. simpl in H. discriminate. }
  rewrite (validateMessages_unfold pf body Hnn), Hp in H.
  destruct (Validators.checkMessages pf body) as [em|] eqn:Em; [|discriminate].
  destruct (Validators.checkSystem body) as [es|]; [|discriminate].
  destruct (Validators.checkTools body) as [et|]; [|discriminate].
  destruct (Validators.checkThinking body) as [eth|]; [|discriminate].
  cbn [bind] in H.
  assert (Herr : errors = ((em ++ plainErrors body) ++ es ++ et ++ eth)%list).
  { destruct ((em ++ plainErrors body) ++ es ++ et ++ eth)%list; [discriminate|].
    now inversion H. }
  exists em. split; [reflexivity|].
  assert (Hpre : exists rest, errors = (em ++ rest)%list).
  { rewrite Herr. rewrite <- app_assoc. eauto. }
  split; [exact Hpre|].
  assert (Hhd : em <> [] -> hd EmptyString errors = hd EmptyString em).
  { destruct Hpre as [rest ->]. intros Hne.
    destruct em; [now elim Hne|reflexivity]. }
  split; [exact Hhd|].
  intros Hnone.
  assert (Hcm : em = ["messages is required"]).
  { unfold Validators.checkMessages in Em. rewrite Hnone in Em. now injection Em. }
  rewrite Hhd; rewrite Hcm; [reflexivity|discriminate].
Qed.

Lemma messages_errors_reported_first_witness :
  exists emessages,
    Validators.checkMessages examplePlatform twoFlawsBody = Ok emessages
    /\ (exists rest,
          ["messages is required"; "max_tokens must be integer between 1 and 200000"]
          = (emessages ++ rest)%list)
    /\ (emessages <> [] ->
        hd EmptyString
          ["messages is required"; "max_tokens must be integer between 1 and 200000"]
        = hd EmptyString emessages)
    /\ (get "messages" twoFlawsBody = None ->
        hd EmptyString
          ["messages is required"; "max_tokens must be integer between 1 and 200000"]
        = "messages is required").
Proof.
  apply (messages_errors_reported_first examplePlatform twoFlawsBody
           ["messages is required"; "max_tokens must be integer between 1 and 200000"]);
    reflexivity.
Defined.
(* ================================================================= *)
(** ** The transcoder on arbitrary bodies *)

Lemma keys_mkobj (fields : list (string * option json)) :
  incl (keys (mkobj fields)) (map fst fields).
Proof.
  induction fields as [|[k [v|]] r IH]; cbn [mkobj keys map fst].
  - apply incl_refl.
  - apply incl_cons; [now left|]. now apply incl_tl.
  - now apply incl_tl.
Qed.

Lemma toOpenAI_inv (pf : Platform) (body payload : json) :
  OpenAITranscoder.toOpenAI pf body = Ok payload ->
  exists msgs converted tools,
    get "messages" body = Some (JArr msgs)
    /\ OpenAITranscoder.forEachMessage pf msgs = Ok converted
    /\ OpenAITranscoder.convertTools pf (get "tools" body) = Ok tools
    /\ payload
       = obj [("model", get "model" body);
              ("messages",
               Some (JArr (List.app
                             (if truthy (get "system" body)
                              then [obj [("role", Some (JStr "system"));
                                         ("content", get "system" body)]]
                              else [])
                             converted)));
              ("stream", get "stream" body);
              ("temperature", get "temperature" body);
              ("max_tokens", get "max_tokens" body);
              ("stop", get "stop_sequences" body);
              ("tools", tools);
              ("tool_choice",
               OpenAITranscoder.convertToolChoice (get "tool_choice" body))].
Proof.
  unfold OpenAITranscoder.toOpenAI.
  destruct body as [| | | | |props]; try discriminate;
    cbn [get]; try discriminate.
  destruct (assoc "messages" props) as [[| | | |msgs|]|]; try discriminate.
  destruct (OpenAITranscoder.forEachMessage pf msgs) as [converted|] eqn:Ec;
    [|discriminate].
  cbn [bind].
  destruct (OpenAITranscoder.convertTools pf (assoc "tools" props)) as [tools|] eqn:Et;
    [|discriminate].
  cbn [bind]. intros H. inversion H. exists msgs, converted, tools. repeat split; auto.
Qed.

(** X9.  The payload of [toOpenAI] is an object whose keys are among
    [model], [messages], [stream], [temperature], [max_tokens], [stop],
    [tools] and [tool_choice]; [model], [stream], [temperature] and
    [max_tokens] are those of the body and [stop] is its [stop_sequences];
    [top_p], [top_k], [thinking] and [system] are never forwarded as
    properties of the payload. *)
Theorem toOpenAI_forwards_known_fields (pf : Platform) (body payload : json) :
  OpenAITranscoder.toOpenAI pf body = Ok payload ->
  exists props,
    payload = JObj props
    /\ incl (keys props) payloadKeys
    /\ (exists out, get "messages" payload = Some (JArr out))
    /\ get "model" payload = get "model" body
    /\ get "stream" payload = get "stream" body
    /\ get "temperature" payload = get "temperature" body
    /\ get "max_tokens" payload = get "max_tokens" body
    /\ get "stop" payload = get "stop_sequences" body
    /\ get "top_p" payload = None
    /\ get "top_k" payload = None
    /\ get "thinking" payload = None
    /\ get "system" payload = None.
Proof.
  intros H. apply toOpenAI_inv in H.
  destruct H as [msgs [converted [tools [_ [_ [_ ->]]]]]].
  eexists. split; [reflexivity|]. split; [apply keys_mkobj|].
  split; [eexists; apply get_obj_field; [distinct_keys|cbn; tauto]|].
  repeat split;
    try (apply get_obj_field; [distinct_keys|cbn; tauto]);
    (apply assoc_mkobj_absent; cbn; intuition discriminate).
Qed.

Lemma toOpenAI_forwards_known_fields_witness :
  exists props,
    OpenAITranscoder.toOpenAI examplePlatform toolBody = Ok (JObj props)
    /\ incl (keys props) payloadKeys
    /\ get "top_k" toolBody = Some (JNum (ofZ 5))
    /\ assoc "top_k" props = None.
Proof.
  destruct (toOpenAI_forwards_known_fields examplePlatform toolBody
              (JObj [("messages", JArr [JObj [("role", JStr "user"); ("content", JStr "hi")]]);
                     ("tools",
                      JArr [JObj [("type", JStr "function");
                                  ("function",
                                   JObj [("name", JStr "lookup");
                                         ("parameters", JObj [])])]])])
              eq_refl)
    as [props [Hp [Hk [_ [_ [_ [_ [_ [_ [_ [Htk _]]]]]]]]]]].
  exists props. rewrite <- Hp. repeat split; auto. rewrite Hp in Htk. exact Htk.
Defined.

Lemma mapM_Forall2 {A B} (f : A -> result B) (xs : list A) (ys : list B) :
  mapM f xs = Ok ys -> Forall2 (fun x y => f x = Ok y) xs ys.
Proof.
  revert ys. induction xs as [|x r IH]; intros ys H.
  - inversion H. constructor.
  - cbn [mapM] in H. destruct (f x) as [y|] eqn:Ex; [|discriminate].
    destruct (mapM f r) as [r'|]; [|discriminate].
    inversion H; subst. constructor; auto.
Qed.

Lemma convertTool_functionTool (t o : json) :
  OpenAITranscoder.convertTool t = Ok o -> functionTool t o.
Proof.
  unfold OpenAITranscoder.convertTool, functionTool.
  destruct t as [| | | | |props]; cbn [prop bind]; try discriminate;
    intros H; inversion H; subst o; clear H; cbn [get];
      try (repeat split; reflexivity).
  destruct (assoc "name" props), (assoc "description" props), (assoc "input_schema" props);
    repeat split; reflexivity.
Qed.

Lemma gt_zero_length (pf : Platform) (ts : list json) :
  gt_zero pf (length_prop (JArr ts)) = Ok (negb (Nat.eqb (List.length ts) 0)).
Proof.
  cbn [length_prop gt_zero]. unfold num_lt, ofZ. f_equal.
  destruct ts as [|t r]; [reflexivity|].
  cbn [List.length Nat.eqb negb].
  destruct (Qle_bool (inject_Z (Z.of_nat (S (List.length r)))) (inject_Z 0)) eqn:E;
    [|reflexivity].
  apply Qle_bool_iff in E. rewrite <- Zle_Qle in E. lia.
Qed.

(** X10.  An empty [tools] array gives no [tools] in the payload; a
    non-empty one gives one function tool for each tool, in order, with the
    name, the description and, as [parameters], the [input_schema] of the
    tool. *)
Theorem toOpenAI_maps_tools (pf : Platform) (body payload : json) (ts : list json) :
  OpenAITranscoder.toOpenAI pf body = Ok payload ->
  get "tools" body = Some (JArr ts) ->
  (ts = [] -> get "tools" payload = None)
  /\ (ts <> [] ->
      exists out, get "tools" payload = Some (JArr out) /\ Forall2 functionTool ts out).
Proof.
  intros H Ht. apply toOpenAI_inv in H.
  destruct H as [msgs [converted [tools [_ [_ [Hc ->]]]]]].
  match goal with
  | |- context [get "tools" (obj ?f)] =>
      rewrite (get_obj_field "tools" tools f); [|distinct_keys|cbn; tauto]
  end.
  rewrite Ht in Hc. unfold OpenAITranscoder.convertTools in Hc.
  rewrite gt_zero_length in Hc. cbn [truthy bind] in Hc.
  split.
  - intros ->. cbn in Hc. now inversion Hc.
  - intros Hne. destruct ts as [|t r]; [now elim Hne|].
    cbn [List.length Nat.eqb negb] in Hc.
    destruct (mapM (OpenAITranscoder.convertTool) (t :: r)) as [out|] eqn:Em;
      [|discriminate].
    cbn [bind] in Hc. inversion Hc; subst tools. exists out. split; [reflexivity|].
    apply mapM_Forall2 in Em.
    eapply Forall2_impl; [|exact Em]. intros a b. apply convertTool_functionTool.
Qed.

Lemma toOpenAI_maps_tools_witness :
  exists out,
    get "tools"
      (JObj [("messages", JArr [JObj [("role", JStr "user"); ("content", JStr "hi")]]);
             ("tools",
              JArr [JObj [("type", JStr "function");
                          ("function",
                           JObj [("name", JStr "lookup"); ("parameters", JObj [])])]])])
    = Some (JArr out)
    /\ Forall2 functionTool [JObj [("name", JStr "lookup"); ("input_schema", JObj [])]] out.
Proof.
  apply (toOpenAI_maps_tools examplePlatform toolBody _
           [JObj [("name", JStr "lookup"); ("input_schema", JObj [])]]);
    [reflexivity|reflexivity|discriminate].
Defined.

Lemma any_texts_spec (blocks : list json) :
  map (fun c => Some (or_else (get "text" c) (JStr EmptyString))) blocks
  = any_texts blocks.
Proof.
  unfold any_texts. apply map_ext. intros c. unfold or_else.
  destruct (truthy (get "text" c)) eqn:E; [|reflexivity].
  destruct (get "text" c); [reflexivity|discriminate E].
Qed.

(** X11.  A message whose content is no array becomes one message of the
    same role whose content is that of the message, the empty string
    standing for a falsy one; so a string content is kept as it is.  A
    message with array content that holds no [null] and no tool result, and
    whose role is not [assistant], becomes one message of the same role
    whose content is the concatenation of the truthy texts of its elements,
    whatever their type: its images and tool uses are dropped. *)
Theorem text_message_conversion (pf : Platform) (msg : json) :
  msg <> JNull ->
  (isArray (get "content" msg) = false ->
   OpenAITranscoder.convertMessage pf msg
   = Ok [obj [("role", get "role" msg);
              ("content", Some (or_else (get "content" msg) (JStr EmptyString)))]])
  /\ (forall text,
        get "content" msg = Some (JStr text) ->
        OpenAITranscoder.convertMessage pf msg
        = Ok [obj [("role", get "role" msg); ("content", Some (JStr text))]])
  /\ (forall blocks text,
        get "content" msg = Some (JArr blocks) ->
        ~ In JNull blocks ->
        existsb (is_block "tool_result") blocks = false ->
        is_str "assistant" (get "role" msg) = false ->
        join_empty pf (any_texts blocks) = Ok text ->
        OpenAITranscoder.convertMessage pf msg
        = Ok [obj [("role", get "role" msg); ("content", Some (JStr text))]]).
Proof.
  intros Hnn.
  assert (Hplain : isArray (get "content" msg) = false ->
                   OpenAITranscoder.convertMessage pf msg
                   = Ok [obj [("role", get "role" msg);
                              ("content",
                               Some (or_else (get "content" msg) (JStr EmptyString)))]]).
  { intros Hna. unfold OpenAITranscoder.convertMessage.
    rewrite (prop_not_null _ msg Hnn). cbn [bind].
    destruct (get "content" msg) as [[| | | |blocks|]|]; try reflexivity.
    discriminate Hna. }
  split; [exact Hplain|]. split.
  - intros text Hc. rewrite Hplain by (now rewrite Hc). rewrite Hc.
    unfold or_else. cbn [truthy]. now destruct text.
  - intros blocks text Hc Hn Hres Hrole Hjoin. unfold OpenAITranscoder.convertMessage.
    rewrite (content_read msg _ Hc). cbn [bind].
    rewrite (some_by_type "tool_result" blocks Hn), Hres. cbn [bind].
    rewrite Hrole, any_texts_spec, Hjoin. reflexivity.
Qed.

Lemma imageTurn_no_null : ~ In JNull imageTurnBlocks.
Proof. cbn. intuition discriminate. Defined.

Lemma imageTurn_not_null : imageTurn <> JNull.
Proof. discriminate. Defined.

(** The theorem on a user message with a text and an image. *)
Lemma text_message_conversion_witness :
  OpenAITranscoder.convertMessage examplePlatform imageTurn
  = Ok [JObj [("role", JStr "user"); ("content", JStr "look")]].
Proof.
  apply (proj2 (proj2 (text_message_conversion examplePlatform imageTurn
                         imageTurn_not_null))
               imageTurnBlocks "look" eq_refl imageTurn_no_null eq_refl eq_refl eq_refl).
Defined.

(** [join('')] returns when every element can be converted. *)
Lemma join_empty_returns (pf : Platform) (xs : list (option json)) :
  (forall v, In (Some v) xs -> convertible v = true) ->
  exists s, join_empty pf xs = Ok s.
Proof.
  induction xs as [|x r IH]; intros H; [simpl; eauto|].
  cbn [join_empty].
  assert (Hx : exists s, join_elem pf x = Ok s).
  { destruct x as [v|]; [|simpl; eauto].
    destruct (toString_returns pf v (H v (or_introl eq_refl))) as [s Hs].
    destruct v; simpl; eauto. }
  destruct Hx as [s ->]. destruct IH as [rest ->].
  { intros v Hv. apply H. now right. }
  simpl. eauto.
Qed.

Lemma in_map_some {A} (f : A -> option json) (xs : list A) (v : json) :
  In (Some v) (map f xs) -> exists x, In x xs /\ f x = Some v.
Proof.
  intros H. apply in_map_iff in H. destruct H as [x [Hx Hin]]. eauto.
Qed.

(** The conversion of a readable message throws nothing but the error of
    a failed conversion to a string, and it returns when the texts of the
    message can be converted. *)
Lemma convertMessage_result (pf : Platform) (msg : json) :
  readable_message msg ->
  (forall e, OpenAITranscoder.convertMessage pf msg = Throw e -> e = conversionError)
  /\ (texts_convertible msg -> exists out, OpenAITranscoder.convertMessage pf msg = Ok out).
Proof.
  intros [Hnn Hblocks]. unfold OpenAITranscoder.convertMessage, texts_convertible.
  rewrite (prop_not_null _ msg Hnn). cbn [bind].
  destruct (get "content" msg) as [[| | | |blocks|]|];
    try (split; [discriminate|eauto]).
  specialize (Hblocks blocks eq_refl).
  rewrite (some_by_type "tool_result" blocks Hblocks). cbn [bind].
  destruct (existsb (is_block "tool_result") blocks).
  - unfold OpenAITranscoder.convertToolResults.
    rewrite (filterM_pure _ text_or_string blocks).
    2:{ intros c Hin. rewrite (prop_not_null _ c (in_not_null blocks c Hblocks Hin)).
        reflexivity. }
    cbn [bind]. rewrite (filter_by_type "tool_result" blocks Hblocks).
    split.
    + intros e.
      destruct (join_empty pf _) as [s|e'] eqn:Ej; cbn [bind]; [discriminate|].
      intros [= <-]. now apply join_empty_throws in Ej.
    + intros Hconv.
      destruct (join_empty_returns pf
                  (map (fun c => Some (or_else (get "text" c) c))
                       (filter text_or_string blocks))) as [s ->]; [|cbn [bind]; eauto].
      intros v Hv. apply in_map_some in Hv. destruct Hv as [c [Hc Hv]].
      apply filter_In in Hc. destruct Hc as [Hc _].
      destruct (Hconv blocks c eq_refl Hc) as [Hcc Hct].
      injection Hv as <-. unfold or_else.
      destruct (truthy (get "text" c)); [|exact Hcc].
      destruct (get "text" c) as [t|] eqn:Et; [now apply Hct|exact Hcc].
  - destruct (is_str "assistant" (get "role" msg)).
    + unfold OpenAITranscoder.convertAssistant.
      rewrite (filter_by_type "tool_use" blocks Hblocks). cbn [bind].
      rewrite (filter_by_type "text" blocks Hblocks). cbn [bind].
      split.
      * intros e.
        destruct (join_empty pf _) as [s|e'] eqn:Ej; cbn [bind]; [discriminate|].
        intros [= <-]. now apply join_empty_throws in Ej.
      * intros Hconv.
        destruct (join_empty_returns pf
                    (map (fun c => get "text" c) (filter (is_block "text") blocks)))
          as [s ->]; [|cbn [bind]; eauto].
        intros v Hv. apply in_map_some in Hv. destruct Hv as [c [Hc Hv]].
        apply filter_In in Hc. destruct Hc as [Hc _].
        destruct (Hconv blocks c eq_refl Hc) as [_ Hct]. now apply Hct.
    + split.
      * intros e.
        destruct (join_empty pf _) as [s|e'] eqn:Ej; cbn [bind]; [discriminate|].
        intros [= <-]. now apply join_empty_throws in Ej.
      * intros Hconv.
        destruct (join_empty_returns pf
                    (map (fun c => Some (or_else (get "text" c) (JStr EmptyString)))
                         blocks)) as [s ->]; [|cbn [bind]; eauto].
        intros v Hv. apply in_map_some in Hv. destruct Hv as [c [Hc Hv]].
        destruct (Hconv blocks c eq_refl Hc) as [_ Hct].
        injection Hv as <-. unfold or_else.
        destruct (truthy (get "text" c)); [|reflexivity].
        destruct (get "text" c) as [t|] eqn:Et; [now apply Hct|reflexivity].
Qed.

Lemma mapM_returns {A B} (f : A -> result B) (xs : list A) :
  (forall x, In x xs -> exists y, f x = Ok y) -> exists ys, mapM f xs = Ok ys.
Proof.
  induction xs as [|x r IH]; intros H; [now exists []|].
  cbn [mapM]. destruct (H x (or_introl eq_refl)) as [y ->].
  destruct IH as [ys ->]; [intros z Hz; apply H; now right|]. eauto.
Qed.

Lemma forEachMessage_result (pf : Platform) (msgs : list json) :
  Forall readable_message msgs ->
  (forall e, OpenAITranscoder.forEachMessage pf msgs = Throw e -> e = conversionError)
  /\ ((forall msg, In msg msgs -> texts_convertible msg) ->
      exists out, OpenAITranscoder.forEachMessage pf msgs = Ok out).
Proof.
  induction 1 as [|msg r Hmsg _ [IHt IHr]]; [split; [discriminate|now exists []]|].
  cbn [OpenAITranscoder.forEachMessage].
  destruct (convertMessage_result pf msg Hmsg) as [Ht Hr].
  split.
  - intros e.
    destruct (OpenAITranscoder.convertMessage pf msg) as [out|e1]; cbn [bind].
    + destruct (OpenAITranscoder.forEachMessage pf r) as [rest|e2]; cbn [bind];
        [discriminate|].
      intros [= <-]. now apply IHt.
    + intros [= <-]. now apply Ht.
  - intros Hconv.
    destruct (Hr (Hconv msg (or_introl eq_refl))) as [out ->]. cbn [bind].
    destruct IHr as [rest ->]; [intros m Hm; apply Hconv; now right|].
    cbn [bind]. eauto.
Qed.

Lemma convertTools_returns (pf : Platform) (tools : option json) :
  (forall t, tools = Some t -> exists ts, t = JArr ts /\ ~ In JNull ts) ->
  exists out, OpenAITranscoder.convertTools pf tools = Ok out.
Proof.
  intros H. unfold OpenAITranscoder.convertTools.
  destruct tools as [t|]; [|cbn; eauto].
  destruct (H t eq_refl) as [ts [-> Hn]].
  rewrite gt_zero_length. cbn [truthy bind].
  destruct (negb (Nat.eqb (List.length ts) 0)); [|eauto].
  destruct (mapM_returns OpenAITranscoder.convertTool ts) as [out ->]; [|cbn [bind]; eauto].
  intros x Hx. unfold OpenAITranscoder.convertTool.
  rewrite prop_not_null; [cbn [bind]; eauto|]. intros ->. now apply Hn.
Qed.

(** On a readable body the transcoder throws nothing but the error of a
    failed conversion to a string. *)
Lemma toOpenAI_readable (pf : Platform) (body : json) :
  readable body ->
  (exists payload out,
      OpenAITranscoder.toOpenAI pf body = Ok payload
      /\ get "messages" payload = Some (JArr out))
  \/ OpenAITranscoder.toOpenAI pf body = Throw conversionError.
Proof.
  intros [[msgs [Hm Hall]] Htools].
  destruct (get_some_object _ _ _ Hm) as [props [-> _]].
  unfold OpenAITranscoder.toOpenAI. rewrite Hm.
  destruct (forEachMessage_result pf msgs Hall) as [Ht _].
  destruct (OpenAITranscoder.forEachMessage pf msgs) as [converted|e]; cbn [bind].
  - left.
    destruct (convertTools_returns pf (get "tools" (JObj props)) Htools) as [tools ->].
    cbn [bind]. do 2 eexists. split; [reflexivity|].
    apply get_obj_field; [distinct_keys|cbn; tauto].
  - right. now rewrite (Ht e eq_refl).
Qed.

(** X8.  [toOpenAI] returns a payload, whose [messages] is an array,
    for every body whose [messages] is an array of values other than
    [null], whose array contents hold no [null] and nothing, element or
    text of an element, that cannot be converted to a string, and whose
    [tools] is absent or an array without [null]. *)
Theorem toOpenAI_returns (pf : Platform) (body : json) :
  transcodable body ->
  exists payload out,
    OpenAITranscoder.toOpenAI pf body = Ok payload
    /\ get "messages" payload = Some (JArr out).
Proof.
  intros [Hread Hconv].
  destruct (toOpenAI_readable pf body Hread) as [H|H]; [exact H|].
  exfalso. destruct Hread as [[msgs [Hm Hall]] Htools].
  destruct (get_some_object _ _ _ Hm) as [props [-> _]].
  unfold OpenAITranscoder.toOpenAI in H. rewrite Hm in H.
  destruct (forEachMessage_result pf msgs Hall) as [_ Hr].
  destruct (Hr (fun msg => Hconv msgs msg Hm)) as [converted Hc].
  rewrite Hc in H. cbn [bind] in H.
  destruct (convertTools_returns pf (get "tools" (JObj props)) Htools) as [tools Ht].
  rewrite Ht in H. discriminate H.
Qed.

Lemma toolBody_transcodable : transcodable toolBody.
Proof.
  split; [split|].
  - eexists. split; [reflexivity|]. repeat constructor; discriminate.
  - intros tools Ht. inversion Ht. eexists. split; [reflexivity|].
    cbn. intuition discriminate.
  - intros msgs msg Hm Hin blocks c Hc. injection Hm as <-.
    destruct Hin as [<-|[]]. discriminate Hc.
Defined.

Lemma toOpenAI_returns_witness :
  exists payload out,
    OpenAITranscoder.toOpenAI examplePlatform toolBody = Ok payload
    /\ get "messages" payload = Some (JArr out).
Proof. exact (toOpenAI_returns examplePlatform toolBody toolBody_transcodable). Defined.

Lemma validateContentBlock_not_null (pf : Platform) (block : json) :
  Validators.validateContentBlock pf block = Ok Validators.Pass -> block <> JNull.
Proof. intros H ->. discriminate. Qed.

Lemma well_formed_message_readable (pf : Platform) (msg : json) :
  well_formed_message pf msg -> readable_message msg.
Proof.
  intros [role [c [Hr [_ [Hc Hpass]]]]]. split.
  - intros ->. discriminate.
  - intros blocks Hb. rewrite Hc in Hb. inversion Hb; subst c.
    unfold Validators.validateMessageContent in Hpass.
    destruct (Validators.MAX_BLOCKS_PER_MESSAGE <? Z.of_nat (List.length blocks))%Z;
      [discriminate|].
    apply validateBlocks_pass in Hpass. rewrite Forall_forall in Hpass.
    intros Hin. now apply (validateContentBlock_not_null pf JNull (Hpass _ Hin)).
Qed.

(** X7.  A body that [validateMessages] accepts, as well as its
    validated data, holds no [null] where the OpenAI transcoder reads a
    property.  So [toOpenAI] converts the validated data, or else throws
    the [TypeError] of a failed conversion to a string, which it does when a
    text to be joined is an object with a key [toString] of its own; it
    converts them when the texts of the messages can be converted. *)
Theorem accepted_body_transcodes (pf : Platform) (body data : json) :
  Validators.validateMessages pf body = Ok (Validators.Valid data) ->
  readable body
  /\ readable data
  /\ ((exists payload, OpenAITranscoder.toOpenAI pf data = Ok payload)
      \/ OpenAITranscoder.toOpenAI pf data = Throw conversionError)
  /\ (transcodable body ->
      exists payload, OpenAITranscoder.toOpenAI pf data = Ok payload).
Proof.
  intros H. apply valid_body_checks in H.
  destruct H as [props [-> [-> [_ [Hm [_ [_ [_ Ht]]]]]]]].
  destruct (checkMessages_nil pf _ Hm) as [msgs [Hmsgs [_ Hwf]]].
  assert (Hb : readable (JObj props)).
  { split.
    - exists msgs. split; [exact Hmsgs|].
      eapply Forall_impl; [|exact Hwf]. intros msg. apply well_formed_message_readable.
    - intros tools Htools. destruct (checkTools_nil _ Ht tools Htools) as [ts [-> [_ Hts]]].
      exists ts. split; [reflexivity|]. intros Hin. rewrite Forall_forall in Hts.
      destruct (Hts _ Hin) as [name [Hn _]]. discriminate. }
  assert (Hd : readable (Validators.validatedData (JObj props))).
  { destruct Hb as [Hb1 Hb2]. split.
    - rewrite validatedData_keeps by reflexivity. exact Hb1.
    - rewrite validatedData_keeps by reflexivity. exact Hb2. }
  split; [exact Hb|]. split; [exact Hd|]. split.
  - destruct (toOpenAI_readable pf _ Hd) as [[payload [out [Hp _]]]|Hthrow]; eauto.
  - intros [_ Hconv].
    destruct (toOpenAI_returns pf (Validators.validatedData (JObj props)))
      as [payload [out [Hp _]]]; [|eauto].
    split; [exact Hd|]. intros msgs' msg Hm'. apply Hconv.
    rewrite validatedData_keeps in Hm' by reflexivity. exact Hm'.
Qed.

Lemma claudeBody_transcodable : transcodable claudeBody.
Proof.
  split; [split|].
  - eexists. split; [reflexivity|]. repeat constructor; discriminate.
  - intros tools Ht. discriminate Ht.
  - intros msgs msg Hm Hin blocks c Hc. injection Hm as <-.
    destruct Hin as [<-|[]]. discriminate Hc.
Defined.

Lemma accepted_body_transcodes_witness :
  readable claudeBody
  /\ readable (Validators.validatedData claudeBody)
  /\ exists payload,
      OpenAITranscoder.toOpenAI examplePlatform (Validators.validatedData claudeBody)
      = Ok payload.
Proof.
  destruct (accepted_body_transcodes examplePlatform claudeBody
              (Validators.validatedData claudeBody) eq_refl) as [H1 [H2 [_ H4]]].
  split; [exact H1|]. split; [exact H2|]. exact (H4 claudeBody_transcodable).
Defined.

(** A body that is accepted and on which the transcoder throws: the text of
    a block of an unknown type is an object with a key [toString]. *)
Lemma accepted_body_with_unconvertible_text :
  Validators.validateMessages examplePlatform unconvertibleTextBody
  = Ok (Validators.Valid (Validators.validatedData unconvertibleTextBody))
  /\ OpenAITranscoder.toOpenAI examplePlatform
       (Validators.validatedData unconvertibleTextBody)
     = Throw conversionError.
Proof. split; reflexivity. Qed.

(* ================================================================= *)
(** ** The local stream *)

(** Once the model has been read and converted for the log line, the
    gateway answers with the outcome of its [try] block. *)
Lemma handleLocalRequest_try
  (pf : Platform) (fetch : json -> Gateway.fetched) (now : Z) (body : json) :
  body <> JNull ->
  (forall model, get "model" body = Some model -> convertible model = true) ->
  Gateway.handleLocalRequest pf fetch now body
  = match Gateway.tryProxy pf fetch now body with
    | Ok answer => answer
    | Throw e => Gateway.handleError e
    end.
Proof.
  intros Hnn Hconv. unfold Gateway.handleLocalRequest, Gateway.handleOpenAIProxyRequest.
  rewrite (prop_not_null "model" body Hnn). cbn [bind].
  destruct (get "model" body) as [model|]; [|reflexivity].
  destruct (toString_returns pf model (Hconv model eq_refl)) as [s Hs].
  cbn [toString_opt]. now rewrite Hs.
Qed.

(** X12.  A streaming request never gets a stream from the local gateway.
    When the endpoint answers with success, [streamResponse] is handed the
    body of the response of [fetch], which has no method [on]: the call
    throws before a frame is written, and the gateway answers 502
    [api_error] with the text of the [TypeError]. *)
Theorem local_stream_never_starts
  (pf : Platform) (fetch : json -> Gateway.fetched) (now : Z) (body : json)
  (openAIBody : json) (r : Gateway.response) :
  body <> JNull ->
  (forall model, get "model" body = Some model -> convertible model = true) ->
  truthy (get "stream" body) = true ->
  Gateway.upstreamBody pf body = Ok openAIBody ->
  fetch openAIBody = Gateway.Responded r ->
  Gateway.ok r = true ->
  Gateway.handleLocalRequest pf fetch now body
  = badGateway match Gateway.body r with
               | Some _ => "bodyStream.on is not a function"
               | None => "Cannot read properties of null (reading 'on')"
               end.
Proof.
  intros Hnn Hconv Hstream Hup Hfetch Hok.
  rewrite (handleLocalRequest_try pf fetch now body Hnn Hconv).
  unfold Gateway.tryProxy. rewrite Hup. cbn [bind]. rewrite Hfetch, Hok, Hstream.
  cbn [negb]. unfold Gateway.responseBody.
  destruct (Gateway.body r); reflexivity.
Qed.

Lemma localStreamBody_model_convertible :
  forall model, get "model" localStreamBody = Some model -> convertible model = true.
Proof. intros model [= <-]. reflexivity. Defined.

Lemma localStreamBody_not_null : localStreamBody <> JNull.
Proof. discriminate. Defined.

(** The theorem on scenario 2 of the specification. *)
Lemma local_stream_never_starts_witness :
  Gateway.handleLocalRequest okPlatform (fun _ => Gateway.Responded okResponse) 0
    localStreamBody
  = badGateway "bodyStream.on is not a function".
Proof.
  apply (local_stream_never_starts okPlatform (fun _ => Gateway.Responded okResponse) 0
           localStreamBody
           (JObj [("model", JStr "local-gemma");
                  ("messages",
                   JArr [JObj [("role", JStr "user"); ("content", JStr "hi")]]);
                  ("stream", JBool true);
                  ("max_tokens", JNum (ofZ 10))])
           okResponse localStreamBody_not_null localStreamBody_model_convertible
           eq_refl eq_refl eq_refl eq_refl).
Defined.

(** X13.  [fromOpenAIStream] on a chunk whose first choice holds a truthy
    delta.  A truthy [content] gives a text delta with that content at the
    index of the caller.  Otherwise, when [tool_calls] is an array whose
    first call is not [null]: a truthy [id] gives the start of a [tool_use]
    block with the id and the name of the function, at the index of the
    call; else truthy arguments of the function give a delta of the input
    at the index of the call; else the result is [null].  Without
    [tool_calls], or with an empty array, the result is [null]. *)
Theorem fromOpenAIStream_cases
  (pf : Platform) (chunk : json) (index : option json) (choices choice delta : json) :
  get "choices" chunk = Some choices ->
  first choices = Some choice ->
  get "delta" choice = Some delta ->
  truthy (Some delta) = true ->
  (truthy (get "content" delta) = true ->
   OpenAITranscoder.fromOpenAIStream pf chunk index
   = Ok (Some (textDelta index (get "content" delta))))
  /\ (truthy (get "content" delta) = false ->
      (forall call calls,
         get "tool_calls" delta = Some (JArr (call :: calls)) ->
         call <> JNull ->
         OpenAITranscoder.fromOpenAIStream pf chunk index
         = Ok (if truthy (get "id" call) then Some (toolUseStart call)
               else if truthy (get "function" call)
                       && truthy (get_opt "arguments" (get "function" call))
                    then Some (inputJsonDelta call)
                    else None))
      /\ (get "tool_calls" delta = None \/ get "tool_calls" delta = Some (JArr []) ->
          OpenAITranscoder.fromOpenAIStream pf chunk index = Ok None)).
Proof.
  intros Hc Hf Hd Ht.
  assert (Hnn : chunk <> JNull) by (intros ->; discriminate Hc).
  assert (Hcs : choices <> JNull) by (intros ->; discriminate Hf).
  assert (Hch : choice <> JNull) by (intros ->; discriminate Hd).
  assert (Hdelta : OpenAITranscoder.fromOpenAIStream pf chunk index
                   = if truthy (get "content" delta)
                     then Ok (Some (textDelta index (get "content" delta)))
                     else
                       positive <-
                         (if truthy (get "tool_calls" delta)
                          then gt_zero pf match get "tool_calls" delta with
                                          | Some t => length_prop t
                                          | None => None
                                          end
                          else Ok false) ;;
                       if positive then
                         let toolCall := match get "tool_calls" delta with
                                         | Some t => first t
                                         | None => None
                                         end in
                         i <- prop "index" toolCall ;;
                         let fn := get_opt "function" toolCall in
                         if truthy (get_opt "id" toolCall)
                         then Ok (Some (obj [("type", Some (JStr "content_block_start"));
                                             ("index", i);
                                             ("content_block",
                                              Some (obj [("type", Some (JStr "tool_use"));
                                                         ("id", get_opt "id" toolCall);
                                                         ("name",
                                                          Some (or_else (get_opt "name" fn)
                                                                  (JStr EmptyString)));
                                                         ("input", Some (JObj []))]))]))
                         else if truthy fn && truthy (get_opt "arguments" fn)
                         then Ok (Some (obj [("type", Some (JStr "content_block_delta"));
                                             ("index", i);
                                             ("delta",
                                              Some (obj [("type",
                                                          Some (JStr "input_json_delta"));
                                                         ("partial_json",
                                                          get_opt "arguments" fn)]))]))
                         else Ok None
                       else Ok None).
  { unfold OpenAITranscoder.fromOpenAIStream.
    rewrite (prop_not_null "choices" chunk Hnn), Hc. cbn [bind].
    destruct choices; try (now elim Hcs); rewrite Hf;
      (destruct choice; try (now elim Hch); rewrite Hd; rewrite Ht);
      reflexivity. }
  rewrite Hdelta. split.
  - intros Hcontent. now rewrite Hcontent.
  - intros Hcontent. rewrite Hcontent. split.
    + intros call calls Htc Hcall. rewrite Htc.
      rewrite gt_zero_length. cbn [truthy List.length Nat.eqb negb bind first].
      rewrite (prop_not_null "index" call Hcall). cbn [bind get_opt].
      unfold toolUseStart, inputJsonDelta.
      destruct (truthy (get "id" call)); [reflexivity|].
      destruct (truthy (get "function" call)
                && truthy (get_opt "arguments" (get "function" call))); reflexivity.
    + intros [Htc|Htc]; rewrite Htc; reflexivity.
Qed.

Lemma toolCallChunk_call_not_null :
  JObj [("index", JNum (ofZ 0)); ("id", JStr "call_1"); ("type", JStr "function");
        ("function", JObj [("name", JStr "lookup"); ("arguments", JStr EmptyString)])]
  <> JNull.
Proof. discriminate. Defined.

(** The theorem on the first delta of a tool call. *)
Lemma fromOpenAIStream_cases_witness :
  OpenAITranscoder.fromOpenAIStream examplePlatform toolCallChunk None
  = Ok (Some (JObj [("type", JStr "content_block_start");
                    ("index", JNum (ofZ 0));
                    ("content_block",
                     JObj [("type", JStr "tool_use"); ("id", JStr "call_1");
                           ("name", JStr "lookup"); ("input", JObj [])])])).
Proof.
  apply (proj1 (proj2 (fromOpenAIStream_cases examplePlatform toolCallChunk None
                         _ _ _ eq_refl eq_refl eq_refl eq_refl) eq_refl)
               _ [] eq_refl toolCallChunk_call_not_null).
Defined.

(* ================================================================= *)
(** ** The replies of the local gateway *)

(** The [try] block and its [catch] answer with a JSON document. *)
Lemma tryProxy_reply
  (pf : Platform) (fetch : json -> Gateway.fetched) (now : Z) (body : json) :
  exists status reply,
    match Gateway.tryProxy pf fetch now body with
    | Ok answer => answer
    | Throw e => Gateway.handleError e
    end = Gateway.Json status reply
    /\ ((status = 200%Z
         /\ truthy (get "stream" body) = false
         /\ exists payload r content,
             Gateway.upstreamBody pf body = Ok payload
             /\ fetch payload = Gateway.Responded r
             /\ Gateway.ok r = true
             /\ reply = Gateway.createAnthropicResponse now content (get "model" body))
        \/ (exists message, Gateway.Json status reply = badGateway message)).
Proof.
  unfold Gateway.tryProxy, Gateway.handleError, badGateway.
  destruct (Gateway.upstreamBody pf body) as [payload|e] eqn:Eu; cbn [bind];
    [|do 2 eexists; split; [reflexivity|right; eauto]].
  destruct (fetch payload) as [e|r] eqn:Ef;
    [do 2 eexists; split; [reflexivity|right; eauto]|].
  destruct (Gateway.ok r) eqn:Eok; cbn [negb];
    [|do 2 eexists; split; [reflexivity|right; eauto]].
  destruct (truthy (get "stream" body)) eqn:Es.
  - destruct (streamResponse_throws pf r) as [e [-> _]]. cbn [bind].
    do 2 eexists; split; [reflexivity|right; eauto].
  - destruct (Gateway.parsed r) as [data|e]; cbn [bind];
      [|do 2 eexists; split; [reflexivity|right; eauto]].
    destruct (Gateway.messageContent data) as [content|e]; cbn [bind];
      [|do 2 eexists; split; [reflexivity|right; eauto]].
    do 2 eexists; split; [reflexivity|]. left. split; [reflexivity|]. split; [reflexivity|].
    exists payload, r, content. auto.
Qed.

(** X14.  The local gateway never answers with an event stream.  It
    answers with the status 200 and an Anthropic message, when the body
    does not ask for a stream and the endpoint answered with success; or
    with the status 502 and an [api_error]; or not at all, its promise
    being rejected before the [try] block, exactly when the body is [null]
    or its model cannot be converted to a string for the log line.  The
    status of the endpoint is never relayed. *)
Theorem gateway_reply_cases
  (pf : Platform) (fetch : json -> Gateway.fetched) (now : Z) (body : json) :
  match Gateway.handleOpenAIProxyRequest pf fetch now body with
  | Gateway.EventStream frames => False
  | Gateway.Unanswered e =>
      (body = JNull /\ e = "Cannot read properties of null (reading 'model')")
      \/ (exists model,
            get "model" body = Some model /\ convertible model = false
            /\ e = conversionError)
  | Gateway.Json status reply =>
      body <> JNull
      /\ (forall model, get "model" body = Some model -> convertible model = true)
      /\ ((status = 200%Z
           /\ truthy (get "stream" body) = false
           /\ exists payload r content,
               Gateway.upstreamBody pf body = Ok payload
               /\ fetch payload = Gateway.Responded r
               /\ Gateway.ok r = true
               /\ reply = Gateway.createAnthropicResponse now content (get "model" body))
          \/ (exists message, Gateway.Json status reply = badGateway message))
  end.
Proof.
  unfold Gateway.handleOpenAIProxyRequest.
  assert (Hcases : body = JNull \/ body <> JNull).
  { destruct body; [now left|right; discriminate..]. }
  destruct Hcases as [->|Hnn]; [left; split; reflexivity|].
  rewrite (prop_not_null "model" body Hnn). cbn [bind].
  destruct (toString_opt pf (get "model" body)) as [text|e] eqn:Et.
  - assert (Hconv : forall model, get "model" body = Some model ->
                                  convertible model = true).
    { intros model Hm. rewrite Hm in Et. now apply (toString_ok_convertible pf model text). }
    destruct (tryProxy_reply pf fetch now body) as [status [reply [-> H]]].
    auto.
  - right. destruct (get "model" body) as [model|]; [|discriminate Et].
    destruct (toString_throws pf model e Et) as [-> Hc]. exists model. auto.
Qed.

(** X15.  For a body other than [null] whose [messages] is not an array
    and whose model can be converted to a string, the transcoder raises an
    exception, so the gateway answers 502 [api_error] with the text of the
    exception, whatever the endpoint would answer: no request is sent to
    it.  For the body [null] the gateway answers nothing. *)
Theorem gateway_rejects_without_messages_array
  (pf : Platform) (fetch : json -> Gateway.fetched) (now : Z) (body : json) :
  isArray (get "messages" body) = false ->
  (exists message, Gateway.upstreamBody pf body = Throw message)
  /\ (body <> JNull ->
      (forall model, get "model" body = Some model -> convertible model = true) ->
      exists message,
        Gateway.upstreamBody pf body = Throw message
        /\ Gateway.handleLocalRequest pf fetch now body = badGateway message)
  /\ (body = JNull ->
      Gateway.handleLocalRequest pf fetch now body
      = Gateway.Unanswered "Cannot read properties of null (reading 'model')").
Proof.
  intros Harr.
  assert (H : exists message, Gateway.upstreamBody pf body = Throw message).
  { unfold Gateway.upstreamBody, OpenAITranscoder.toOpenAI.
    destruct body as [| | | | |props]; cbn [get bind] in *; eauto.
    destruct (assoc "messages" props) as [[| | | |msgs|]|]; cbn in Harr;
      try discriminate; cbn [bind]; eauto. }
  split; [exact H|]. split.
  - intros Hnn Hconv. destruct H as [message Hm]. exists message. split; [exact Hm|].
    rewrite (handleLocalRequest_try pf fetch now body Hnn Hconv).
    unfold Gateway.tryProxy. now rewrite Hm.
  - intros ->. reflexivity.
Qed.

Lemma stringMessagesBody_model_convertible :
  forall model, get "model" stringMessagesBody = Some model -> convertible model = true.
Proof. intros model [= <-]. reflexivity. Defined.

Lemma stringMessagesBody_not_null : stringMessagesBody <> JNull.
Proof. discriminate. Defined.

Lemma gateway_rejects_without_messages_array_witness :
  Messages.postMessages examplePlatform "retry" stringMessagesBody
  = Messages.Local stringMessagesBody
  /\ exists message,
      Gateway.upstreamBody examplePlatform stringMessagesBody = Throw message
      /\ Gateway.handleLocalRequest examplePlatform
           (fun _ => Gateway.Rejected "unreachable") 0 stringMessagesBody
         = badGateway message.
Proof.
  split; [reflexivity|].
  apply (proj1 (proj2 (gateway_rejects_without_messages_array examplePlatform
                         (fun _ => Gateway.Rejected "unreachable") 0 stringMessagesBody
                         eq_refl))
               stringMessagesBody_not_null stringMessagesBody_model_convertible).
Defined.

(* ================================================================= *)
(** ** The classification of errors *)

(** X18.  [parseError] gives one of four pairs of status and type:
    401 [authentication_error], 400 [invalid_request_error], 503
    [overloaded_error], 500 [api_error].  The status is 401 exactly when
    the text holds [401] or [UNAUTHENTICATED]; a 503 needs [overloaded_error]
    or [503] in the text; with the status 500 the text of the error is kept
    as the message. *)
Theorem parseError_classes (message : string) :
  In (Messages.statusCode (Messages.parseError message),
      Messages.errorType (Messages.parseError message)) errorClasses
  /\ (Messages.statusCode (Messages.parseError message) = 500%Z ->
      Messages.errorMessage (Messages.parseError message) = message)
  /\ (Messages.statusCode (Messages.parseError message) = 401%Z
      <-> includes "401" message || includes "UNAUTHENTICATED" message = true)
  /\ (Messages.statusCode (Messages.parseError message) = 503%Z ->
      includes "overloaded_error" message || includes "503" message = true).
Proof.
  unfold Messages.parseError, errorClasses.
  destruct (includes "401" message || includes "UNAUTHENTICATED" message);
    [cbn; intuition (auto; discriminate)|].
  destruct (includes "429" message || includes "RESOURCE_EXHAUSTED" message
            || includes "QUOTA_EXHAUSTED" message);
    [cbn; intuition (auto; discriminate)|].
  destruct (includes "invalid_request_error" message || includes "INVALID_ARGUMENT" message);
    [cbn; intuition (auto; discriminate)|].
  destruct (includes "overloaded_error" message || includes "503" message);
    cbn; intuition (auto; discriminate).
Qed.


(* ================================================================= *)
(** ** What the messages route answers before the dispatch *)

Lemma systemLoop_throws (blocks : list json) :
  forall i e, Validators.systemLoop i blocks = Throw e ->
              e = "Cannot read properties of null (reading 'type')".
Proof.
  induction blocks as [|b r IH]; intros i e H; [discriminate|].
  cbn [Validators.systemLoop] in H.
  destruct b; try (now inversion H);
    (destruct (Validators.systemLoop (S i) r) as [rest|e'] eqn:Er;
     [discriminate|cbn [bind] in H; inversion H; subst; now apply (IH (S i))]).
Qed.

Lemma toolsLoop_throws (tools : list json) :
  forall i e, Validators.toolsLoop i tools = Throw e ->
              e = "Cannot read properties of null (reading 'name')".
Proof.
  induction tools as [|b r IH]; intros i e H; [discriminate|].
  cbn [Validators.toolsLoop] in H.
  destruct b; try (now inversion H);
    (destruct (Validators.toolsLoop (S i) r) as [rest|e'] eqn:Er;
     [discriminate|cbn [bind] in H; inversion H; subst; now apply (IH (S i))]).
Qed.

Lemma checkMediaType_throws (pf : Platform) (media_type : option json) (e : string) :
  Validators.checkMediaType pf media_type = Throw e -> e = conversionError.
Proof.
  unfold Validators.checkMediaType.
  destruct (truthy media_type); [|discriminate].
  destruct (toString_opt pf media_type) as [text|e'] eqn:Et; cbn [bind]; [discriminate|].
  intros [= <-]. now apply toString_opt_throws in Et.
Qed.

Lemma validateImageBlock_throws (pf : Platform) (block : json) (e : string) :
  Validators.validateImageBlock pf block = Throw e -> e = conversionError.
Proof.
  unfold Validators.validateImageBlock.
  destruct (negb (is_str "image" (get "type" block))); [discriminate|].
  destruct (negb (truthy (get "source" block)) || _); [discriminate|].
  destruct (negb (is_str "base64" _ || _)); [discriminate|].
  destruct (is_str "base64" (get_opt "type" (get "source" block))).
  - destruct (get_opt "data" (get "source" block)) as [[| | |data| |]|];
      cbn [bind]; try discriminate.
    destruct (Validators.MAX_IMAGE_SIZE <? strlen data)%Z; cbn [bind]; [discriminate|].
    destruct (Validators.checkMediaType pf _) as [[|r]|e'] eqn:Ec; cbn [bind].
    + destruct (is_str "url" _); [|discriminate].
      destruct (get_opt "url" _) as [[| | |url| |]|]; discriminate.
    + discriminate.
    + intros [= <-]. now apply checkMediaType_throws in Ec.
  - cbn [bind]. destruct (is_str "url" _); [|discriminate].
    destruct (get_opt "url" _) as [[| | |url| |]|]; discriminate.
Qed.

Lemma validateContentBlock_throws (pf : Platform) (block : json) (e : string) :
  Validators.validateContentBlock pf block = Throw e -> e = conversionError.
Proof.
  unfold Validators.validateContentBlock.
  destruct (negb (truthy (Some block)) || _); [discriminate|].
  destruct (is_str "text" _); [discriminate|].
  destruct (is_str "image" _); [apply validateImageBlock_throws|].
  destruct (is_str "document" _); [apply validateImageBlock_throws|].
  destruct (is_str "tool_use" _); [discriminate|].
  destruct (is_str "tool_result" _); [discriminate|].
  destruct (is_str "thinking" _ || _); discriminate.
Qed.

Lemma validateBlocks_throws (pf : Platform) (blocks : list json) :
  forall i e, Validators.validateBlocks pf i blocks = Throw e -> e = conversionError.
Proof.
  induction blocks as [|b r IH]; intros i e; [discriminate|].
  cbn [Validators.validateBlocks].
  destruct (Validators.validateContentBlock pf b) as [[|r']|e'] eqn:Eb; cbn [bind].
  - apply IH.
  - discriminate.
  - intros [= <-]. now apply validateContentBlock_throws in Eb.
Qed.

Lemma messageErrors_throws (pf : Platform) (i : nat) (msg : json) (e : string) :
  Validators.messageErrors pf i msg = Throw e -> e = conversionError.
Proof.
  unfold Validators.messageErrors.
  destruct (negb (truthy (Some msg)) || _); [discriminate|].
  destruct (get "content" msg) as [c|]; [|discriminate].
  destruct (Validators.validateMessageContent pf c) as [r|e'] eqn:Ec; cbn [bind];
    [discriminate|].
  intros [= <-]. unfold Validators.validateMessageContent in Ec.
  destruct c as [| | |s|blocks|]; try discriminate Ec.
  - destruct (Validators.MAX_MESSAGE_LENGTH <? strlen s)%Z; discriminate Ec.
  - destruct (Validators.MAX_BLOCKS_PER_MESSAGE <? Z.of_nat (List.length blocks))%Z;
      [discriminate Ec|].
    now apply validateBlocks_throws in Ec.
Qed.

Lemma messagesLoop_throws (pf : Platform) (msgs : list json) :
  forall i e, Validators.messagesLoop pf i msgs = Throw e -> e = conversionError.
Proof.
  induction msgs as [|m r IH]; intros i e; [discriminate|].
  cbn [Validators.messagesLoop].
  destruct (Validators.messageErrors pf i m) as [here|e'] eqn:Eh; cbn [bind].
  - destruct (Validators.messagesLoop pf (S i) r) as [rest|e''] eqn:Er; cbn [bind];
      [discriminate|].
    intros [= <-]. now apply (IH (S i)).
  - intros [= <-]. now apply messageErrors_throws in Eh.
Qed.

Lemma checkMessages_throws (pf : Platform) (body : json) (e : string) :
  Validators.checkMessages pf body = Throw e -> e = conversionError.
Proof.
  unfold Validators.checkMessages.
  destruct (negb (truthy (get "messages" body))); [discriminate|].
  destruct (get "messages" body) as [[| | | |msgs|]|]; try discriminate.
  destruct (Z.of_nat (List.length msgs) =? 0)%Z; [discriminate|].
  destruct (Validators.MAX_MESSAGES <? Z.of_nat (List.length msgs))%Z; [discriminate|].
  apply messagesLoop_throws.
Qed.

Lemma checkSystem_throws (body : json) (e : string) :
  Validators.checkSystem body = Throw e ->
  e = "Cannot read properties of null (reading 'type')".
Proof.
  unfold Validators.checkSystem.
  destruct (get "system" body) as [[| | |sys|blocks|]|]; try discriminate.
  - destruct (_ <? _)%Z; discriminate.
  - apply systemLoop_throws.
Qed.

Lemma checkTools_throws (body : json) (e : string) :
  Validators.checkTools body = Throw e ->
  e = "Cannot read properties of null (reading 'name')".
Proof.
  unfold Validators.checkTools.
  destruct (get "tools" body) as [[| | | |ts|]|]; try discriminate.
  destruct (_ <? _)%Z; [discriminate|]. apply toolsLoop_throws.
Qed.

Lemma checkThinking_throws (body : json) (e : string) :
  Validators.checkThinking body = Throw e ->
  e = "Cannot read properties of null (reading 'budget_tokens')".
Proof.
  unfold Validators.checkThinking.
  destruct (get "thinking" body) as [th|]; [|discriminate].
  destruct (negb _); [discriminate|].
  destruct th; try discriminate; try (now intros [= <-]).
  destruct (get "budget_tokens" _); [|discriminate].
  destruct (Validators.isPositiveInt _ _ _); discriminate.
Qed.

Lemma validateMessages_throws (pf : Platform) (body : json) (e : string) :
  Validators.validateMessages pf body = Throw e -> In e typeErrors.
Proof.
  assert (Hcases : body = JNull \/ body <> JNull).
  { destruct body; [now left|right; discriminate..]. }
  destruct Hcases as [->|Hnn].
  - cbn. intros [= <-]. unfold typeErrors. cbn. tauto.
  - rewrite (validateMessages_unfold pf body Hnn).
    destruct (Validators.hasPrototypePollution body 0); [discriminate|].
    destruct (Validators.checkMessages pf body) as [em|e0] eqn:Em; cbn [bind];
      [|intros [= <-]; apply checkMessages_throws in Em; subst;
        unfold typeErrors; cbn; tauto].
    destruct (Validators.checkSystem body) as [es|e1] eqn:Es; cbn [bind];
      [|intros [= <-]; apply checkSystem_throws in Es; subst;
        unfold typeErrors; cbn; tauto].
    destruct (Validators.checkTools body) as [et|e2] eqn:Et; cbn [bind];
      [|intros [= <-]; apply checkTools_throws in Et; subst;
        unfold typeErrors; cbn; tauto].
    destruct (Validators.checkThinking body) as [eth|e3] eqn:Eth; cbn [bind];
      [|intros [= <-]; apply checkThinking_throws in Eth; subst;
        unfold typeErrors; cbn; tauto].
    destruct (_ ++ _)%list; discriminate.
Qed.

Lemma tryMessages_throws (pf : Platform) (body : json) (e : string) :
  Messages.tryMessages pf body = Throw e -> In e typeErrors.
Proof.
  unfold Messages.tryMessages.
  destruct (prop "model" (Some body)) as [gwModel|e0] eqn:Ep; cbn [bind].
  - destruct (Messages.isGatewayModel gwModel) as [[|]|e1] eqn:Eg; cbn [bind];
      try discriminate.
    + destruct (Validators.validateMessages pf body) as [[data|errs]|e2] eqn:Ev;
        cbn [bind]; try discriminate.
      intros H. inversion H; subst. now apply validateMessages_throws in Ev.
    + intros H. inversion H; subst. unfold Messages.isGatewayModel in Eg.
      destruct (truthy gwModel); [|discriminate].
      destruct gwModel as [[| | | | |]|]; inversion Eg; cbn; tauto.
  - intros H. inversion H; subst. destruct body; inversion Ep. cbn. tauto.
Qed.

Lemma typeErrors_are_api_errors (e : string) :
  In e typeErrors ->
  Messages.parseError e
  = {| Messages.errorType := "api_error"; Messages.statusCode := 500;
       Messages.errorMessage := e |}.
Proof.
  unfold typeErrors. cbn [In].
  intros [<-|[<-|[<-|[<-|[<-|[<-|[<-|[]]]]]]]]; reflexivity.
Qed.

(** X16.  The [try] block of the messages route ends in one of four
    ways: the body is handed unchanged to the local gateway, its model being
    a gateway model; the answer is 400 [invalid_request_error] with the
    first validation error; the validated request is handed to the Cloud
    Code dispatcher; or a [TypeError] is raised, whose text is one of seven
    and which [parseError] classifies as [api_error] with the status 500
    and the text itself. *)
Theorem try_block_outcomes (pf : Platform) (body : json) :
  match Messages.tryMessages pf body with
  | Ok (Messages.Respond status type message) =>
      status = 400%Z /\ type = "invalid_request_error"
      /\ exists errors,
          Validators.validateMessages pf body = Ok (Validators.Invalid errors)
          /\ message = hd EmptyString errors
  | Ok (Messages.Local forwarded) =>
      forwarded = body /\ Messages.isGatewayModel (get "model" body) = Ok true
  | Ok (Messages.Cloud request) =>
      exists data,
        Validators.validateMessages pf body = Ok (Validators.Valid data)
        /\ request = Messages.buildRequest data
  | Ok (Messages.Unanswered _) => False
  | Throw e =>
      In e typeErrors
      /\ Messages.parseError e
         = {| Messages.errorType := "api_error"; Messages.statusCode := 500;
              Messages.errorMessage := e |}
  end.
Proof.
  destruct (Messages.tryMessages pf body) as [o|e] eqn:Et.
  - unfold Messages.tryMessages in Et.
    assert (Hp : prop "model" (Some body) = Ok (get "model" body)).
    { destruct body; try reflexivity. discriminate. }
    rewrite Hp in Et. cbn [bind] in Et.
    destruct (Messages.isGatewayModel (get "model" body)) as [[|]|] eqn:Eg;
      cbn [bind] in Et; [| |discriminate].
    + inversion Et; subst. split; reflexivity.
    + destruct (Validators.validateMessages pf body) as [[data|errs]|] eqn:Ev;
        cbn [bind] in Et; [| |discriminate]; inversion Et; subst; eauto.
  - pose proof (tryMessages_throws pf body e Et) as Hin.
    split; [exact Hin|now apply typeErrors_are_api_errors].
Qed.

(** The seventh text: the test of a [media_type] that cannot be converted
    to a string. *)
Example try_block_conversion_error :
  Messages.tryMessages examplePlatform unconvertibleMediaTypeBody = Throw conversionError.
Proof. reflexivity. Qed.

(* ================================================================= *)
(** ** The route table *)

Lemma method_eqb_eq (a b : Server.method) : Server.method_eqb a b = true -> a = b.
Proof. destruct a, b; cbn; congruence. Qed.

(** X20.  Each legacy redirect of the modular server keeps the method
    (301 for a GET, 307 for a POST) and points to a path that the server
    hands to a mounted router which has a route for that method and
    path. *)
Theorem legacy_redirects_reach_a_route
  (m : Server.method) (path : string) (code : Z) (location : string) :
  Server.route m path = Server.Moved code location ->
  ((code = 301%Z /\ m = Server.GET) \/ (code = 307%Z /\ m = Server.POST))
  /\ exists mount rest,
      Server.route m location = Server.Router mount rest
      /\ Routers.handles mount m rest = true.
Proof.
  unfold Server.route at 1.
  destruct (Server.method_eqb m Server.GET && Server.same_path "/health" path);
    [discriminate|].
  destruct (match Server.under "/v1" path with
            | Some rest => Server.v1Routers m rest
            | None => None
            end) as [e|] eqn:Ev.
  { unfold Server.v1Routers in Ev. destruct (Server.under "/v1" path); [|discriminate].
    destruct (_ && _) in Ev; [inversion Ev; discriminate|].
    destruct (_ && _) in Ev; [inversion Ev; discriminate|discriminate]. }
  destruct (Server.first_mount _ m path) as [e|] eqn:Ef.
  { unfold Server.first_mount in Ef. cbn [fold_right] in Ef.
    repeat match type of Ef with
           | context [Server.under ?mount ?p] => destruct (Server.under mount p)
           | context [if ?c then _ else _] => destruct c
           end; inversion Ef; discriminate. }
  destruct (Server.method_eqb m Server.GET && Server.same_path "/account-limits" path)
    eqn:E1.
  { apply andb_prop in E1. destruct E1 as [E1 _]. apply method_eqb_eq in E1. subst.
    intros H. inversion H; subst. split; [left; auto|].
    exists "/account", "/account-limits". split; reflexivity. }
  destruct (Server.method_eqb m Server.POST && Server.same_path "/refresh-token" path)
    eqn:E2.
  { apply andb_prop in E2. destruct E2 as [E2 _]. apply method_eqb_eq in E2. subst.
    intros H. inversion H; subst. split; [right; auto|].
    exists "/account", "/refresh-token". split; reflexivity. }
  destruct (Server.method_eqb m Server.GET && Server.same_path "/sessions" path) eqn:E3.
  { apply andb_prop in E3. destruct E3 as [E3 _]. apply method_eqb_eq in E3. subst.
    intros H. inversion H; subst. split; [left; auto|].
    exists "/api/sessions", "/". split; reflexivity. }
  destruct (Server.method_eqb m Server.POST && Server.same_path "/api/launch" path)
    eqn:E4.
  { apply andb_prop in E4. destruct E4 as [E4 _]. apply method_eqb_eq in E4. subst.
    intros H. inversion H; subst. split; [right; auto|].
    exists "/api/launcher", "/launch". split; reflexivity. }
  unfold Server.notFound. discriminate.
Qed.

Lemma legacy_redirects_reach_a_route_witness :
  Server.route Server.POST "/api/launch" = Server.Moved 307 "/api/launcher/launch"
  /\ exists mount rest,
      Server.route Server.POST "/api/launcher/launch" = Server.Router mount rest
      /\ Routers.handles mount Server.POST rest = true.
Proof.
  split; [reflexivity|].
  apply (legacy_redirects_reach_a_route Server.POST "/api/launch" 307
           "/api/launcher/launch" eq_refl).
Defined.

Lemma keys_set_prop_present (k : string) (v : json) (props : list (string * json)) :
  assoc k props <> None -> keys (Validators.set_prop k v props) = keys props.
Proof.
  unfold keys. induction props as [|[k0 v0] r IH]; cbn [assoc Validators.set_prop map fst].
  - intros H. now elim H.
  - destruct (k =? k0) eqn:E; cbn [map fst].
    + apply String.eqb_eq in E. now subst.
    + intros H. now rewrite IH.
Qed.

(** X21.  The model-mapping middleware leaves every property other
    than [model] and the keys of the body unchanged; [model] is either
    unchanged or replaced by the truthy [mapping] that the configuration
    holds for it; a body without a truthy [model] is left as it is.  The
    middleware throws only the [TypeError] of a failed conversion to a
    string, of the model as a property key or of the new model in the log
    line. *)
Theorem model_mapping_rewrites_the_model_only
  (pf : Platform) (modelMapping body : json) :
  match Server.modelMappingMiddleware pf modelMapping body with
  | Ok mapped =>
      (forall k, (k =? "model") = false -> get k mapped = get k body)
      /\ (forall props, body = JObj props ->
            exists props', mapped = JObj props' /\ keys props' = keys props)
      /\ (get "model" mapped = get "model" body
          \/ exists model key target,
              get "model" body = Some model
              /\ truthy (Some model) = true
              /\ toString pf model = Ok key
              /\ get_opt "mapping" (get key modelMapping) = Some target
              /\ truthy (Some target) = true
              /\ get "model" mapped = Some target)
      /\ (truthy (get "model" body) = false -> mapped = body)
  | Throw e =>
      e = conversionError
      /\ exists model,
          get "model" body = Some model
          /\ truthy (Some model) = true
          /\ (convertible model = false
              \/ exists key target,
                  toString pf model = Ok key
                  /\ get_opt "mapping" (get key modelMapping) = Some target
                  /\ truthy (Some target) = true
                  /\ convertible target = false)
  end.
Proof.
  unfold Server.modelMappingMiddleware.
  destruct body as [| | | | |props];
    try (repeat split; auto; intros; discriminate).
  cbn [get].
  destruct (assoc "model" props) as [model|] eqn:Em;
    [|repeat split; auto; intros ? H; inversion H; eauto].
  destruct (truthy (Some model)) eqn:Et;
    [|repeat split; auto; intros ? H; inversion H; eauto].
  destruct (toString pf model) as [key|e] eqn:Ek; cbn [bind].
  2:{ destruct (toString_throws pf model e Ek) as [-> Hc].
      split; [reflexivity|]. exists model. auto. }
  destruct (get_opt "mapping" (get key modelMapping)) as [target|] eqn:Eg;
    [|cbn [truthy]; repeat split; auto; try (intros ? H; inversion H; eauto); discriminate].
  destruct (truthy (Some target)) eqn:Ett;
    [|repeat split; auto; try (intros ? H; inversion H; eauto); discriminate].
  destruct (toString pf target) as [text|e] eqn:Etg; cbn [bind].
  2:{ destruct (toString_throws pf target e Etg) as [-> Hc].
      split; [reflexivity|]. exists model. split; [reflexivity|]. split; [exact Et|].
      right. exists key, target. auto. }
  split; [|split; [|split]].
  - intros k Hk. cbn [get]. apply assoc_set_prop_other. exact Hk.
  - intros ? H. inversion H; subst. eexists. split; [reflexivity|].
    apply keys_set_prop_present. rewrite Em. discriminate.
  - right. exists model, key, target. cbn [get]. rewrite assoc_set_prop_same.
    repeat split; auto.
  - discriminate.
Qed.

(** A request to a mounted router that has no route for it is passed on,
    and reaches the catch-all. *)
Example unknown_account_path_not_found :
  Server.route Server.GET "/account/unknown"
  = Server.NotFound "Endpoint GET /account/unknown not found".
Proof. reflexivity. Qed.

(* ================================================================= *)
(** ** The selection of an account *)

Lemma stickyStep_facts (Account Pool : Type) (am : AccountManager Account Pool)
  (model : string) (w : world Pool) :
  let '(account, w1, e1) := stickyStep am model w in
  now w1 = (now w + slept_total e1)%Z
  /\ (e1 = []
      \/ exists waitMs, (0 < waitMs)%Z
           /\ e1 = [Sleep waitMs; ClearExpiredLimits; GetCurrentStickyAccount]).
Proof.
  unfold stickyStep.
  destruct (pickStickyAccount am model (now w) (pool w)) as [[[a|] waitMs] p1].
  - cbn. split; [lia|now left].
  - destruct (Z.ltb_spec 0 waitMs) as [Hpos|Hle].
    + destruct (getCurrentStickyAccount am model _ _) as [account p4].
      cbn. split; [lia|]. right. eauto.
    + cbn. split; [lia|now left].
Qed.

Lemma allLimitedStep_facts (Account Pool : Type) (am : AccountManager Account Pool)
  (hp : Helpers) (model : string) (fallbackEnabled : bool) (w : world Pool) :
  let '(s, w2, e2) := allLimitedStep am hp model fallbackEnabled w in
  now w2 = (now w + slept_total e2)%Z
  /\ (e2 = []
      \/ exists allWaitMs, (allWaitMs <= 120000)%Z
           /\ e2 = [Sleep allWaitMs; ClearExpiredLimits; PickNext])
  /\ (forall fallbackModel, s = Fallback fallbackModel ->
        fallbackEnabled = true /\ getFallbackModel hp model = Some fallbackModel)
  /\ (forall message, s = Failed message ->
        message = "No accounts available"
        \/ (e2 = [] /\ String.prefix "RESOURCE_EXHAUSTED: Rate limited on " message = true)).
Proof.
  assert (Hno : forall s, s = noAccount (Account := Account) hp model fallbackEnabled ->
              (forall fallbackModel, s = Fallback fallbackModel ->
                 fallbackEnabled = true /\ getFallbackModel hp model = Some fallbackModel)
              /\ (forall message, s = Failed message -> message = "No accounts available")).
  { intros s ->. unfold noAccount. destruct fallbackEnabled.
    - destruct (getFallbackModel hp model) as [fm|]; split; intros ? H; inversion H; auto.
    - split; intros ? H; inversion H; auto. }
  unfold allLimitedStep.
  destruct (isAllRateLimited am model (now w) (pool w)).
  - destruct (Z.ltb_spec MAX_WAIT_BEFORE_ERROR_MS
                (getMinWaitTimeMs am model (now w) (pool w))) as [Hgt|Hle].
    + cbn [slept_total fold_right now]. split; [lia|]. split; [now left|].
      split; [intros ? H; inversion H|].
      intros message H. injection H as <-. right. split; [reflexivity|].
      unfold exhaustedMessage. now destruct model.
    + destruct (pickNext am model _ _) as [[a|] p3].
      * cbn. split; [lia|]. split; [right; eauto|].
        split; intros ? H; inversion H.
      * cbn. split; [lia|]. split; [right; eauto|].
        destruct (Hno _ eq_refl) as [H1 H2]. split; [exact H1|].
        intros message H. left. now apply H2.
  - cbn. split; [lia|]. split; [now left|].
    destruct (Hno _ eq_refl) as [H1 H2]. split; [exact H1|].
    intros message H. left. now apply H2.
Qed.

(** X22.  In one selection of an account the clock advances by the sum
    of the sleeps; the trace is empty, the sticky wait, the wait for the
    reset of at most 120 s, or both in this order; a fallback model is only
    chosen when fallback is enabled and [getFallbackModel] gives it; a
    failure carries [No accounts available] or a text that starts with
    [RESOURCE_EXHAUSTED: Rate limited on ]. *)
Theorem account_selection_facts
  (Account Pool : Type) (am : AccountManager Account Pool) (hp : Helpers)
  (model : string) (fallbackEnabled : bool) (w w' : world Pool)
  (s : selection Account) (effects : list effect) :
  selectAccount am hp model fallbackEnabled w = (s, w', effects) ->
  now w' = (now w + slept_total effects)%Z
  /\ selection_trace effects
  /\ (forall fallbackModel, s = Fallback fallbackModel ->
        fallbackEnabled = true /\ getFallbackModel hp model = Some fallbackModel)
  /\ (forall message, s = Failed message ->
        message = "No accounts available"
        \/ String.prefix "RESOURCE_EXHAUSTED: Rate limited on " message = true).
Proof.
  unfold selectAccount. pose proof (stickyStep_facts _ _ am model w) as Hs.
  destruct (stickyStep am model w) as [[account w1] e1].
  destruct Hs as [Hnow He1].
  destruct account as [a|].
  - intros H. inversion H; subst. split; [exact Hnow|]. split.
    + unfold selection_trace. destruct He1 as [->|[waitMs [Hpos ->]]]; eauto.
    + split; intros ? H'; inversion H'.
  - pose proof (allLimitedStep_facts _ _ am hp model fallbackEnabled w1) as Ha.
    destruct (allLimitedStep am hp model fallbackEnabled w1) as [[s2 w2] e2].
    destruct Ha as [Hnow2 [He2 [Hf Hm]]].
    intros H. inversion H; subst.
    split; [|split; [|split]].
    + destruct He1 as [->|[waitMs [Hpos ->]]];
        destruct He2 as [->|[allWaitMs [Hle ->]]]; cbn in *; lia.
    + unfold selection_trace.
      destruct He1 as [->|[waitMs [Hpos ->]]];
        destruct He2 as [->|[allWaitMs [Hle ->]]]; cbn [List.app]; eauto 8.
    + exact Hf.
    + intros message Hmsg. destruct (Hm message Hmsg) as [->|[_ Hp]]; auto.
Qed.

Lemma account_selection_facts_witness :
  selectAccount simpleManager exampleHelpers "claude-3-5-sonnet" false bothLimited
  = (Selected ("b@example.com", 0%Z),
     {| pool := [("a@example.com", 1800000%Z); ("b@example.com", 0%Z)]; now := 10000%Z |},
     [Sleep 10000; ClearExpiredLimits; PickNext])
  /\ now {| pool := [("a@example.com", 1800000%Z); ("b@example.com", 0%Z)];
            now := 10000%Z |}
     = (now bothLimited + slept_total [Sleep 10000; ClearExpiredLimits; PickNext])%Z
  /\ selection_trace [Sleep 10000; ClearExpiredLimits; PickNext].
Proof.
  split; [reflexivity|].
  destruct (account_selection_facts _ _ simpleManager exampleHelpers "claude-3-5-sonnet"
              false bothLimited _ (Selected ("b@example.com", 0%Z)) _ eq_refl)
    as [H1 [H2 _]].
  split; [exact H1|exact H2].
Defined.

(* ================================================================= *)
(** ** The budget of the retry loop *)

Lemma retryLoop_budget (fetch : request -> nat -> fetched) (randomHex : string)
  (model : option json) (req : request) :
  forall fuel emptyRetries r,
    (emptyRetries <= MAX_EMPTY_RESPONSE_RETRIES)%nat ->
    (MAX_EMPTY_RESPONSE_RETRIES < fuel + emptyRetries)%nat ->
    let out := retryLoop fetch randomHex model req fuel emptyRetries r in
    Forall (fun ms => ms = 1000%Z) (slept out)
    /\ (List.length (slept out) <= List.length (refetched out))%nat
    /\ (exists rest, yielded out = (events r ++ rest)%list).
Proof.
  unfold MAX_EMPTY_RESPONSE_RETRIES.
  induction fuel as [|fuel IH]; intros e r He Hf; [lia|].
  cbn [retryLoop]. unfold MAX_EMPTY_RESPONSE_RETRIES.
  destruct (Nat.leb_spec e 3) as [_|Hgt]; [|lia].
  destruct (ends r) as [| |message].
  - cbn. rewrite app_nil_r. repeat split; auto. exists []. now rewrite app_nil_r.
  - destruct (Nat.ltb_spec e 3) as [Hlt|Hge].
    + assert (Hrec : forall r',
                 let out := retryLoop fetch randomHex model req fuel (S e) r' in
                 Forall (fun ms => ms = 1000%Z) (slept out)
                 /\ (List.length (slept out) <= List.length (refetched out))%nat).
      { intros r'. destruct (IH (S e) r') as [H1 [H2 _]]; [lia|lia|]. auto. }
      destruct (fetch req e) as [msg|r'];
        [cbn; repeat split; auto; try lia; try discriminate; eauto|].
      destruct (negb (ok r')).
      * destruct (status r' =? 429)%Z;
          [cbn; repeat split; auto; try lia; try discriminate; eauto|].
        destruct (status r' =? 401)%Z;
          [cbn; repeat split; auto; try lia; try discriminate; eauto|].
        destruct (500 <=? status r')%Z;
          [|cbn; repeat split; auto; try lia; try discriminate; eauto].
        destruct (Hrec r') as [H1 H2]. cbn.
        repeat split; auto; try lia; try discriminate; eauto.
      * destruct (Hrec r') as [H1 H2]. cbn.
        repeat split; auto; try lia; try discriminate; eauto.
    + cbn. repeat split; auto; eauto.
  - cbn. rewrite app_nil_r. repeat split; auto; eauto.
    exists []. now rewrite app_nil_r.
Qed.

(** X23.  Streaming a first response with retries always ends, by a
    return or by an exception; it sends at most three re-fetches, all of the
    same request; it sleeps one second at a time and at most once per
    re-fetch; the events of the first response come first in what the
    client receives; and a first stream that does not end as an empty
    response is neither re-fetched nor followed by a sleep. *)
Theorem retries_are_bounded_and_paced
  (fetch : request -> nat -> fetched) (randomHex : string) (model : option json)
  (req : request) (first : response) :
  let out := streamWithRetries fetch randomHex model req first in
  (finished out = Returned \/ exists message, finished out = Thrown message)
  /\ (List.length (slept out) <= List.length (refetched out) <= 3)%nat
  /\ Forall (fun q => q = req) (refetched out)
  /\ Forall (fun ms => ms = 1000%Z) (slept out)
  /\ (exists rest, yielded out = (events first ++ rest)%list)
  /\ (ends first <> EmptyResponse ->
      refetched out = [] /\ slept out = []
      /\ (ends first = Completed -> finished out = Returned /\ yielded out = events first)).
Proof.
  unfold streamWithRetries.
  destruct (retryLoop_bounded fetch randomHex model req (S MAX_EMPTY_RESPONSE_RETRIES) 0
              first) as [H1 [H2 [H3 H4]]];
    [unfold MAX_EMPTY_RESPONSE_RETRIES; lia..|].
  destruct (retryLoop_budget fetch randomHex model req (S MAX_EMPTY_RESPONSE_RETRIES) 0
              first) as [H5 [H6 H7]];
    [unfold MAX_EMPTY_RESPONSE_RETRIES; lia..|].
  cbn zeta. unfold MAX_EMPTY_RESPONSE_RETRIES in *.
  split; [|split; [|split; [|split; [|split]]]]; auto.
  - destruct (finished (retryLoop fetch randomHex model req 4 0 first)) eqn:E; eauto;
      now elim H1 + now elim H2.
  - lia.
  - intros Hne. cbn [retryLoop]. unfold MAX_EMPTY_RESPONSE_RETRIES. cbn [Nat.leb].
    destruct (ends first); [| now elim Hne |]; cbn; rewrite ?app_nil_r; repeat split; auto;
      discriminate.
Qed.


(* ================================================================= *)
(** ** The quota error of the dispatcher, as the route reports it *)

Lemma prefix_nil (s : string) : String.prefix EmptyString s = true.
Proof. now destruct s. Qed.

Lemma take_while_app_stop (p : ascii -> bool) (s : string) (c : ascii) (r : string) :
  p c = false ->
  Messages.take_while p (s ++ String c r) = Messages.take_while p s.
Proof.
  intros Hc. induction s as [|x t IH]; cbn [append Messages.take_while].
  - now rewrite Hc.
  - destruct (p x); [now rewrite IH|reflexivity].
Qed.

Lemma take_while_all (p : ascii -> bool) (s : string) :
  all_chars p s = true -> Messages.take_while p s = s.
Proof.
  induction s as [|x t IH]; [reflexivity|]. cbn [all_chars Messages.take_while].
  intros H. apply andb_prop in H. destruct H as [Hx Ht]. rewrite Hx. now rewrite IH.
Qed.

Lemma capture_skip (ci : bool) (literal : string) (skip : ascii -> bool)
  (opening : string) (class : ascii -> bool) (tail : string) (c : ascii) (s : string) :
  Messages.capture_here ci literal skip opening class tail (String c s) = None ->
  Messages.capture ci literal skip opening class tail (String c s)
  = Messages.capture ci literal skip opening class tail s.
Proof. intros H. cbn [Messages.capture]. now rewrite H. Qed.

Lemma capture_found (ci : bool) (literal : string) (skip : ascii -> bool)
  (opening : string) (class : ascii -> bool) (tail : string) (s cap : string) :
  Messages.capture_here ci literal skip opening class tail s = Some cap ->
  Messages.capture ci literal skip opening class tail s = Some cap.
Proof. intros H. destruct s; cbn [Messages.capture]; now rewrite H. Qed.

Lemma lower_char_space (c : ascii) :
  lower_char c = " "%char -> Messages.char_is 32 c = true.
Proof. destruct c as [[] [] [] [] [] [] [] []]; cbn; intros H; try reflexivity; discriminate. Qed.

Lemma no_reset_in_model (s rest : string) :
  no_space s = true ->
  s <> EmptyString ->
  Messages.capture_here true "quota will reset after " Messages.no_char EmptyString
    Messages.is_duration_char EmptyString (s ++ String "."%char rest) = None.
Proof.
  intros Hs Hne. unfold Messages.capture_here.
  assert (Hp : String.prefix "quota will reset after "
                 (toLowerCase (s ++ String "."%char rest)) = false);
    [|now rewrite Hp].
  unfold no_space in Hs.
  destruct s as [|c1 [|c2 [|c3 [|c4 [|c5 [|c6 r]]]]]]; [now elim Hne|..];
    cbn [append toLowerCase String.prefix];
    repeat match goal with
           | |- context [ascii_dec ?a ?b] =>
               destruct (ascii_dec a b) as [?E|?E]; [|reflexivity]
           end;
    try reflexivity;
    try match goal with
        | E : _ = lower_char "."%char |- _ => vm_compute in E; discriminate E
        end.
  cbn [all_chars] in Hs.
  repeat (apply andb_prop in Hs; destruct Hs as [? Hs]).
  match goal with
  | E : " "%char = lower_char c6 |- _ =>
      symmetry in E; apply lower_char_space in E
  end.
  match goal with
  | H : negb (Messages.char_is 32 c6) = true, E' : Messages.char_is 32 c6 = true |- _ =>
      rewrite E' in H; discriminate H
  end.
Qed.

Lemma capture_through_model (s rest : string) :
  no_space s = true ->
  Messages.capture true "quota will reset after " Messages.no_char EmptyString
    Messages.is_duration_char EmptyString (s ++ String "."%char rest)
  = Messages.capture true "quota will reset after " Messages.no_char EmptyString
      Messages.is_duration_char EmptyString (String "."%char rest).
Proof.
  induction s as [|c r IH]; intros Hs; [reflexivity|].
  change (String c r ++ String "."%char rest) with (String c (r ++ String "."%char rest)).
  rewrite capture_skip.
  - apply IH. unfold no_space in *. cbn [all_chars] in Hs.
    apply andb_prop in Hs. now destruct Hs.
  - apply (no_reset_in_model (String c r) rest Hs). discriminate.
Qed.

Lemma prefix_app (a b : string) : String.prefix a (a ++ b) = true.
Proof.
  induction a as [|x t IH]; [apply prefix_nil|].
  cbn [append String.prefix]. now destruct (ascii_dec x x).
Qed.

Lemma toLowerCase_app (a b : string) :
  toLowerCase (a ++ b) = toLowerCase a ++ toLowerCase b.
Proof. induction a as [|x t IH]; [reflexivity|]. cbn. now rewrite IH. Qed.

Lemma toLowerCase_length (a : string) : String.length (toLowerCase a) = String.length a.
Proof. induction a as [|x t IH]; [reflexivity|]. cbn. now rewrite IH. Qed.

Lemma drop_app (a b : string) : drop (String.length a) (a ++ b) = b.
Proof. induction a as [|x t IH]; [now destruct b|]. cbn. exact IH. Qed.

Lemma drop_while_no_char (s : string) : Messages.drop_while Messages.no_char s = s.
Proof. now destruct s. Qed.

Lemma capture_here_match (ci : bool) (literal written : string) (class : ascii -> bool)
  (tail body : string) :
  (if ci then toLowerCase written else written) = literal ->
  Messages.take_while class body <> EmptyString ->
  String.prefix tail (drop (String.length (Messages.take_while class body)) body) = true ->
  Messages.capture_here ci literal Messages.no_char EmptyString class tail
    (written ++ body)
  = Some (Messages.take_while class body).
Proof.
  intros Hlit Hne Htail. unfold Messages.capture_here.
  assert (Hp : String.prefix literal
                 (if ci then toLowerCase (written ++ body) else written ++ body) = true).
  { destruct ci; subst literal; [rewrite toLowerCase_app|]; apply prefix_app. }
  assert (Hlen : String.length literal = String.length written).
  { destruct ci; subst literal; [apply toLowerCase_length|reflexivity]. }
  rewrite Hp, Hlen, drop_app, drop_while_no_char, prefix_nil.
  change (drop (String.length EmptyString) body) with body.
  rewrite Htail.
  apply String.eqb_neq in Hne. now rewrite Hne.
Qed.

Lemma char_is_eq (n : nat) (c : ascii) :
  Messages.char_is n c = true -> c = ascii_of_nat n.
Proof.
  unfold Messages.char_is. intros H. apply Nat.eqb_eq in H. subst.
  now rewrite ascii_nat_embedding.
Qed.

Lemma drop_reported (s r : string) :
  exists t,
    drop (String.length (reportedModel s)) (s ++ String "."%char r) = String "."%char t.
Proof.
  unfold reportedModel. induction s as [|x t IH]; [now exists r|].
  cbn [append Messages.take_while].
  destruct (Messages.char_is 46 x) eqn:Hx; cbn [negb].
  - apply char_is_eq in Hx. subst x. cbn. eauto.
  - cbn [String.length drop]. exact IH.
Qed.

Lemma resetMatch_exhausted (hp : Helpers) (model : string) (allWaitMs at_ : Z) :
  no_space model = true ->
  duration_text (formatDuration hp allWaitMs) ->
  Messages.resetMatch (exhaustedMessage hp model allWaitMs at_)
  = Some (formatDuration hp allWaitMs).
Proof.
  intros Hm [Hne Hd]. unfold Messages.resetMatch, exhaustedMessage.
  set (dur := formatDuration hp allWaitMs) in *.
  set (iso := toISOString hp (at_ + allWaitMs)).
  change ("RESOURCE_EXHAUSTED: Rate limited on "
          ++ model ++ ". Quota will reset after " ++ dur ++ ". Next available: " ++ iso)
    with ("RESOURCE_EXHAUSTED: Rate limited on "
          ++ (model ++ String "."%char
                (" " ++ ("Quota will reset after "
                         ++ (dur ++ String "."%char (" Next available: " ++ iso)))))).
  cbn [append].
  do 36 (rewrite capture_skip by reflexivity).
  rewrite capture_through_model by exact Hm.
  do 2 (rewrite capture_skip by reflexivity).
  apply capture_found.
  set (body := dur ++ String "."%char (" Next available: " ++ iso)).
  assert (Hcap : Messages.take_while Messages.is_duration_char body = dur).
  { unfold body. rewrite take_while_app_stop by reflexivity. now apply take_while_all. }
  pose proof (capture_here_match true "quota will reset after " "Quota will reset after "
                Messages.is_duration_char EmptyString body eq_refl) as H.
  rewrite Hcap in H. apply H; [exact Hne|].
  unfold body. rewrite drop_app. reflexivity.
Qed.

Lemma modelMatch_exhausted (hp : Helpers) (model : string) (allWaitMs at_ : Z) :
  reportedModel model <> EmptyString ->
  Messages.modelMatch (exhaustedMessage hp model allWaitMs at_)
  = Some (reportedModel model).
Proof.
  intros Hne. unfold Messages.modelMatch, exhaustedMessage.
  set (rest := " Quota will reset after " ++ formatDuration hp allWaitMs
               ++ ". Next available: " ++ toISOString hp (at_ + allWaitMs)).
  change ("RESOURCE_EXHAUSTED: Rate limited on "
          ++ model ++ ". Quota will reset after " ++ formatDuration hp allWaitMs
          ++ ". Next available: " ++ toISOString hp (at_ + allWaitMs))
    with ("RESOURCE_EXHAUSTED: " ++ ("Rate limited on " ++ (model ++ String "."%char rest))).
  set (body := model ++ String "."%char rest).
  assert (Hfound :
            Messages.capture false "Rate limited on " Messages.no_char EmptyString
              (fun c => negb (Messages.char_is 46 c)) "."
              ("RESOURCE_EXHAUSTED: " ++ ("Rate limited on " ++ body))
            = Some (reportedModel model));
    [|now rewrite Hfound].
  cbn [append].
  do 20 (rewrite capture_skip by reflexivity).
  apply capture_found.
  assert (Hcap : Messages.take_while (fun c => negb (Messages.char_is 46 c)) body
                 = reportedModel model).
  { unfold body. now rewrite take_while_app_stop by reflexivity. }
  pose proof (capture_here_match false "Rate limited on " "Rate limited on "
                (fun c => negb (Messages.char_is 46 c)) "." body eq_refl) as H.
  rewrite Hcap in H. apply H; [exact Hne|].
  unfold body. destruct (drop_reported model rest) as [t ->].
  cbn. apply prefix_nil.
Qed.

(** X19.  The error that the dispatcher raises when every account is
    limited for too long, read by [parseError] of the route: when its text
    holds neither [401] nor [UNAUTHENTICATED], the answer is 400
    [invalid_request_error] and its message names the delay printed by
    [formatDuration] and the model up to its first period (so
    [gemini-3.0-flash] is reported as [gemini-3]). *)
Theorem exhausted_error_names_model_and_delay
  (hp : Helpers) (model : string) (allWaitMs at_ : Z) :
  no_space model = true ->
  reportedModel model <> EmptyString ->
  duration_text (formatDuration hp allWaitMs) ->
  includes "401" (exhaustedMessage hp model allWaitMs at_) = false ->
  includes "UNAUTHENTICATED" (exhaustedMessage hp model allWaitMs at_) = false ->
  Messages.parseError (exhaustedMessage hp model allWaitMs at_)
  = {| Messages.errorType := "invalid_request_error";
       Messages.statusCode := 400;
       Messages.errorMessage :=
         "You have exhausted your capacity on " ++ reportedModel model
         ++ ". Quota will reset after " ++ formatDuration hp allWaitMs ++ "." |}.
Proof.
  intros Hs Hm Hd H401 Hun. unfold Messages.parseError.
  rewrite H401, Hun. cbn [orb].
  assert (Hre : includes "RESOURCE_EXHAUSTED" (exhaustedMessage hp model allWaitMs at_)
                = true) by reflexivity.
  rewrite Hre, orb_true_r. cbn [orb].
  now rewrite (modelMatch_exhausted hp model allWaitMs at_ Hm),
    (resetMatch_exhausted hp model allWaitMs at_ Hs Hd).
Qed.

Lemma exhausted_error_names_model_and_delay_witness :
  exhaustedMessage quietHelpers "gemini-3.0-flash" 121000 0
  = "RESOURCE_EXHAUSTED: Rate limited on gemini-3.0-flash. Quota will reset after 2m1s. Next available: 2026-02-06T12:00:00.000Z"
  /\ Messages.parseError (exhaustedMessage quietHelpers "gemini-3.0-flash" 121000 0)
     = {| Messages.errorType := "invalid_request_error";
          Messages.statusCode := 400;
          Messages.errorMessage :=
            "You have exhausted your capacity on gemini-3. Quota will reset after 2m1s." |}.
Proof.
  split; [reflexivity|].
  apply (exhausted_error_names_model_and_delay quietHelpers "gemini-3.0-flash" 121000 0);
    try reflexivity; try discriminate.
  split; [discriminate|reflexivity].
Defined.

(* ================================================================= *)
(** ** The session store *)

Lemma lookup_In (key : Z) (l : list (Z * SessionManager.session)) (s : SessionManager.session) :
  SessionManager.lookup key l = Some s -> In (key, s) l.
Proof.
  induction l as [|[k t] r IH]; [discriminate|]. cbn [SessionManager.lookup].
  destruct (Z.eqb_spec key k) as [->|Hne].
  - intros H. inversion H. now left.
  - intros H. right. now apply IH.
Qed.

Lemma lookup_None (key : Z) (l : list (Z * SessionManager.session)) :
  SessionManager.lookup key l = None <-> ~ In key (map fst l).
Proof.
  induction l as [|[k t] r IH]; cbn [SessionManager.lookup map fst In]; [tauto|].
  destruct (Z.eqb_spec key k) as [->|Hne].
  - split; [discriminate|]. intros H. elim H. now left.
  - rewrite IH. split; [intros H [E|E]; [now subst|auto]|tauto].
Qed.

Lemma set_present (key : Z) (s : SessionManager.session) (l : list (Z * SessionManager.session)) :
  In key (map fst l) -> map fst (SessionManager.set key s l) = map fst l.
Proof.
  induction l as [|[k t] r IH]; cbn [SessionManager.set map fst In]; [tauto|].
  destruct (Z.eqb_spec key k) as [->|Hne]; [reflexivity|].
  intros [E|E]; [now subst|]. cbn [map fst]. now rewrite IH.
Qed.

Lemma set_absent (key : Z) (s : SessionManager.session) (l : list (Z * SessionManager.session)) :
  ~ In key (map fst l) -> SessionManager.set key s l = (l ++ [(key, s)])%list.
Proof.
  induction l as [|[k t] r IH]; cbn [SessionManager.set map fst In]; [reflexivity|].
  destruct (Z.eqb_spec key k) as [->|Hne]; [tauto|].
  intros H. cbn [List.app]. rewrite IH; tauto.
Qed.

Lemma set_In (key : Z) (s : SessionManager.session) (l : list (Z * SessionManager.session))
  (kv : Z * SessionManager.session) :
  In kv (SessionManager.set key s l) -> kv = (key, s) \/ In kv l.
Proof.
  induction l as [|[k t] r IH]; cbn [SessionManager.set In].
  - intros [H|[]]. now left.
  - destruct (Z.eqb_spec key k) as [->|Hne]; cbn [In]; intuition.
Qed.

Lemma remove_incl (key : Z) (l : list (Z * SessionManager.session)) :
  incl (SessionManager.remove key l) l.
Proof.
  induction l as [|[k t] r IH]; cbn [SessionManager.remove]; [apply incl_refl|].
  destruct (key =? k)%Z; [now apply incl_tl|].
  apply incl_cons; [now left|]. now apply incl_tl.
Qed.

Lemma remove_NoDup (key : Z) (l : list (Z * SessionManager.session)) :
  NoDup (map fst l) -> NoDup (map fst (SessionManager.remove key l)).
Proof.
  induction l as [|[k t] r IH]; cbn [SessionManager.remove map fst]; [auto|].
  intros H. inversion H as [|? ? Hn Hr]; subst.
  destruct (key =? k)%Z; [exact Hr|]. cbn [map fst]. constructor; [|now apply IH].
  intros Hin. apply Hn. apply in_map_iff in Hin. destruct Hin as [kv [E Hkv]].
  apply in_map_iff. exists kv. split; [exact E|]. now apply (remove_incl key r).
Qed.

Lemma filter_NoDup (p : Z * SessionManager.session -> bool)
  (l : list (Z * SessionManager.session)) :
  NoDup (map fst l) -> NoDup (map fst (filter p l)).
Proof.
  induction l as [|kv r IH]; cbn [filter map fst]; [auto|].
  intros H. inversion H as [|? ? Hn Hr]; subst.
  destruct (p kv); [|now apply IH]. cbn [map fst]. constructor; [|now apply IH].
  intros Hin. apply Hn. apply in_map_iff in Hin. destruct Hin as [kv' [E Hkv]].
  apply in_map_iff. exists kv'. split; [exact E|]. now apply filter_In in Hkv.
Qed.


Lemma lastTen_length (l : list SessionManager.sessionError) :
  (List.length (SessionManager.lastTen l) <= 10)%nat.
Proof.
  unfold SessionManager.lastTen.
  destruct (Nat.ltb_spec 10 (List.length l)); [rewrite length_skipn|]; lia.
Qed.

Lemma update_consistent (key : Z) (f : SessionManager.session -> SessionManager.session)
  (st : SessionManager.store) :
  (forall s, SessionManager.id (f s) = SessionManager.id s) ->
  (forall s, (List.length (SessionManager.errors s) <= 10)%nat ->
             (List.length (SessionManager.errors (f s)) <= 10)%nat) ->
  consistent st -> consistent (snd (SessionManager.update key f st)).
Proof.
  intros Hid Herr [Hc [Hnd Hall]]. unfold SessionManager.update.
  destruct (SessionManager.lookup key (SessionManager.sessions st)) as [s|] eqn:El;
    [|now repeat split].
  apply lookup_In in El. cbn [snd]. unfold consistent.
  cbn [SessionManager.sessions SessionManager.sessionIdCounter].
  assert (Hin : In key (map fst (SessionManager.sessions st))).
  { apply in_map_iff. now exists (key, s). }
  rewrite Forall_forall in Hall.
  split; [exact Hc|]. split; [now rewrite set_present|].
  rewrite Forall_forall. intros kv Hkv. apply set_In in Hkv. destruct Hkv as [->|Hkv].
  - destruct (Hall _ El) as [H1 [H2 H3]]. cbn [fst snd] in *.
    rewrite Hid. repeat split; auto; lia.
  - now apply Hall.
Qed.

Lemma createSession_consistent (given : option JS.json) (now : Z) (st : SessionManager.store) :
  consistent st -> consistent (snd (SessionManager.createSession given now st)).
Proof.
  intros [Hc [Hnd Hall]]. unfold SessionManager.createSession, consistent.
  cbn [snd SessionManager.sessions SessionManager.sessionIdCounter].
  rewrite Forall_forall in Hall.
  assert (Hfresh : ~ In (SessionManager.sessionIdCounter st)
                     (map fst (SessionManager.sessions st))).
  { intros Hin. apply in_map_iff in Hin. destruct Hin as [kv [E Hkv]].
    destruct (Hall _ Hkv) as [_ [H _]]. lia. }
  rewrite set_absent by exact Hfresh.
  split; [lia|]. split.
  - rewrite map_app. apply NoDup_app; [exact Hnd|repeat constructor; intros []|].
    intros a Ha [<-|[]]. now apply Hfresh.
  - rewrite Forall_forall. intros kv Hkv. apply in_app_or in Hkv.
    destruct Hkv as [Hkv|[<-|[]]].
    + destruct (Hall _ Hkv) as [H1 [H2 H3]]. repeat split; auto; lia.
    + cbn. repeat split; lia.
Qed.

Lemma sublist_consistent (st : SessionManager.store) (l : list (Z * SessionManager.session)) :
  consistent st ->
  NoDup (map fst l) -> incl l (SessionManager.sessions st) ->
  consistent {| SessionManager.sessions := l;
                SessionManager.sessionIdCounter := SessionManager.sessionIdCounter st |}.
Proof.
  intros [Hc [_ Hall]] Hnd Hincl. unfold consistent.
  cbn [SessionManager.sessions SessionManager.sessionIdCounter].
  split; [exact Hc|]. split; [exact Hnd|].
  rewrite Forall_forall in *. intros kv Hkv. apply Hall. now apply Hincl.
Qed.

Lemma run_consistent (st : SessionManager.store) (c : SessionManager.call) :
  consistent st -> consistent (SessionManager.run st c).
Proof.
  intros H. destruct c; cbn [SessionManager.run].
  - now apply createSession_consistent.
  - apply update_consistent; auto.
  - apply update_consistent; auto.
  - apply update_consistent; auto. intros s _. cbn. apply lastTen_length.
  - apply update_consistent; auto.
  - unfold SessionManager.deleteSession.
    destruct (SessionManager.lookup key (SessionManager.sessions st)); [|exact H].
    cbn [snd]. apply sublist_consistent; [exact H| |apply remove_incl].
    apply remove_NoDup. now destruct H as [_ [Hnd _]].
  - unfold SessionManager.cleanupIdleSessions. cbn [snd].
    apply sublist_consistent; [exact H| |apply incl_filter].
    apply filter_NoDup. now destruct H as [_ [Hnd _]].
  - unfold SessionManager.checkIdleSessions.
    generalize (SessionManager.sessions st) at 1. intros l. revert st H.
    induction l as [|kv r IH]; intros st H; [exact H|].
    cbn [fold_left]. apply IH.
    destruct (_ && _); [|exact H]. apply update_consistent; auto.
  - unfold SessionManager.detectOrCreateSession.
    match goal with |- context [match ?found with Some s => (s, st) | None => _ end] =>
      destruct found
    end; [exact H|]. now apply createSession_consistent.
Qed.

Lemma runAll_consistent (calls : list SessionManager.call) :
  consistent (SessionManager.runAll calls).
Proof.
  unfold SessionManager.runAll.
  assert (H : consistent SessionManager.initial).
  { repeat split; [cbn; lia|constructor|constructor]. }
  revert H. generalize SessionManager.initial.
  induction calls as [|c r IH]; intros st H; [exact H|].
  cbn [fold_left]. apply IH. now apply run_consistent.
Qed.



Lemma insertByActivity_perm (s : SessionManager.session) (l : list SessionManager.session) :
  Permutation (SessionManager.insertByActivity s l) (s :: l).
Proof.
  induction l as [|t r IH]; cbn [SessionManager.insertByActivity]; [reflexivity|].
  destruct (_ <? _)%Z; [|reflexivity].
  rewrite IH. apply perm_swap.
Qed.

Lemma insertByActivity_sorted (s : SessionManager.session) (l : list SessionManager.session) :
  StronglySorted recent_first l ->
  StronglySorted recent_first (SessionManager.insertByActivity s l).
Proof.
  induction 1 as [|t r Hr IH Ht]; cbn [SessionManager.insertByActivity].
  - repeat constructor.
  - destruct (Z.ltb_spec (SessionManager.lastActivity s) (SessionManager.lastActivity t))
      as [Hlt|Hge].
    + constructor; [exact IH|].
      rewrite Forall_forall in *. intros x Hx.
      apply (Permutation_in _ (insertByActivity_perm s r)) in Hx.
      destruct Hx as [<-|Hx]; [unfold recent_first; lia|now apply Ht].
    + constructor; [now constructor|].
      constructor; [exact Hge|].
      rewrite Forall_forall in *. intros x Hx. specialize (Ht x Hx).
      unfold recent_first in *. lia.
Qed.

Lemma getAllSessions_perm (st : SessionManager.store) :
  Permutation (SessionManager.getAllSessions st) (map snd (SessionManager.sessions st)).
Proof.
  unfold SessionManager.getAllSessions.
  induction (map snd (SessionManager.sessions st)) as [|s r IH]; [reflexivity|].
  cbn [fold_right]. rewrite insertByActivity_perm. now constructor.
Qed.

Lemma count_partition (l : list SessionManager.session) :
  (SessionManager.count SessionManager.StatusActive l
   + SessionManager.count SessionManager.StatusIdle l
   + SessionManager.count SessionManager.StatusError l)%Z
  = Z.of_nat (List.length l).
Proof.
  unfold SessionManager.count. induction l as [|s r IH]; [reflexivity|].
  cbn [filter List.length].
  destruct (SessionManager.status s); cbn [SessionManager.status_eqb List.length]; lia.
Qed.

Lemma fold_left_sum (l : list SessionManager.session) (acc : Z) :
  fold_left (fun sum s => (sum + SessionManager.requestCount s)%Z) l acc
  = (acc + fold_right (fun s sum => (SessionManager.requestCount s + sum)%Z) 0%Z l)%Z.
Proof.
  revert acc. induction l as [|s r IH]; intros acc; cbn [fold_left fold_right]; [lia|].
  rewrite IH. lia.
Qed.

Lemma sum_perm (l l' : list SessionManager.session) :
  Permutation l l' ->
  fold_right (fun s sum => (SessionManager.requestCount s + sum)%Z) 0%Z l
  = fold_right (fun s sum => (SessionManager.requestCount s + sum)%Z) 0%Z l'.
Proof. induction 1; cbn [fold_right]; lia. Qed.

(** X25.  [getAllSessions] lists every stored session once, the most
    recently active first; in [getSessionStats], [total] is the number of
    stored sessions, [active], [idle] and [error] add up to [total], and
    [totalRequests] is the sum of the request counts. *)
Theorem sessions_listing (st : SessionManager.store) :
  let listed := SessionManager.getAllSessions st in
  let stats := SessionManager.getSessionStats st in
  Permutation listed (map snd (SessionManager.sessions st))
  /\ StronglySorted recent_first listed
  /\ SessionManager.total stats = Z.of_nat (List.length (SessionManager.sessions st))
  /\ (SessionManager.active stats + SessionManager.idle stats + SessionManager.error stats
      = SessionManager.total stats)%Z
  /\ SessionManager.totalRequests stats
     = fold_right (fun kv sum => (SessionManager.requestCount (snd kv) + sum)%Z) 0%Z
         (SessionManager.sessions st).
Proof.
  cbn zeta. pose proof (getAllSessions_perm st) as Hp.
  split; [exact Hp|]. split; [|split; [|split]].
  - clear Hp. unfold SessionManager.getAllSessions.
    induction (map snd (SessionManager.sessions st)) as [|s r IH]; [constructor|].
    cbn [fold_right]. now apply insertByActivity_sorted.
  - cbn [SessionManager.getSessionStats SessionManager.total].
    now rewrite (Permutation_length Hp), length_map.
  - cbn [SessionManager.getSessionStats SessionManager.total SessionManager.active
           SessionManager.idle SessionManager.error].
    apply count_partition.
  - cbn [SessionManager.getSessionStats SessionManager.totalRequests].
    rewrite fold_left_sum, (sum_perm _ _ Hp). cbn [Z.add]. clear Hp.
    induction (SessionManager.sessions st) as [|kv r IH]; [reflexivity|].
    cbn [map fold_right]. now rewrite IH.
Qed.

Lemma lookup_filter (q : SessionManager.session -> bool) (key : Z)
  (l : list (Z * SessionManager.session)) :
  NoDup (map fst l) ->
  SessionManager.lookup key (filter (fun kv => q (snd kv)) l)
  = match SessionManager.lookup key l with
    | Some s => if q s then Some s else None
    | None => None
    end.
Proof.
  induction l as [|[k s] r IH]; [reflexivity|]. cbn [map fst filter snd].
  intros H. inversion H as [|? ? Hn Hr]; subst.
  cbn [SessionManager.lookup]. destruct (Z.eqb_spec key k) as [->|Hne].
  - destruct (q s); cbn [SessionManager.lookup]; [now rewrite Z.eqb_refl|].
    rewrite (IH Hr). apply lookup_None in Hn. now rewrite Hn.
  - destruct (q s); cbn [SessionManager.lookup]; [|now apply IH].
    destruct (Z.eqb_spec key k); [contradiction|now apply IH].
Qed.

Lemma filter_split_length {A} (p : A -> bool) (l : list A) :
  (List.length (filter p l) + List.length (filter (fun x => negb (p x)) l))%nat
  = List.length l.
Proof.
  induction l as [|x r IH]; [reflexivity|]. cbn [filter].
  destruct (p x); cbn [negb List.length]; lia.
Qed.

(** X26.  [cleanupIdleSessions] removes exactly the sessions that are
    idle and whose last activity is more than one hour old, keeps every
    other session unchanged, returns the number of sessions removed and
    leaves the counter of ids as it is. *)
Theorem cleanup_removes_idle_sessions_of_the_past_hour
  (calls : list SessionManager.call) (now : Z) :
  let st := SessionManager.runAll calls in
  let cleaned := fst (SessionManager.cleanupIdleSessions now st) in
  let st' := snd (SessionManager.cleanupIdleSessions now st) in
  (forall key,
     SessionManager.getSession key st'
     = match SessionManager.getSession key st with
       | Some s => if SessionManager.stale now s then None else Some s
       | None => None
       end)
  /\ (forall s, SessionManager.stale now s = true
                <-> SessionManager.status s = SessionManager.StatusIdle
                    /\ (SessionManager.lastActivity s + 3600000 < now)%Z)
  /\ (cleaned + Z.of_nat (List.length (SessionManager.sessions st'))
      = Z.of_nat (List.length (SessionManager.sessions st)))%Z
  /\ SessionManager.sessionIdCounter st' = SessionManager.sessionIdCounter st.
Proof.
  cbn zeta. pose proof (runAll_consistent calls) as [_ [Hnd _]].
  set (st := SessionManager.runAll calls) in *.
  unfold SessionManager.cleanupIdleSessions, SessionManager.getSession.
  cbn [fst snd SessionManager.sessions SessionManager.sessionIdCounter].
  split; [|split; [|split]].
  - intros key.
    rewrite (lookup_filter (fun s => negb (SessionManager.stale now s)) key _ Hnd).
    destruct (SessionManager.lookup key (SessionManager.sessions st)) as [s|];
      [|reflexivity].
    now destruct (SessionManager.stale now s).
  - intros s. unfold SessionManager.stale. rewrite andb_true_iff, Z.ltb_lt.
    destruct (SessionManager.status s); cbn [SessionManager.status_eqb];
      intuition (try discriminate; lia).
  - rewrite <- (filter_split_length (fun kv => SessionManager.stale now (snd kv))
                  (SessionManager.sessions st)). lia.
  - reflexivity.
Qed.

Lemma lookup_set_same (key : Z) (s : SessionManager.session)
  (l : list (Z * SessionManager.session)) :
  SessionManager.lookup key (SessionManager.set key s l) = Some s.
Proof.
  induction l as [|[k t] r IH]; cbn [SessionManager.set SessionManager.lookup].
  - now rewrite Z.eqb_refl.
  - destruct (Z.eqb_spec key k) as [->|Hne]; cbn [SessionManager.lookup].
    + now rewrite Z.eqb_refl.
    + destruct (Z.eqb_spec key k); [contradiction|exact IH].
Qed.

Lemma lookup_set_other (key k : Z) (s : SessionManager.session)
  (l : list (Z * SessionManager.session)) :
  key <> k ->
  SessionManager.lookup key (SessionManager.set k s l) = SessionManager.lookup key l.
Proof.
  intros Hne. induction l as [|[k' t] r IH]; cbn [SessionManager.set SessionManager.lookup].
  - destruct (Z.eqb_spec key k); [contradiction|reflexivity].
  - destruct (Z.eqb_spec k k') as [->|Hk]; cbn [SessionManager.lookup].
    + destruct (Z.eqb_spec key k'); [contradiction|reflexivity].
    + destruct (key =? k')%Z; [reflexivity|exact IH].
Qed.

(** X27.  [recordSessionError] on a stored session sets its status to
    [error] and appends the error to its log, of which the last ten entries
    are kept, oldest first; the request count and the last activity are not
    touched, and no other session changes. *)
Theorem error_log_keeps_the_last_ten
  (key : Z) (text : string) (now : Z) (st : SessionManager.store)
  (s : SessionManager.session) :
  SessionManager.getSession key st = Some s ->
  exists s',
    SessionManager.recordSessionError key text now st
    = (Some s', snd (SessionManager.recordSessionError key text now st))
    /\ SessionManager.getSession key
         (snd (SessionManager.recordSessionError key text now st)) = Some s'
    /\ (forall other, other <> key ->
          SessionManager.getSession other
            (snd (SessionManager.recordSessionError key text now st))
          = SessionManager.getSession other st)
    /\ SessionManager.status s' = SessionManager.StatusError
    /\ (exists older,
          SessionManager.errors s'
          = (older ++ [{| SessionManager.message := text;
                          SessionManager.timestamp := now |}])%list
          /\ exists dropped, SessionManager.errors s = (dropped ++ older)%list)
    /\ List.length (SessionManager.errors s')
       = Nat.min (S (List.length (SessionManager.errors s))) 10
    /\ SessionManager.requestCount s' = SessionManager.requestCount s
    /\ SessionManager.lastActivity s' = SessionManager.lastActivity s.
Proof.
  unfold SessionManager.getSession, SessionManager.recordSessionError, SessionManager.update.
  intros ->. eexists. split; [reflexivity|].
  cbn [snd SessionManager.sessions SessionManager.status SessionManager.errors
         SessionManager.requestCount SessionManager.lastActivity].
  split; [apply lookup_set_same|].
  split; [intros other Ho; now apply lookup_set_other|].
  split; [reflexivity|].
  set (new := {| SessionManager.message := text; SessionManager.timestamp := now |}).
  unfold SessionManager.lastTen. rewrite length_app. cbn [List.length].
  destruct (Nat.ltb_spec 10 (List.length (SessionManager.errors s) + 1)) as [Hlt|Hge].
  - split; [|split; [|split; reflexivity]].
    + exists (skipn (List.length (SessionManager.errors s) + 1 - 10) (SessionManager.errors s)).
      split.
      * rewrite skipn_app.
        replace (List.length (SessionManager.errors s) + 1 - 10
                 - List.length (SessionManager.errors s))%nat with 0%nat by lia.
        reflexivity.
      * exists (firstn (List.length (SessionManager.errors s) + 1 - 10)
                  (SessionManager.errors s)).
        now rewrite firstn_skipn.
    + rewrite length_skipn, length_app. cbn [List.length]. lia.
  - split; [|split; [|split; reflexivity]].
    + exists (SessionManager.errors s). split; [reflexivity|]. now exists [].
    + rewrite length_app. cbn [List.length]. lia.
Qed.

Lemma error_log_keeps_the_last_ten_witness :
  exists s',
    SessionManager.getSession 1
      (snd (SessionManager.recordSessionError 1 "boom" 5
              (SessionManager.runAll [SessionManager.CreateSession None 0])))
    = Some s'
    /\ SessionManager.status s' = SessionManager.StatusError
    /\ List.length (SessionManager.errors s') = 1%nat.
Proof.
  destruct (error_log_keeps_the_last_ten 1 "boom" 5
              (SessionManager.runAll [SessionManager.CreateSession None 0])
              _ eq_refl) as [s' [_ [H1 [_ [H2 [_ [H3 _]]]]]]].
  exists s'. repeat split; auto.
Defined.


Lemma lookup_remove_same (key : Z) (l : list (Z * SessionManager.session)) :
  NoDup (map fst l) -> SessionManager.lookup key (SessionManager.remove key l) = None.
Proof.
  induction l as [|[k t] r IH]; [reflexivity|]. cbn [map fst SessionManager.remove].
  intros H. inversion H as [|? ? Hn Hr]; subst.
  destruct (Z.eqb_spec key k) as [->|Hne].
  - now apply lookup_None.
  - cbn [SessionManager.lookup]. destruct (Z.eqb_spec key k); [contradiction|now apply IH].
Qed.

Lemma remove_length (key : Z) (l : list (Z * SessionManager.session))
  (s : SessionManager.session) :
  SessionManager.lookup key l = Some s ->
  S (List.length (SessionManager.remove key l)) = List.length l.
Proof.
  induction l as [|[k t] r IH]; [discriminate|].
  cbn [SessionManager.lookup SessionManager.remove].
  destruct (key =? k)%Z; [reflexivity|]. intros H. cbn [List.length]. now rewrite IH.
Qed.

(** X28.  On the sessions router, a parameter that [parseInt] does not
    read as a number is answered 404 by GET, DELETE and PATCH (with a name),
    without a change of the store; a PATCH without a truthy [name] is
    answered 400 whatever the parameter; after a successful DELETE the
    store has one session less and both GET and DELETE on the same
    parameter are answered 404. *)
Theorem session_routes_by_id (calls : list SessionManager.call) (param : string) :
  let st := SessionManager.runAll calls in
  (SessionManager.parseInt param = None ->
   SessionsRouter.getOne param st = SessionsRouter.notFound
   /\ SessionsRouter.deleteOne param st = (SessionsRouter.notFound, st)
   /\ forall body name,
        JS.get "name" body = Some name -> JS.truthy (Some name) = true ->
        SessionsRouter.patchOne param body st = (SessionsRouter.notFound, st))
  /\ (forall body, JS.truthy (JS.get "name" body) = false -> body <> JS.JNull ->
        SessionsRouter.patchOne param body st
        = (SessionsRouter.Failure 400 "Name is required", st))
  /\ (fst (SessionsRouter.deleteOne param st) = SessionsRouter.Deleted ->
      let st' := snd (SessionsRouter.deleteOne param st) in
      SessionsRouter.getOne param st' = SessionsRouter.notFound
      /\ SessionsRouter.deleteOne param st' = (SessionsRouter.notFound, st')
      /\ S (List.length (SessionManager.sessions st'))
         = List.length (SessionManager.sessions st)).
Proof.
  cbn zeta. pose proof (runAll_consistent calls) as [_ [Hnd _]].
  set (st := SessionManager.runAll calls) in *.
  split; [|split].
  - intros Hp. unfold SessionsRouter.getOne, SessionsRouter.deleteOne,
      SessionsRouter.patchOne. rewrite Hp.
    repeat split. intros body name Hb Hn.
    destruct body; try discriminate. now rewrite Hb, Hn.
  - intros body Hn Hb. unfold SessionsRouter.patchOne.
    destruct body; try reflexivity; [now elim Hb|].
    destruct (JS.get "name" (JS.JObj props)) as [name|]; [|reflexivity].
    now rewrite Hn.
  - unfold SessionsRouter.deleteOne, SessionsRouter.getOne,
      SessionManager.deleteSession, SessionManager.getSession.
    destruct (SessionManager.parseInt param) as [key|]; [|discriminate].
    destruct (SessionManager.lookup key (SessionManager.sessions st)) as [s|] eqn:El;
      [|discriminate].
    intros _. cbn [snd SessionManager.sessions].
    rewrite (lookup_remove_same key _ Hnd). repeat split.
    now apply remove_length with (s := s).
Qed.

(* ================================================================= *)
(** ** The escaping of the launcher *)

Lemma append_nil_r (s : string) : s ++ EmptyString = s.
Proof. induction s as [|c r IH]; [reflexivity|]. cbn. now rewrite IH. Qed.

Lemma append_assoc (a b c : string) : (a ++ b) ++ c = a ++ (b ++ c).
Proof. induction a as [|x r IH]; [reflexivity|]. cbn. now rewrite IH. Qed.

Lemma replaceAll_app (c : ascii) (replacement a b : string) :
  TerminalLauncher.replaceAll c replacement (a ++ b)
  = TerminalLauncher.replaceAll c replacement a
    ++ TerminalLauncher.replaceAll c replacement b.
Proof.
  induction a as [|x r IH]; [reflexivity|]. cbn [append TerminalLauncher.replaceAll].
  destruct (Ascii.eqb x c); [|cbn [append]; now rewrite IH].
  now rewrite IH, append_assoc.
Qed.

Lemma safeCommands_app (a b : string) :
  TerminalLauncher.safeCommands (a ++ b)
  = TerminalLauncher.safeCommands a ++ TerminalLauncher.safeCommands b.
Proof. unfold TerminalLauncher.safeCommands. now rewrite !replaceAll_app. Qed.

Lemma safeCommands_char (x : ascii) :
  TerminalLauncher.safeCommands (String x EmptyString)
  = if special x then String TerminalLauncher.backslash (String x EmptyString)
    else String x EmptyString.
Proof.
  unfold special.
  destruct (Ascii.eqb_spec x TerminalLauncher.backslash) as [->|H1]; [reflexivity|].
  destruct (Ascii.eqb_spec x TerminalLauncher.quote) as [->|H2]; [reflexivity|].
  destruct (Ascii.eqb_spec x TerminalLauncher.dollar) as [->|H3]; [reflexivity|].
  destruct (Ascii.eqb_spec x TerminalLauncher.backtick) as [->|H4]; [reflexivity|].
  apply Ascii.eqb_neq in H1, H2, H3, H4.
  unfold TerminalLauncher.safeCommands. cbn [TerminalLauncher.replaceAll].
  rewrite H1. cbn [TerminalLauncher.replaceAll]. rewrite H2.
  cbn [TerminalLauncher.replaceAll]. rewrite H3. cbn [TerminalLauncher.replaceAll].
  now rewrite H4.
Qed.

Lemma safeCommands_escape (commands : string) :
  TerminalLauncher.safeCommands commands = escape commands.
Proof.
  induction commands as [|x r IH]; [reflexivity|].
  change (String x r) with (String x EmptyString ++ r).
  rewrite safeCommands_app, safeCommands_char, IH. cbn [escape append].
  now destruct (special x).
Qed.

(** X29.  The four replacements of [_spawnMacOS], in their order,
    amount to one pass that puts a backslash before each backslash, double
    quote, dollar sign and backtick.  In the result no such character
    stands outside an escape, reading the escapes gives the command line
    back, and a command line without these four characters is left as it
    is. *)
Theorem safeCommands_escapes_every_special_character (commands : string) :
  TerminalLauncher.safeCommands commands = escape commands
  /\ well_escaped (TerminalLauncher.safeCommands commands) = true
  /\ unescape (TerminalLauncher.safeCommands commands) = commands
  /\ (JS.all_chars (fun c => negb (special c)) commands = true ->
      TerminalLauncher.safeCommands commands = commands).
Proof.
  rewrite safeCommands_escape. split; [reflexivity|].
  assert (Hb : special TerminalLauncher.backslash = true) by reflexivity.
  split; [|split].
  - induction commands as [|x r IH]; [reflexivity|]. cbn [escape].
    destruct (special x) eqn:Hx.
    + cbn [well_escaped]. now rewrite Ascii.eqb_refl.
    + cbn [well_escaped].
      destruct (Ascii.eqb_spec x TerminalLauncher.backslash) as [->|Hne]; [congruence|].
      now rewrite Hx.
  - induction commands as [|x r IH]; [reflexivity|]. cbn [escape].
    destruct (special x) eqn:Hx.
    + cbn [unescape]. rewrite Ascii.eqb_refl. now rewrite IH.
    + cbn [unescape].
      destruct (Ascii.eqb_spec x TerminalLauncher.backslash) as [->|Hne]; [congruence|].
      now rewrite IH.
  - induction commands as [|x r IH]; [reflexivity|]. cbn [JS.all_chars escape].
    intros H. apply andb_prop in H. destruct H as [Hx Hr].
    apply negb_true_iff in Hx. rewrite Hx. now rewrite IH.
Qed.


(* ================================================================= *)
(** ** The Gemini transcoder *)

Lemma gemini_texts (blocks : list JS.json) :
  ~ In JS.JNull blocks ->
  JS.mapM (fun c => JS.prop "text" (Some c)) blocks = JS.Ok (map (JS.get "text") blocks).
Proof.
  induction blocks as [|b r IH]; intros Hn; [reflexivity|].
  cbn [map JS.mapM]. rewrite IH by (intros H; apply Hn; now right).
  rewrite (prop_not_null "text" b); [reflexivity|].
  intros ->. apply Hn. now left.
Qed.

Lemma gemini_texts_inv (blocks : list JS.json) (texts : list (option JS.json)) :
  JS.mapM (fun c => JS.prop "text" (Some c)) blocks = JS.Ok texts ->
  ~ In JS.JNull blocks /\ texts = map (JS.get "text") blocks.
Proof.
  revert texts. induction blocks as [|b r IH]; intros texts H.
  - injection H as <-. split; [intros []|reflexivity].
  - cbn [JS.mapM] in H.
    destruct (JS.prop "text" (Some b)) as [t|] eqn:Eb; [|discriminate].
    destruct (JS.mapM _ r) as [ts|] eqn:Er; [|discriminate].
    injection H as <-. destruct (IH ts eq_refl) as [Hn ->].
    assert (Hb : b <> JS.JNull) by (intros ->; discriminate Eb).
    rewrite (prop_not_null "text" b Hb) in Eb. injection Eb as <-.
    split; [|reflexivity]. intros [->|Hin]; [now apply Hb|now apply Hn].
Qed.

(** The conversion of a message returns exactly when the message has a
    text, and gives the content for it. *)
Lemma gemini_convertMessage (pf : JS.Platform) (msg out : JS.json) :
  GeminiTranscoder.convertMessage pf msg = JS.Ok out
  <-> exists text, message_text pf msg text /\ out = geminiContent msg text.
Proof.
  unfold GeminiTranscoder.convertMessage, message_text, geminiContent.
  split.
  - destruct msg as [| | | | |props]; cbn [JS.prop JS.bind JS.get];
      try discriminate.
    destruct (JS.assoc "content" props) as [[| | |s|blocks|]|]; try discriminate.
    + cbn [JS.bind]. intros [= <-]. exists s. split; [now left|].
      cbn [JS.get]. now destruct (JS.is_str "assistant" (JS.assoc "role" props)).
    + destruct (JS.mapM _ blocks) as [texts|] eqn:Em; cbn [JS.bind]; [|discriminate].
      destruct (gemini_texts_inv blocks texts Em) as [Hn ->].
      destruct (JS.join_empty pf _) as [joined|] eqn:Ej; cbn [JS.bind]; [|discriminate].
      intros [= <-]. exists joined. split; [right; exists blocks; auto|].
      cbn [JS.get]. now destruct (JS.is_str "assistant" (JS.assoc "role" props)).
  - intros [text [[Hc|[blocks [Hc [Hn Hj]]]] ->]];
      destruct msg as [| | | | |props]; try discriminate Hc;
      rewrite !(prop_not_null _ (JS.JObj props)) by discriminate;
      cbn [JS.bind]; rewrite Hc; cbn [JS.bind].
    + now destruct (JS.is_str "assistant" (JS.get "role" (JS.JObj props))).
    + rewrite (gemini_texts blocks Hn). cbn [JS.bind]. rewrite Hj. cbn [JS.bind].
      now destruct (JS.is_str "assistant" (JS.get "role" (JS.JObj props))).
Qed.

Lemma gemini_mapM (pf : JS.Platform) (msgs outs : list JS.json) :
  JS.mapM (GeminiTranscoder.convertMessage pf) msgs = JS.Ok outs
  <-> Forall2 (fun msg out =>
                 exists text, message_text pf msg text /\ out = geminiContent msg text)
              msgs outs.
Proof.
  revert outs. induction msgs as [|m r IH]; intros outs.
  - split.
    + intros [= <-]. constructor.
    + intros H. now inversion H.
  - cbn [JS.mapM]. split.
    + destruct (GeminiTranscoder.convertMessage pf m) as [o|] eqn:Em; [|discriminate].
      destruct (JS.mapM _ r) as [os|] eqn:Er; [|discriminate].
      intros [= <-]. constructor.
      * now apply gemini_convertMessage.
      * now apply IH.
    + intros H. inversion H as [|? o ? os Hm Hr]; subst.
      apply gemini_convertMessage in Hm. rewrite Hm.
      apply IH in Hr. now rewrite Hr.
Qed.

(** X30.  When [toGemini] returns, its body holds an array [messages],
    each message of which has a text: its string content, or the
    concatenation of the [text] of the elements of its array content, none
    of them [null].  The contents of the payload are, in order, one content
    for each message: the role [model] for an assistant and [user]
    otherwise, and one part with the text.  [temperature] defaults to 0.7
    also when the body gives 0, [maxOutputTokens] to 8192, and a falsy
    [system] gives no [system_instruction].  Conversely [toGemini] returns
    on every body whose messages have a text.  [fromGeminiStream] turns a
    chunk whose first candidate holds a text in the first part of its
    content into a text delta at the given index, and into nothing when
    the text is falsy. *)
Theorem toGemini_conversion (pf : JS.Platform) :
  (forall body payload,
     GeminiTranscoder.toGemini pf body = JS.Ok payload ->
     exists msgs outs config,
       JS.get "messages" body = Some (JS.JArr msgs)
       /\ Forall2 (fun msg out =>
                     exists text,
                       message_text pf msg text /\ out = geminiContent msg text)
                  msgs outs
       /\ JS.get "contents" payload = Some (JS.JArr outs)
       /\ JS.get "generationConfig" payload = Some config
       /\ (JS.truthy (JS.get "temperature" body) = false ->
           JS.get "temperature" config = Some (JS.JNum (JS.Fin (7 # 10))))
       /\ (JS.truthy (JS.get "temperature" body) = true ->
           JS.get "temperature" config = JS.get "temperature" body)
       /\ (JS.truthy (JS.get "max_tokens" body) = false ->
           JS.get "maxOutputTokens" config = Some (JS.JNum (JS.ofZ 8192)))
       /\ (JS.truthy (JS.get "system" body) = false ->
           JS.get "system_instruction" payload = None))
  /\ (forall body msgs,
        JS.get "messages" body = Some (JS.JArr msgs) ->
        Forall (fun msg => exists text, message_text pf msg text) msgs ->
        exists payload, GeminiTranscoder.toGemini pf body = JS.Ok payload)
  /\ (forall chunk index candidates candidate content parts part text,
        JS.get "candidates" chunk = Some candidates ->
        JS.first candidates = Some candidate ->
        JS.get "content" candidate = Some content ->
        JS.get "parts" content = Some parts ->
        JS.first parts = Some part ->
        JS.get "text" part = Some text ->
        GeminiTranscoder.fromGeminiStream chunk index
        = JS.Ok (if JS.truthy (Some text)
                 then Some (JS.obj [("type", Some (JS.JStr "content_block_delta"));
                                    ("index", index);
                                    ("delta",
                                     Some (JS.obj [("type", Some (JS.JStr "text_delta"));
                                                   ("text", Some text)]))])
                 else None)).
Proof.
  split; [|split].
  - intros body payload. unfold GeminiTranscoder.toGemini.
    destruct body as [| | | | |props]; try discriminate;
      cbn [JS.get]; try discriminate.
    destruct (JS.assoc "messages" props) as [[| | | |msgs|]|]; try discriminate.
    destruct (JS.mapM (GeminiTranscoder.convertMessage pf) msgs) as [outs|] eqn:Em;
      [|discriminate].
    cbn [JS.bind]. intros [= <-].
    exists msgs, outs. eexists.
    split; [reflexivity|]. split; [now apply gemini_mapM|].
    split; [reflexivity|].
    unfold JS.or_else.
    destruct (JS.truthy (JS.assoc "system" props));
      (split; [reflexivity|]);
      (destruct (JS.truthy (JS.assoc "temperature" props)) eqn:Et;
       destruct (JS.truthy (JS.assoc "max_tokens" props)) eqn:Emt;
       destruct (JS.assoc "temperature" props) as [t|];
       destruct (JS.assoc "max_tokens" props) as [mt|];
       try discriminate;
       repeat split; intros; try reflexivity; try discriminate).
  - intros body msgs Hm Hall. unfold GeminiTranscoder.toGemini.
    destruct body as [| | | | |props]; try discriminate Hm.
    rewrite Hm.
    assert (Hout : exists outs,
               JS.mapM (GeminiTranscoder.convertMessage pf) msgs = JS.Ok outs).
    { clear Hm. induction Hall as [|m r [text Ht] _ [outs IH]]; [now exists []|].
      exists (geminiContent m text :: outs). apply gemini_mapM. constructor.
      - eauto.
      - now apply gemini_mapM. }
    destruct Hout as [outs ->]. cbn [JS.bind]. eauto.
  - intros chunk index candidates candidate content parts part text
           Hc Hf Hco Hp Hfp Ht.
    unfold GeminiTranscoder.fromGeminiStream, GeminiTranscoder.chunkText.
    assert (Hnn : chunk <> JS.JNull) by (intros ->; discriminate Hc).
    rewrite (prop_not_null "candidates" chunk Hnn), Hc. cbn [JS.bind].
    assert (Hcs : candidates <> JS.JNull) by (intros ->; discriminate Hf).
    assert (Hcd : candidate <> JS.JNull) by (intros ->; discriminate Hco).
    assert (Hct : content <> JS.JNull) by (intros ->; discriminate Hp).
    assert (Hps : parts <> JS.JNull) by (intros ->; discriminate Hfp).
    assert (Hpt : part <> JS.JNull) by (intros ->; discriminate Ht).
    destruct candidates; try (now elim Hcs); rewrite Hf;
      (destruct candidate; try (now elim Hcd); rewrite Hco;
       destruct content; try (now elim Hct); rewrite Hp;
       destruct parts; try (now elim Hps); rewrite Hfp;
       destruct part; try (now elim Hpt); rewrite Ht);
      unfold JS.or_else;
      (destruct (JS.truthy (Some text)) eqn:Et; [rewrite Et|]; reflexivity).
Qed.

Lemma zeroTemperature_texts :
  Forall (fun msg => exists text, message_text examplePlatform msg text)
         [resultThenText; assistantTurn].
Proof.
  repeat constructor.
  - exists "thanks". right. exists resultThenTextBlocks.
    split; [reflexivity|]. split; [|reflexivity]. cbn. intuition discriminate.
  - exists "Let me check.". right. exists assistantTurnBlocks.
    split; [reflexivity|]. split; [|reflexivity]. cbn. intuition discriminate.
Defined.

Lemma toGemini_conversion_witness :
  (exists payload,
      GeminiTranscoder.toGemini examplePlatform zeroTemperatureBody = JS.Ok payload)
  /\ JS.get "contents"
       (JS.JObj [("contents",
                  JS.JArr [geminiContent resultThenText "thanks";
                           geminiContent assistantTurn "Let me check."]);
                 ("generationConfig",
                  JS.JObj [("temperature", JS.JNum (JS.Fin (7 # 10)));
                           ("maxOutputTokens", JS.JNum (JS.ofZ 8192));
                           ("stopSequences", JS.JArr [])])])
     = Some (JS.JArr [geminiContent resultThenText "thanks";
                      geminiContent assistantTurn "Let me check."])
  /\ GeminiTranscoder.fromGeminiStream (geminiChunk "ok") (Some (JS.JNum (JS.ofZ 0)))
     = JS.Ok (Some (JS.obj [("type", Some (JS.JStr "content_block_delta"));
                            ("index", Some (JS.JNum (JS.ofZ 0)));
                            ("delta",
                             Some (JS.obj [("type", Some (JS.JStr "text_delta"));
                                           ("text", Some (JS.JStr "ok"))]))])).
Proof.
  split; [|split].
  - apply (proj1 (proj2 (toGemini_conversion examplePlatform)) zeroTemperatureBody
                 [resultThenText; assistantTurn] eq_refl zeroTemperature_texts).
  - reflexivity.
  - apply (proj2 (proj2 (toGemini_conversion examplePlatform))
                 (geminiChunk "ok") (Some (JS.JNum (JS.ofZ 0)))
                 (JS.JArr [JS.JObj [("content",
                                     JS.JObj [("parts",
                                               JS.JArr [JS.JObj [("text", JS.JStr "ok")]])])]])
                 (JS.JObj [("content",
                            JS.JObj [("parts",
                                      JS.JArr [JS.JObj [("text", JS.JStr "ok")]])])])
                 (JS.JObj [("parts", JS.JArr [JS.JObj [("text", JS.JStr "ok")]])])
                 (JS.JArr [JS.JObj [("text", JS.JStr "ok")]])
                 (JS.JObj [("text", JS.JStr "ok")])
                 (JS.JStr "ok") eq_refl eq_refl eq_refl eq_refl eq_refl eq_refl).
Defined.

(** The payload for a body that gives the temperature 0. *)
Example toGemini_zero_temperature :
  GeminiTranscoder.toGemini examplePlatform zeroTemperatureBody
  = JS.Ok (JS.JObj [("contents",
                     JS.JArr [geminiContent resultThenText "thanks";
                              geminiContent assistantTurn "Let me check."]);
                    ("generationConfig",
                     JS.JObj [("temperature", JS.JNum (JS.Fin (7 # 10)));
                              ("maxOutputTokens", JS.JNum (JS.ofZ 8192));
                              ("stopSequences", JS.JArr [])])]).
Proof. reflexivity. Qed.
